(** * credix: the transaction-and-balance engine of [backend/server.py]

    A shallow embedding of the transaction routes and of the two report
    routes of the FastAPI server, over an explicit model of the three
    MongoDB collections ([users], [categories], [transactions]).

    Modelling choices:
    - a collection is the list of its documents in insertion order;
      [find_one] returns the first match, [update_one] rewrites the first
      match, [insert_one] appends, [to_list n] keeps the first [n] matches;
    - a Python [float] is a binary64 number, the primitive [float] whose
      operations round as the processor does; [to_Q] reads the exact
      rational value of a finite one, and statements about exact sums are
      made of these values; the built-in [sum] is the plain left-to-right
      loop;
    - a handler is a function from the store to the store and either an
      [HTTPException] or a value, so that what has been written before a
      [raise] stays written;
    - [uuid.uuid4()] and [datetime.now(timezone.utc)] are arguments of the
      handlers that use them;
    - datetimes are stored as their [isoformat()] strings and the store
      compares them as byte strings, as the queries of the source do. *)

From Stdlib Require Import Floats.
From Stdlib Require Import List String Ascii Bool ZArith NArith QArith Qpower.
From Stdlib Require Import Lia Lqa Permutation Sorted.
Import ListNotations.

Set Warnings "-inexact-float".

Local Open Scope string_scope.
Local Open Scope float_scope.

(** ** Binary64 numbers

    Amounts and balances are Python floats, stored by MongoDB as doubles.
    The arithmetic of the handlers is the primitive one: [x + y], [x - y],
    [x * y] and [x / y] are the correctly rounded binary64 operations,
    with infinities and NaN. *)

(** The rational number a finite binary64 value stands for; [0] for the
    infinities and NaN, which stand for none. *)
Definition SF2Q (x : spec_float) : Q :=
  match x with
  | S754_finite s m e =>
      ((if s then -1 else 1) * inject_Z (Zpos m) * Qpower 2 e)%Q
  | _ => 0%Q
  end.

Definition to_Q (x : float) : Q := SF2Q (Prim2SF x).

(** An operation on finite numbers whose result is finite and is the
    exact result: nothing was rounded away. *)
Definition exact_add (x y : float) : bool :=
  is_finite x && is_finite y && is_finite (x + y) &&
  Qeq_bool (to_Q (x + y)) (to_Q x + to_Q y).

Definition exact_sub (x y : float) : bool :=
  is_finite x && is_finite y && is_finite (x - y) &&
  Qeq_bool (to_Q (x - y)) (to_Q x - to_Q y).




(** ** Enums and documents *)

Inductive TransactionType : Type :=
| INCOME
| EXPENSE
| TRANSFER.

Definition TransactionType_eqb (a b : TransactionType) : bool :=
  match a, b with
  | INCOME, INCOME | EXPENSE, EXPENSE | TRANSFER, TRANSFER => true
  | _, _ => false
  end.

(** [datetime]: the fields of a Python datetime; [utcoffset] is the offset
    of an aware datetime in minutes east of UTC, [None] for a naive one. *)
Record datetime : Type := mk_datetime {
  year : N;
  month : N;
  day : N;
  hour : N;
  minute : N;
  second : N;
  microsecond : N;
  utcoffset : option Z
}.

(** A document of [db.users]. *)
Record User : Type := mk_User {
  u_id : string;
  u_email : string;
  u_total_balance : float;
  u_is_active : bool
}.

(** A document of [db.categories]. *)
Record Category : Type := mk_Category {
  c_id : string;
  c_user_id : string;
  c_name : string;
  c_is_active : bool
}.

(** A document of [db.transactions]; both dates are ISO-8601 strings. *)
Record Transaction : Type := mk_Transaction {
  t_id : string;
  t_user_id : string;
  t_amount : float;
  t_description : string;
  t_type : TransactionType;
  t_category_id : option string;
  t_transaction_date : string;
  t_notes : option string;
  t_created_at : string;
  t_is_active : bool
}.

(** Request bodies.  In [TransactionCreate] a missing [transaction_date]
    is filled by the default factory with the current time. *)
Record TransactionCreate : Type := mk_TransactionCreate {
  tc_amount : float;
  tc_description : string;
  tc_type : TransactionType;
  tc_category_id : option string;
  tc_transaction_date : option datetime;
  tc_notes : option string
}.

Record TransactionUpdate : Type := mk_TransactionUpdate {
  tu_amount : option float;
  tu_description : option string;
  tu_type : option TransactionType;
  tu_category_id : option string;
  tu_transaction_date : option datetime;
  tu_notes : option string
}.

(** [now.month] and [now.year], where [month] and [year] also name the
    query parameters of the report routes *)
Definition month_of (d : datetime) : N := month d.

Definition year_of (d : datetime) : N := year d.

(** ** [datetime.isoformat()] *)

Definition digit (n : N) : ascii := ascii_of_N (48 + n mod 10).

Definition pad2 (n : N) : string :=
  String (digit (n / 10)) (String (digit n) EmptyString).

Definition pad4 (n : N) : string :=
  String (digit (n / 1000)) (String (digit (n / 100)) (pad2 n)).

Definition pad6 (n : N) : string :=
  String (digit (n / 100000)) (String (digit (n / 10000)) (pad4 n)).

Definition format_offset (off : option Z) : string :=
  match off with
  | None => ""
  | Some m =>
      let a := Z.to_N (Z.abs m) in
      (if (m <? 0)%Z then "-" else "+") ++ pad2 (a / 60) ++ ":" ++ pad2 (a mod 60)
  end.

Definition isoformat (d : datetime) : string :=
  pad4 (year d) ++ "-" ++ pad2 (month d) ++ "-" ++ pad2 (day d) ++ "T" ++
  pad2 (hour d) ++ ":" ++ pad2 (minute d) ++ ":" ++ pad2 (second d) ++
  (if (microsecond d =? 0)%N then "" else "." ++ pad6 (microsecond d)) ++
  format_offset (utcoffset d).

(** [datetime(y, m, 1, tzinfo=timezone.utc)] *)
Definition first_of_month (y m : N) : datetime :=
  mk_datetime y m 1 0 0 0 0 (Some 0%Z).

(** ** The store *)

Record DB : Type := mk_DB {
  users : list User;
  categories : list Category;
  transactions : list Transaction
}.

Section Collection.
Context {Doc : Type}.

Definition find_one (query : Doc -> bool) (coll : list Doc) : option Doc :=
  find query coll.

Definition find_many (query : Doc -> bool) (coll : list Doc) : list Doc :=
  filter query coll.

Definition to_list (length : nat) (cursor : list Doc) : list Doc :=
  firstn length cursor.

Definition insert_one (doc : Doc) (coll : list Doc) : list Doc :=
  coll ++ [doc].

Fixpoint update_one (query : Doc -> bool) (upd : Doc -> Doc)
    (coll : list Doc) : list Doc :=
  match coll with
  | [] => []
  | d :: rest =>
      if query d then upd d :: rest else d :: update_one query upd rest
  end.
End Collection.

(** ** Handlers: store passing with exceptions *)

Record HTTPException : Type := mk_HTTPException {
  status_code : Z;
  detail : string
}.

Definition CategoryNotFound : HTTPException :=
  mk_HTTPException 400 "Category not found".

Definition TransactionNotFound : HTTPException :=
  mk_HTTPException 404 "Transaction not found".

Definition ValidationError : HTTPException :=
  mk_HTTPException 422 "Unprocessable Entity".

Definition Handler (A : Type) : Type := DB -> DB * (HTTPException + A).

Definition ret {A : Type} (a : A) : Handler A := fun db => (db, inr a).

Definition raise {A : Type} (e : HTTPException) : Handler A :=
  fun db => (db, inl e).

Definition bind {A B : Type} (m : Handler A) (k : A -> Handler B) : Handler B :=
  fun db =>
    match m db with
    | (db', inl e) => (db', inl e)
    | (db', inr a) => k a db'
    end.

Declare Scope handler_scope.
Delimit Scope handler_scope with handler.
Notation "x <- m ;; k" := (bind m (fun x => k))
  (at level 61, m at next level, right associativity) : handler_scope.
Notation "m ;; k" := (bind m (fun _ => k))
  (at level 61, right associativity) : handler_scope.
Local Open Scope handler_scope.

Definition when (b : bool) (m : Handler unit) : Handler unit :=
  if b then m else ret tt.

Definition categories_find_one (query : Category -> bool)
  : Handler (option Category) :=
  fun db => (db, inr (find_one query (categories db))).

Definition transactions_find_one (query : Transaction -> bool)
  : Handler (option Transaction) :=
  fun db => (db, inr (find_one query (transactions db))).

Definition transactions_insert_one (doc : Transaction) : Handler unit :=
  fun db =>
    (mk_DB (users db) (categories db) (insert_one doc (transactions db)), inr tt).

Definition transactions_update_one (query : Transaction -> bool)
    (upd : Transaction -> Transaction) : Handler unit :=
  fun db =>
    (mk_DB (users db) (categories db) (update_one query upd (transactions db)),
     inr tt).

Definition users_update_one (query : User -> bool) (upd : User -> User)
  : Handler unit :=
  fun db =>
    (mk_DB (update_one query upd (users db)) (categories db) (transactions db),
     inr tt).

(** [{"$inc": {"total_balance": delta}}] *)
Definition inc_total_balance (delta : float) (u : User) : User :=
  mk_User (u_id u) (u_email u) (u_total_balance u + delta) (u_is_active u).

(** [{"$set": {"is_active": False}}] on a transaction *)
Definition set_inactive (t : Transaction) : Transaction :=
  mk_Transaction (t_id t) (t_user_id t) (t_amount t) (t_description t)
    (t_type t) (t_category_id t) (t_transaction_date t) (t_notes t)
    (t_created_at t) false.

(** ** Request validation (the pydantic [Field] constraints) *)

Definition nonempty (s : string) : bool :=
  match s with EmptyString => false | String _ _ => true end.

(** [Field(..., gt=0)]: NaN and every number that is not above zero are
    refused; positive infinity passes. *)
Definition validate_create (d : TransactionCreate) : bool :=
  (0 <? tc_amount d) && nonempty (tc_description d).

Definition validate_update (d : TransactionUpdate) : bool :=
  match tu_amount d with Some a => 0 <? a | None => true end &&
  match tu_description d with Some s => nonempty s | None => true end.

(** ** Transaction routes *)

(** The truth value of an [Optional[str]]: [None] and [""] are falsy. *)
Definition truthy (o : option string) : bool :=
  match o with Some s => nonempty s | None => false end.

Definition opt_eqb (a b : option string) : bool :=
  match a, b with
  | Some x, Some y => String.eqb x y
  | None, None => true
  | _, _ => false
  end.

(** The filter [{"id": .., "user_id": .., "is_active": True}] on categories *)
Definition category_query (cid uid : string) (c : Category) : bool :=
  String.eqb (c_id c) cid && String.eqb (c_user_id c) uid && c_is_active c.

(** The same filter on transactions *)
Definition transaction_query (tid uid : string) (t : Transaction) : bool :=
  String.eqb (t_id t) tid && String.eqb (t_user_id t) uid && t_is_active t.

Definition id_query (tid : string) (t : Transaction) : bool :=
  String.eqb (t_id t) tid.

Definition user_id_query (uid : string) (u : User) : bool :=
  String.eqb (u_id u) uid.

Definition create_transaction (transaction_data : TransactionCreate)
    (current_user : User) (uuid4 : string) (now : datetime)
  : Handler Transaction :=
  when (truthy (tc_category_id transaction_data))
    (category <- categories_find_one
       (category_query
          (match tc_category_id transaction_data with
           | Some c => c
           | None => ""
           end)
          (u_id current_user)) ;;
     match category with
     | None => raise CategoryNotFound
     | Some _ => ret tt
     end) ;;
  let transaction :=
    mk_Transaction uuid4 (u_id current_user)
      (tc_amount transaction_data) (tc_description transaction_data)
      (tc_type transaction_data) (tc_category_id transaction_data)
      (isoformat (match tc_transaction_date transaction_data with
                  | Some d => d
                  | None => now
                  end))
      (tc_notes transaction_data) (isoformat now) true in
  transactions_insert_one transaction ;;
  let balance_change :=
    if TransactionType_eqb (t_type transaction) INCOME
    then t_amount transaction else - t_amount transaction in
  let balance_change :=
    if TransactionType_eqb (t_type transaction) TRANSFER
    then 0 else balance_change in
  users_update_one (user_id_query (u_id current_user))
    (inc_total_balance balance_change) ;;
  ret transaction.

(** [update_data]: the fields of the body that are not [None], applied to
    a transaction document by [$set] and by [dict.update]. *)
Definition apply_update_data (d : TransactionUpdate) (t : Transaction)
  : Transaction :=
  mk_Transaction (t_id t) (t_user_id t)
    (match tu_amount d with Some a => a | None => t_amount t end)
    (match tu_description d with Some s => s | None => t_description t end)
    (match tu_type d with Some ty => ty | None => t_type t end)
    (match tu_category_id d with Some c => Some c | None => t_category_id t end)
    (match tu_transaction_date d with
     | Some dt => isoformat dt
     | None => t_transaction_date t
     end)
    (match tu_notes d with Some n => Some n | None => t_notes t end)
    (t_created_at t) (t_is_active t).

(** [if update_data:] the dictionary of supplied fields is not empty. *)
Definition update_data_nonempty (d : TransactionUpdate) : bool :=
  match tu_amount d with Some _ => true | None => false end ||
  match tu_description d with Some _ => true | None => false end ||
  match tu_type d with Some _ => true | None => false end ||
  match tu_category_id d with Some _ => true | None => false end ||
  match tu_transaction_date d with Some _ => true | None => false end ||
  match tu_notes d with Some _ => true | None => false end.

Definition update_transaction (transaction_id : string)
    (transaction_data : TransactionUpdate) (current_user : User)
  : Handler Transaction :=
  found <- transactions_find_one
    (transaction_query transaction_id (u_id current_user)) ;;
  match found with
  | None => raise TransactionNotFound
  | Some transaction =>
      let old_amount := t_amount transaction in
      let old_type := t_type transaction in
      transaction' <-
        (if update_data_nonempty transaction_data then
           transactions_update_one (id_query transaction_id)
             (apply_update_data transaction_data) ;;
           ret (apply_update_data transaction_data transaction)
         else ret transaction) ;;
      let new_amount := t_amount transaction' in
      let new_type := t_type transaction' in
      let old_balance_effect :=
        if TransactionType_eqb old_type INCOME then old_amount
        else if TransactionType_eqb old_type EXPENSE then - old_amount
        else 0 in
      let new_balance_effect :=
        if TransactionType_eqb new_type INCOME then new_amount
        else if TransactionType_eqb new_type EXPENSE then - new_amount
        else 0 in
      let balance_adjustment := new_balance_effect - old_balance_effect in
      when (negb (balance_adjustment =? 0))
        (users_update_one (user_id_query (u_id current_user))
           (inc_total_balance balance_adjustment)) ;;
      ret transaction'
  end.

Definition delete_transaction (transaction_id : string) (current_user : User)
  : Handler unit :=
  found <- transactions_find_one
    (transaction_query transaction_id (u_id current_user)) ;;
  match found with
  | None => raise TransactionNotFound
  | Some transaction =>
      let amount := t_amount transaction in
      let trans_type := t_type transaction in
      let balance_reversal :=
        if TransactionType_eqb trans_type INCOME then - amount
        else if TransactionType_eqb trans_type EXPENSE then amount
        else 0 in
      transactions_update_one (id_query transaction_id) set_inactive ;;
      when (negb (balance_reversal =? 0))
        (users_update_one (user_id_query (u_id current_user))
           (inc_total_balance balance_reversal)) ;;
      ret tt
  end.

(** The routes as the framework runs them: the body is validated first,
    and a body that fails validation never reaches the handler. *)
Definition post_transactions (body : TransactionCreate) (current_user : User)
    (uuid4 : string) (now : datetime) : Handler Transaction :=
  if validate_create body
  then create_transaction body current_user uuid4 now
  else raise ValidationError.

Definition put_transactions (transaction_id : string)
    (body : TransactionUpdate) (current_user : User) : Handler Transaction :=
  if validate_update body
  then update_transaction transaction_id body current_user
  else raise ValidationError.

(** ** The quantities the claims speak of *)

(** [effect(amount, type)]: the signed contribution of a transaction. *)
Definition effect (amount : float) (ty : TransactionType) : float :=
  match ty with
  | INCOME => amount
  | EXPENSE => - amount
  | TRANSFER => 0
  end.

(** The reversal a soft delete applies: the effect with its sign turned *)
Definition reversal (amount : float) (ty : TransactionType) : float :=
  match ty with
  | INCOME => - amount
  | EXPENSE => amount
  | TRANSFER => 0
  end.

(** The balance a client reads: [user.get('total_balance', 0.0)] of the
    document found under the user's id. *)
Definition total_balance (db : DB) (uid : string) : float :=
  match find_one (user_id_query uid) (users db) with
  | Some u => u_total_balance u
  | None => 0
  end.

Definition owned_active (uid : string) (t : Transaction) : bool :=
  String.eqb (t_user_id t) uid && t_is_active t.

(** The exact sum of the effects of a list of transactions *)
Fixpoint sum_effects (l : list Transaction) : Q :=
  match l with
  | [] => 0%Q
  | t :: rest => (to_Q (effect (t_amount t) (t_type t)) + sum_effects rest)%Q
  end.

(** The exact sum of the effects of the user's active transactions. *)
Definition ledger_balance (db : DB) (uid : string) : Q :=
  sum_effects (filter (owned_active uid) (transactions db)).

(** ** Report routes *)

(** A Python [dict] with insertion order: an association list without
    repeated keys.  Keys here are [Optional[str]]. *)
Section Dict.
Context {V : Type}.

Definition dict : Type := list (option string * V).

Fixpoint dict_get (k : option string) (d : dict) : option V :=
  match d with
  | [] => None
  | (k', v) :: rest => if opt_eqb k' k then Some v else dict_get k rest
  end.

Definition dict_mem (k : option string) (d : dict) : bool :=
  match dict_get k d with Some _ => true | None => false end.

(** [d[k] = v]: overwrite in place, or append a new key *)
Fixpoint dict_set (k : option string) (v : V) (d : dict) : dict :=
  match d with
  | [] => [(k, v)]
  | (k', v') :: rest =>
      if opt_eqb k' k then (k', v) :: rest
      else (k', v') :: dict_set k v rest
  end.

(** [d[k] = f(d[k])] for a key that is present *)
Fixpoint dict_modify (k : option string) (f : V -> V) (d : dict) : dict :=
  match d with
  | [] => []
  | (k', v') :: rest =>
      if opt_eqb k' k then (k', f v') :: rest
      else (k', v') :: dict_modify k f rest
  end.

Definition dict_get_default (k : option string) (default : V) (d : dict) : V :=
  match dict_get k d with Some v => v | None => default end.
End Dict.
Arguments dict V : clear implicits.

Record FinancialSummary : Type := mk_FinancialSummary {
  total_income : float;
  total_expense : float;
  net_balance : float;
  transaction_count : nat;
  fs_month : N;
  fs_year : N
}.

Record CategoryExpense : Type := mk_CategoryExpense {
  ce_category_id : option string;
  ce_category_name : string;
  ce_total_amount : float;
  ce_transaction_count : nat;
  ce_percentage : float
}.

Record ExpenseByCategory : Type := mk_ExpenseByCategory {
  expenses : list CategoryExpense;
  ebc_total_expense : float
}.

(** [sum(...)]: the items are added from the left, starting at [0], each
    addition rounded.  This is the plain loop; an interpreter that
    compensates the rounding of a float sum (CPython does from 3.12 on)
    can differ from it in the last digits, and agrees with it when no
    addition rounds. *)
Definition sum (l : list float) : float := fold_left PrimFloat.add l 0.

(** The total that a loop [total += x] builds from [0] *)
Definition accumulate (l : list float) : float := fold_left PrimFloat.add l 0.

(** [month or now.month]: a missing or zero value falls back. *)
Definition or_default (o : option N) (default : N) : N :=
  match o with
  | Some n => if (n =? 0)%N then default else n
  | None => default
  end.

(** The date range of a month as the two ISO strings of the query *)
Definition start_date (target_year target_month : N) : datetime :=
  first_of_month target_year target_month.

Definition end_date (target_year target_month : N) : datetime :=
  if (target_month =? 12)%N
  then first_of_month (target_year + 1) 1
  else first_of_month target_year (target_month + 1).

(** [{"$gte": lo, "$lt": hi}] on a string field: byte-wise comparison *)
Definition in_range (lo hi s : string) : bool :=
  String.leb lo s && String.ltb s hi.

Definition summary_query (uid : string) (lo hi : string) (t : Transaction)
  : bool :=
  String.eqb (t_user_id t) uid && t_is_active t &&
  in_range lo hi (t_transaction_date t).

Definition get_financial_summary (month year : option N)
    (current_user : User) (now : datetime) (db : DB) : FinancialSummary :=
  let target_month := or_default month (month_of now) in
  let target_year := or_default year (year_of now) in
  let lo := isoformat (start_date target_year target_month) in
  let hi := isoformat (end_date target_year target_month) in
  let selected :=
    to_list (N.to_nat 10000)
      (find_many (summary_query (u_id current_user) lo hi) (transactions db)) in
  let total_income :=
    sum (map t_amount
           (filter (fun t => TransactionType_eqb (t_type t) INCOME) selected)) in
  let total_expense :=
    sum (map t_amount
           (filter (fun t => TransactionType_eqb (t_type t) EXPENSE) selected)) in
  mk_FinancialSummary total_income total_expense
    (total_income - total_expense) (List.length selected) target_month target_year.

Definition expense_query (uid : string) (lo hi : string) (t : Transaction)
  : bool :=
  String.eqb (t_user_id t) uid && t_is_active t &&
  TransactionType_eqb (t_type t) EXPENSE &&
  in_range lo hi (t_transaction_date t).

(** The value of [category_totals[cat_id]] *)
Record Totals : Type := mk_Totals {
  tot_amount : float;
  tot_count : nat
}.

(** One turn of the grouping loop *)
Definition group_step (category_totals : dict Totals) (t : Transaction)
  : dict Totals :=
  let cat_id := t_category_id t in
  let category_totals :=
    if dict_mem cat_id category_totals then category_totals
    else dict_set cat_id (mk_Totals 0 0) category_totals in
  dict_modify cat_id
    (fun d => mk_Totals (tot_amount d + t_amount t) (tot_count d + 1))
    category_totals.

Definition group_by_category (selected : list Transaction) : dict Totals :=
  fold_left group_step selected [].

(** [{c['id']: c['name'] for c in categories}] *)
Definition build_category_map (cats : list Category) : dict string :=
  fold_left (fun m c => dict_set (Some (c_id c)) (c_name c) m) cats [].

(** [expenses.sort(key=lambda x: x.total_amount, reverse=True)]: the sort
    is stable, and with [reverse=True] equal keys keep their order.  The
    insertion sort below is what it computes when no key is NaN, the one
    number that compares with nothing. *)
Fixpoint insert_desc (x : CategoryExpense) (l : list CategoryExpense)
  : list CategoryExpense :=
  match l with
  | [] => [x]
  | y :: rest =>
      if ce_total_amount y <=? ce_total_amount x
      then x :: y :: rest
      else y :: insert_desc x rest
  end.

Definition sort_desc (l : list CategoryExpense) : list CategoryExpense :=
  fold_right insert_desc [] l.

Definition make_expense (category_map : dict string) (total_expense : float)
    (entry : option string * Totals) : CategoryExpense :=
  let (cat_id, data) := entry in
  mk_CategoryExpense cat_id
    (dict_get_default cat_id
       (if truthy cat_id then "Sem categoria" else "Sem categoria")
       category_map)
    (tot_amount data) (tot_count data)
    (if 0 <? total_expense
     then tot_amount data / total_expense * 100 else 0).

Definition get_expenses_by_category (month year : option N)
    (current_user : User) (now : datetime) (db : DB) : ExpenseByCategory :=
  let target_month := or_default month (month_of now) in
  let target_year := or_default year (year_of now) in
  let lo := isoformat (start_date target_year target_month) in
  let hi := isoformat (end_date target_year target_month) in
  let selected :=
    to_list (N.to_nat 10000)
      (find_many (expense_query (u_id current_user) lo hi) (transactions db)) in
  let cats :=
    to_list (N.to_nat 1000)
      (find_many (fun c => String.eqb (c_user_id c) (u_id current_user))
         (categories db)) in
  let category_map := build_category_map cats in
  let category_totals := group_by_category selected in
  let total_expense := sum (map (fun e => tot_amount (snd e)) category_totals) in
  mk_ExpenseByCategory
    (sort_desc (map (make_expense category_map total_expense) category_totals))
    total_expense.

(** [delete_category]: the soft delete of a category, which the report
    claims refer to. *)
Definition set_category_inactive (c : Category) : Category :=
  mk_Category (c_id c) (c_user_id c) (c_name c) false.

Definition delete_category (category_id : string) (current_user : User)
  : Handler unit :=
  fun db =>
    match find_one (category_query category_id (u_id current_user))
            (categories db) with
    | None => (db, inl (mk_HTTPException 404 "Category not found"))
    | Some _ =>
        (mk_DB (users db)
           (update_one (category_query category_id (u_id current_user))
              set_category_inactive (categories db))
           (transactions db), inr tt)
    end.

(** ** The quantities the report claims speak of *)

(** The two ISO strings that bound the month of a report *)
Definition date_range (month year : option N) (now : datetime)
  : string * string :=
  let target_month := or_default month (month_of now) in
  let target_year := or_default year (year_of now) in
  (isoformat (start_date target_year target_month),
   isoformat (end_date target_year target_month)).

(** The transactions the monthly summary reads *)
Definition summary_window (month year : option N) (current_user : User)
    (now : datetime) (db : DB) : list Transaction :=
  to_list (N.to_nat 10000)
    (find_many
       (summary_query (u_id current_user) (fst (date_range month year now))
          (snd (date_range month year now)))
       (transactions db)).

(** The expense transactions the category breakdown reads *)
Definition expense_window (month year : option N) (current_user : User)
    (now : datetime) (db : DB) : list Transaction :=
  to_list (N.to_nat 10000)
    (find_many
       (expense_query (u_id current_user) (fst (date_range month year now))
          (snd (date_range month year now)))
       (transactions db)).

(** The category documents the category breakdown reads *)
Definition category_window (current_user : User) (db : DB) : list Category :=
  to_list (N.to_nat 1000)
    (find_many (fun c => String.eqb (c_user_id c) (u_id current_user))
       (categories db)).

(** The exact sum of a list of rationals *)
Fixpoint total (l : list Q) : Q :=
  match l with
  | [] => 0%Q
  | x :: rest => (x + total rest)%Q
  end.



(** The keys of a list in the order of their first occurrence: the order
    in which a grouping loop meets them *)
Definition first_occurrences (keys : list (option string))
  : list (option string) :=
  fold_left
    (fun seen k => if existsb (opt_eqb k) seen then seen else (seen ++ [k])%list)
    keys [].

(** The transactions of a list that carry a given [category_id] *)
Definition in_category (k : option string) (l : list Transaction)
  : list Transaction :=
  filter (fun t => opt_eqb (t_category_id t) k) l.

(** The amount and the count a grouping holds for a key *)
Definition group_amount (k : option string) (d : dict Totals) : float :=
  match dict_get k d with Some x => tot_amount x | None => 0 end.

Definition group_count (k : option string) (d : dict Totals) : nat :=
  match dict_get k d with Some x => tot_count x | None => 0%nat end.

(** The amount of an entry of [category_totals], and the update the
    grouping loop applies to it *)
Definition entry_amount (e : option string * Totals) : float :=
  tot_amount (snd e).

Definition add_to (t : Transaction) (d : Totals) : Totals :=
  mk_Totals (tot_amount d + t_amount t) (tot_count d + 1).




(** ** Instants

    The claims about the monthly window speak of instants.  An aware
    datetime denotes the instant counted here in microseconds, with the
    proleptic Gregorian ordinal of Python's [date.toordinal]; a naive
    datetime is read as UTC. *)

Definition is_leap (y : Z) : bool :=
  ((y mod 4 =? 0) && (negb (y mod 100 =? 0) || (y mod 400 =? 0)))%Z.

Definition days_before_year (y : Z) : Z :=
  ((y - 1) * 365 + (y - 1) / 4 - (y - 1) / 100 + (y - 1) / 400)%Z.

Definition days_in_month (y m : Z) : Z :=
  (if m =? 2 then (if is_leap y then 29 else 28)
   else if (m =? 4) || (m =? 6) || (m =? 9) || (m =? 11) then 30
   else 31)%Z.

Definition days_before_month (y m : Z) : Z :=
  (nth (Z.to_nat m) [0; 0; 31; 59; 90; 120; 151; 181; 212; 243; 273; 304; 334] 0
   + (if (2 <? m) && is_leap y then 1 else 0))%Z.

Definition toordinal (d : datetime) : Z :=
  (days_before_year (Z.of_N (year d))
   + days_before_month (Z.of_N (year d)) (Z.of_N (month d))
   + Z.of_N (day d))%Z.

Definition microseconds_per_day : Z := 86400000000%Z.

Definition instant (d : datetime) : Z :=
  ((((toordinal d * 24 + Z.of_N (hour d)) * 60 + Z.of_N (minute d)
     - match utcoffset d with Some m => m | None => 0 end) * 60
    + Z.of_N (second d)) * 1000000
   + Z.of_N (microsecond d))%Z.

(** The fields of a datetime are in the ranges Python allows. *)
Definition valid_datetime (d : datetime) : bool :=
  ((1 <=? year d) && (year d <=? 9999) && (1 <=? month d) && (month d <=? 12)
   && (1 <=? day d) && (hour d <? 24) && (minute d <? 60) && (second d <? 60)
   && (microsecond d <? 1000000))%N
  && (Z.of_N (day d) <=? days_in_month (Z.of_N (year d)) (Z.of_N (month d)))%Z.

Definition is_utc (d : datetime) : bool :=
  match utcoffset d with Some 0%Z => true | _ => false end.

(** A month that a report can be asked for: the [datetime] constructor
    accepts both of its bounds. *)
Definition valid_target (y m : N) : bool :=
  ((1 <=? y) && (y <=? 9998) && (1 <=? m) && (m <=? 12))%N.

(** The instant of a datetime lies in the half-open interval from the
    first instant of the month [(y, m)] (in UTC) to the first instant of
    the month after it. *)
Definition in_month (y m : N) (d : datetime) : Prop :=
  (instant (first_of_month y m) <= instant d
   < instant (first_of_month y m)
     + days_in_month (Z.of_N y) (Z.of_N m) * microseconds_per_day)%Z.

(** What a transaction adds to the ledger balance of a user *)
Definition contribution (uid : string) (t : Transaction) : Q :=
  if owned_active uid t then to_Q (effect (t_amount t) (t_type t)) else 0%Q.

(** ** Well-formed stores and request sequences *)

(** The authenticated user has a document in [db.users]. *)
Definition known_user (db : DB) (uid : string) : bool :=
  existsb (user_id_query uid) (users db).

Definition transaction_ids (db : DB) : list string :=
  map t_id (transactions db).

(** A request of one user against the transaction routes *)
Inductive Request : Type :=
| Create (body : TransactionCreate) (uuid4 : string) (now : datetime)
| Update (transaction_id : string) (body : TransactionUpdate)
| Delete (transaction_id : string).

Definition serve (current_user : User) (r : Request) (db : DB) : DB :=
  match r with
  | Create body uuid4 now => fst (post_transactions body current_user uuid4 now db)
  | Update tid body => fst (put_transactions tid body current_user db)
  | Delete tid => fst (delete_transaction tid current_user db)
  end.

Definition serve_all (current_user : User) (rs : list Request) (db : DB) : DB :=
  fold_left (fun db r => serve current_user r db) rs db.

(** The identifiers drawn by the [Create] requests of a sequence *)
Fixpoint drawn_ids (rs : list Request) : list string :=
  match rs with
  | [] => []
  | Create _ uuid4 _ :: rest => uuid4 :: drawn_ids rest
  | _ :: rest => drawn_ids rest
  end.

(** The cached balance of a user agrees with the ledger: the balance and
    the effects of the user's active transactions are finite, and the
    balance is their exact sum. *)
Definition reconciled (cu : User) (db : DB) : Prop :=
  is_finite (total_balance db (u_id cu)) = true /\
  Forall (fun t => is_finite (effect (t_amount t) (t_type t)) = true)
    (filter (owned_active (u_id cu)) (transactions db)) /\
  (to_Q (total_balance db (u_id cu)) == ledger_balance db (u_id cu))%Q.

(** The arithmetic of a request rounds nothing: the difference of the two
    effects an update computes, and the addition [$inc] performs on the
    balance, are exact. *)
Definition exact_step (cu : User) (r : Request) (db : DB) : bool :=
  let balance := total_balance db (u_id cu) in
  match r with
  | Create body uuid4 now =>
      match snd (post_transactions body cu uuid4 now db) with
      | inr t => exact_add balance (effect (t_amount t) (t_type t))
      | inl _ => true
      end
  | Update tid body =>
      match find_one (transaction_query tid (u_id cu)) (transactions db) with
      | Some t =>
          if validate_update body then
            let t' := apply_update_data body t in
            let new_effect := effect (t_amount t') (t_type t') in
            let old_effect := effect (t_amount t) (t_type t) in
            exact_sub new_effect old_effect &&
            (if new_effect - old_effect =? 0 then true
             else exact_add balance (new_effect - old_effect))
          else true
      | None => true
      end
  | Delete tid =>
      match find_one (transaction_query tid (u_id cu)) (transactions db) with
      | Some t =>
          if reversal (t_amount t) (t_type t) =? 0 then true
          else exact_add balance (reversal (t_amount t) (t_type t))
      | None => true
      end
  end.

Fixpoint exact_run (cu : User) (rs : list Request) (db : DB) : bool :=
  match rs with
  | [] => true
  | r :: rest => exact_step cu r db && exact_run cu rest (serve cu r db)
  end.

(** ** Sample data *)

Definition demo_user : User := mk_User "u1" "ana@example.com" 0 true.

Definition demo_now : datetime := mk_datetime 2024 1 15 10 30 0 0 (Some 0%Z).

Definition demo_db : DB :=
  mk_DB [demo_user] [mk_Category "c1" "u1" "Mercado" true] [].

Definition demo_expense : TransactionCreate :=
  mk_TransactionCreate 50.25 "Test Expense Transaction" EXPENSE
    (Some "c1") None None.

Definition demo_income_tx : Transaction :=
  mk_Transaction "t1" "u1" 100.5 "Test Income Transaction" INCOME
    (Some "c1") "2024-01-15T10:30:00+00:00" None "2024-01-15T10:30:00+00:00"
    true.

(** The store after the income of 100.50 has been recorded *)
Definition demo_db1 : DB :=
  mk_DB [mk_User "u1" "ana@example.com" 100.5 true]
    [mk_Category "c1" "u1" "Mercado" true; mk_Category "c2" "u1" "Antiga" false;
     mk_Category "c3" "u2" "Alheia" true]
    [demo_income_tx;
     mk_Transaction "t2" "u2" 30 "de outro" EXPENSE None
       "2024-01-16T08:00:00+00:00" None "2024-01-16T08:00:00+00:00" true;
     mk_Transaction "t3" "u1" 40 "apagada" EXPENSE None
       "2024-01-17T08:00:00+00:00" None "2024-01-17T08:00:00+00:00" false].

Definition demo_raise : TransactionUpdate :=
  mk_TransactionUpdate (Some 150.75) (Some "Updated Test Transaction") None
    None None (Some "Updated notes").

Definition demo_recategorise : TransactionUpdate :=
  mk_TransactionUpdate None None None (Some "c3") None None.

Definition demo_blank : TransactionCreate :=
  mk_TransactionCreate 10 "sem categoria" EXPENSE (Some "") None None.

Definition demo_dangling : TransactionCreate :=
  mk_TransactionCreate 10 "categoria apagada" EXPENSE (Some "c2") None None.

Definition demo_income : TransactionCreate :=
  mk_TransactionCreate 100.5 "Test Income Transaction" INCOME (Some "c1")
    None (Some "Test transaction for API testing").

Definition demo_requests : list Request :=
  [Create demo_income "t1" demo_now;
   Create demo_expense "t2" demo_now;
   Update "t1" demo_raise;
   Delete "t2";
   Delete "t2";
   Create demo_dangling "t3" demo_now;
   Update "t1" (mk_TransactionUpdate None None (Some EXPENSE) None None None)].

(** A store with expenses of January 2024: two under an active category,
    one without category, one under a soft-deleted category and one
    under a category of another user *)
Definition demo_db2 : DB :=
  mk_DB [mk_User "u1" "ana@example.com" (-100) true]
    [mk_Category "c1" "u1" "Mercado" true; mk_Category "c2" "u1" "Antiga" false;
     mk_Category "c3" "u2" "Alheia" true]
    [mk_Transaction "e1" "u1" 30 "feira" EXPENSE (Some "c1")
       "2024-01-05T09:00:00+00:00" None "2024-01-05T09:00:00+00:00" true;
     mk_Transaction "e2" "u1" 20 "avulso" EXPENSE None
       "2024-01-06T09:00:00+00:00" None "2024-01-06T09:00:00+00:00" true;
     mk_Transaction "e3" "u1" 20 "assinatura" EXPENSE (Some "c2")
       "2024-01-07T09:00:00+00:00" None "2024-01-07T09:00:00+00:00" true;
     mk_Transaction "e4" "u1" 10 "emprestado" EXPENSE (Some "c3")
       "2024-01-08T09:00:00+00:00" None "2024-01-08T09:00:00+00:00" true;
     mk_Transaction "e5" "u1" 20 "mercado" EXPENSE (Some "c1")
       "2024-01-09T09:00:00+00:00" None "2024-01-09T09:00:00+00:00" true].

Definition demo_breakdown : ExpenseByCategory :=
  get_expenses_by_category (Some 1%N) (Some 2024%N) demo_user demo_now demo_db2.

(** The identifier and the name of a category: all that the breakdown
    reads of it *)
Definition category_view (c : Category) : string * string :=
  (c_id c, c_name c).

(** 23:00 on 31 January 2024 at UTC-03:00, which is 02:00 on 1 February
    in UTC *)
Definition demo_late : datetime :=
  mk_datetime 2024 1 31 23 0 0 0 (Some (-180)%Z).

(** A store whose only transaction is dated [demo_late] *)
Definition demo_db3 : DB :=
  mk_DB [mk_User "u1" "ana@example.com" (-50) true] []
    [mk_Transaction "l1" "u1" 50 "jantar" EXPENSE None (isoformat demo_late)
       None "2024-02-01T02:00:05+00:00" true].

(** ** Sample data where rounding shows *)

(** A user without transactions *)
Definition new_db : DB := mk_DB [demo_user] [] [].

Definition income_of (amount : float) : TransactionCreate :=
  mk_TransactionCreate amount "entrada" INCOME None None None.

(** An income of 0.1, an income of 0.2, and the soft delete of the first *)
Definition drift_requests : list Request :=
  [Create (income_of 0.1) "a1" demo_now;
   Create (income_of 0.2) "a2" demo_now;
   Delete "a1"].

(** The store after an income of 1.0 *)
Definition unit_db : DB :=
  serve_all demo_user [Create (income_of 1) "b1" demo_now] new_db.

(** The store after an income of 1.0 and an income of 1e-17 *)
Definition tiny_db : DB :=
  serve_all demo_user [Create (income_of 1e-17) "b2" demo_now] unit_db.

Definition tiny_raise : TransactionUpdate :=
  mk_TransactionUpdate (Some 3e-17) None None None None None.

(** The store after an income of 0.1 *)
Definition tenth_db : DB :=
  serve_all demo_user [Create (income_of 0.1) "d1" demo_now] new_db.

(** The store after an income of 100.50 and an income of 0.3 *)
Definition odd_db : DB :=
  serve_all demo_user
    [Create demo_income "t1" demo_now; Create (income_of 0.3) "d1" demo_now]
    demo_db.



(** * The other routes

    The category routes, the transaction listing, and the two steps of
    authentication that read or write the store.  The documents are the
    ones above: of a category only the name can change here
    ([description], [icon] and [budget_limit] are not carried), and of a
    user the [full_name], the [password_hash] and the timestamps are not
    carried. *)

(** ** Category routes *)

Record CategoryCreate : Type := mk_CategoryCreate {
  cc_name : string
}.

Record CategoryUpdate : Type := mk_CategoryUpdate {
  cup_name : option string
}.

Definition NotFound_category : HTTPException :=
  mk_HTTPException 404 "Category not found".

Definition categories_insert_one (doc : Category) : Handler unit :=
  fun db =>
    (mk_DB (users db) (insert_one doc (categories db)) (transactions db), inr tt).

Definition categories_update_one (query : Category -> bool)
    (upd : Category -> Category) : Handler unit :=
  fun db =>
    (mk_DB (users db) (update_one query upd (categories db)) (transactions db),
     inr tt).

Definition create_category (category_data : CategoryCreate)
    (current_user : User) (uuid4 : string) : Handler Category :=
  let category :=
    mk_Category uuid4 (u_id current_user) (cc_name category_data) true in
  categories_insert_one category ;;
  ret category.

(** The filter [{"id": category_id}] *)
Definition category_id_query (cid : string) (c : Category) : bool :=
  String.eqb (c_id c) cid.

(** [{"$set": {"name": n}}] *)
Definition set_category_name (n : string) (c : Category) : Category :=
  mk_Category (c_id c) (c_user_id c) n (c_is_active c).

Definition update_category (category_id : string)
    (category_data : CategoryUpdate) (current_user : User)
  : Handler Category :=
  found <- categories_find_one
    (category_query category_id (u_id current_user)) ;;
  match found with
  | None => raise NotFound_category
  | Some category =>
      match cup_name category_data with
      | Some n =>
          categories_update_one (category_id_query category_id)
            (set_category_name n) ;;
          ret (set_category_name n category)
      | None => ret category
      end
  end.

(** [cursor.skip(skip).limit(page_size).to_list(page_size)] *)
Definition paginate {Doc : Type} (page page_size : nat) (cursor : list Doc)
  : list Doc :=
  let skip := ((page - 1) * page_size)%nat in
  to_list page_size (firstn page_size (skipn skip cursor)).

(** The filter of [get_categories]: the caller's categories whose
    [is_active] is the value asked for, [True] when none is given *)
Definition categories_query (is_active : option bool) (uid : string)
    (c : Category) : bool :=
  String.eqb (c_user_id c) uid &&
  Bool.eqb (c_is_active c)
    (match is_active with Some b => b | None => true end).

Definition get_categories (is_active : option bool) (page page_size : nat)
    (current_user : User) (db : DB) : list Category :=
  paginate page page_size
    (find_many (categories_query is_active (u_id current_user))
       (categories db)).

(** [Query(1, ge=1)] and [Query(50, ge=1, le=100)] *)
Definition valid_paging (page page_size : nat) : bool :=
  ((1 <=? page) && (1 <=? page_size) && (page_size <=? 100))%nat.

(** ** The transaction listing *)

Record TransactionWithCategory : Type := mk_TransactionWithCategory {
  twc_transaction : Transaction;
  twc_category_name : option string
}.

(** The query of [get_transactions]: a filter is added for each argument
    that is truthy; dates are compared as ISO strings, both ends in. *)
Definition listing_query (uid : string) (category_id : option string)
    (transaction_type : option TransactionType)
    (start_date end_date : option datetime) (t : Transaction) : bool :=
  String.eqb (t_user_id t) uid && t_is_active t &&
  (if truthy category_id then opt_eqb (t_category_id t) category_id else true) &&
  match transaction_type with
  | Some ty => TransactionType_eqb (t_type t) ty
  | None => true
  end &&
  match start_date with
  | Some d => String.leb (isoformat d) (t_transaction_date t)
  | None => true
  end &&
  match end_date with
  | Some d => String.leb (t_transaction_date t) (isoformat d)
  | None => true
  end.

(** The truthy category ids of a page; the source makes a set of them and
    uses it for membership only. *)
Definition listed_category_ids (page : list Transaction) : list string :=
  flat_map
    (fun t =>
       match t_category_id t with
       | Some c => if nonempty c then [c] else []
       | None => []
       end)
    page.

(** [{"id": {"$in": category_ids}}] *)
Definition id_in (category_ids : list string) (c : Category) : bool :=
  existsb (String.eqb (c_id c)) category_ids.

Definition listing_categories (page : list Transaction) (db : DB)
  : dict string :=
  let category_ids := listed_category_ids page in
  match category_ids with
  | [] => []
  | _ :: _ =>
      build_category_map
        (to_list 100 (find_many (id_in category_ids) (categories db)))
  end.

Section Listing.
(** [cursor.sort("transaction_date", -1)]: the store sorts by the stored
    string, largest first, and promises nothing about equal dates; the
    sort is a parameter. *)
Variable sort_by_date_desc : list Transaction -> list Transaction.

Definition get_transactions (category_id : option string)
    (transaction_type : option TransactionType)
    (start_date end_date : option datetime) (page page_size : nat)
    (current_user : User) (db : DB) : list TransactionWithCategory :=
  let query :=
    listing_query (u_id current_user) category_id transaction_type
      start_date end_date in
  let matching := find_many query (transactions db) in
  let transactions := paginate page page_size (sort_by_date_desc matching) in
  let categories := listing_categories transactions db in
  map (fun t =>
         mk_TransactionWithCategory t (dict_get (t_category_id t) categories))
    transactions.
End Listing.

(** One sort the store may apply: insertion by the stored date, largest
    first *)
Fixpoint insert_by_date (x : Transaction) (l : list Transaction)
  : list Transaction :=
  match l with
  | [] => [x]
  | y :: rest =>
      if String.leb (t_transaction_date y) (t_transaction_date x)
      then x :: y :: rest
      else y :: insert_by_date x rest
  end.

Definition newest_first (l : list Transaction) : list Transaction :=
  fold_right insert_by_date [] l.

(** ** Authentication *)

(** What [jwt.decode] gives for a token: one of its two exceptions, or
    the payload, of which the code reads [sub]. *)
Inductive JwtDecode : Type :=
| ExpiredSignatureError
| InvalidTokenError
| Payload (sub : option string).

Definition Unauthorized (detail : string) : HTTPException :=
  mk_HTTPException 401 detail.

Definition users_find_one (query : User -> bool) : Handler (option User) :=
  fun db => (db, inr (find_one query (users db))).

Definition users_insert_one (doc : User) : Handler unit :=
  fun db =>
    (mk_DB (insert_one doc (users db)) (categories db) (transactions db), inr tt).

(** The filter [{"id": user_id, "is_active": True}] *)
Definition active_user_query (uid : string) (u : User) : bool :=
  String.eqb (u_id u) uid && u_is_active u.

Section Auth.
Variable jwt_decode : string -> JwtDecode.

Definition get_current_user (credentials : string) : Handler User :=
  match jwt_decode credentials with
  | Payload None => raise (Unauthorized "Invalid token")
  | Payload (Some user_id) =>
      user <- users_find_one (active_user_query user_id) ;;
      match user with
      | None => raise (Unauthorized "User not found")
      | Some u => ret u
      end
  | ExpiredSignatureError => raise (Unauthorized "Token expired")
  | InvalidTokenError => raise (Unauthorized "Invalid token")
  end.
End Auth.

(** [get_me]: the balance shown for the authenticated user *)
Definition get_me (current_user : User) : float :=
  u_total_balance current_user.

Record UserCreate : Type := mk_UserCreate {
  uc_email : string
}.

Definition EmailTaken : HTTPException :=
  mk_HTTPException 400 "Email already registered".

Definition register (user_data : UserCreate) (uuid4 : string) : Handler User :=
  existing_user <- users_find_one
    (fun u => String.eqb (u_email u) (uc_email user_data)) ;;
  match existing_user with
  | Some _ => raise EmailTaken
  | None =>
      let user := mk_User uuid4 (uc_email user_data) 0 true in
      users_insert_one user ;;
      ret user
  end.

(** ** Predicates of the properties below *)

(** Every stored amount is strictly positive. *)
Definition amounts_positive (db : DB) : Prop :=
  Forall (fun t => (0 <? t_amount t) = true) (transactions db).

(** What never changes of a transaction document *)
Definition transaction_identity (t : Transaction) : string * string * string :=
  (t_id t, t_user_id t, t_created_at t).

(** The transactions a user owns, active or not *)
Definition owned (uid : string) (t : Transaction) : bool :=
  String.eqb (t_user_id t) uid.

(** The order of two datetimes of the same offset: their fields, from
    the year down to the microsecond *)
Definition datetime_compare (a b : datetime) : comparison :=
  match (year a ?= year b)%N with
  | Eq =>
      match (month a ?= month b)%N with
      | Eq =>
          match (day a ?= day b)%N with
          | Eq =>
              match (hour a ?= hour b)%N with
              | Eq =>
                  match (minute a ?= minute b)%N with
                  | Eq =>
                      match (second a ?= second b)%N with
                      | Eq => (microsecond a ?= microsecond b)%N
                      | c => c
                      end
                  | c => c
                  end
              | c => c
              end
          | c => c
          end
      | c => c
      end
  | c => c
  end.
(** * Properties *)

(** ** Collections *)

Section CollectionFacts.
Context {Doc : Type}.
Variables (query : Doc -> bool) (upd : Doc -> Doc).
Hypothesis upd_keeps_query : forall d, query (upd d) = query d.

Lemma find_update_one (coll : list Doc) :
  find query (update_one query upd coll) = option_map upd (find query coll).
Proof.
  induction coll as [|d rest IH]; simpl; [reflexivity|].
  destruct (query d) eqn:E; simpl.
  - now rewrite upd_keeps_query, E.
  - now rewrite E.
Qed.
End CollectionFacts.

Lemma existsb_find {Doc : Type} (query : Doc -> bool) (coll : list Doc) :
  existsb query coll = true -> exists d, find query coll = Some d.
Proof.
  induction coll as [|d rest IH]; simpl; [discriminate|].
  destruct (query d); [now exists d | exact IH].
Qed.

Lemma In_firstn {A : Type} (n : nat) (l : list A) (x : A) :
  In x (firstn n l) -> In x l.
Proof.
  revert l. induction n as [|n IH]; intros [|a l]; simpl; try contradiction.
  intros [E|I]; [now left | right; now apply IH].
Qed.

(** ** Binary64 arithmetic

    What the proofs below use of the binary64 operations, read off their
    specification over [spec_float]. *)

Lemma Prim2SF_zero : Prim2SF 0 = S754_zero false.
Proof. reflexivity. Qed.

Lemma to_Q_zero : (to_Q 0 == 0)%Q.
Proof. reflexivity. Qed.

Lemma is_nan_spec (x : float) :
  is_nan x = match Prim2SF x with S754_nan => true | _ => false end.
Proof.
  unfold is_nan. rewrite FloatAxioms.eqb_spec.
  destruct (Prim2SF x) as [s|s| |s m e]; try reflexivity.
  - now destruct s.
  - unfold SFeqb, SFcompare. rewrite Z.compare_refl.
    change (Pos.compare_cont Eq m m) with (Pos.compare m m).
    rewrite Pos.compare_refl. now destruct s.
Qed.

Lemma is_finite_spec (x : float) :
  is_finite x
  = match Prim2SF x with
    | S754_zero _ | S754_finite _ _ _ => true
    | _ => false
    end.
Proof.
  unfold is_finite. rewrite is_nan_spec. unfold is_infinity.
  rewrite FloatAxioms.eqb_spec, FloatAxioms.abs_spec.
  change (Prim2SF infinity) with (S754_infinity false).
  destruct (Prim2SF x) as [s|s| |s m e]; reflexivity.
Qed.

Lemma is_finite_not_nan (x : float) : is_finite x = true -> is_nan x = false.
Proof.
  rewrite is_finite_spec, is_nan_spec. now destruct (Prim2SF x).
Qed.

Lemma eqb_zero (x : float) :
  (x =? 0) = match Prim2SF x with S754_zero _ => true | _ => false end.
Proof.
  rewrite FloatAxioms.eqb_spec, Prim2SF_zero.
  destruct (Prim2SF x) as [s|s| |s m e]; try reflexivity; now destruct s.
Qed.

Lemma ltb_zero (x : float) :
  (0 <? x)
  = match Prim2SF x with
    | S754_infinity false | S754_finite false _ _ => true
    | _ => false
    end.
Proof.
  rewrite FloatAxioms.ltb_spec, Prim2SF_zero.
  destruct (Prim2SF x) as [s|s| |s m e]; try reflexivity; now destruct s.
Qed.

(** A number above zero is not zero, and neither is its opposite. *)
Lemma positive_not_zero (x : float) :
  (0 <? x) = true -> (x =? 0) = false /\ (- x =? 0) = false.
Proof.
  rewrite ltb_zero, !eqb_zero, FloatAxioms.opp_spec.
  destruct (Prim2SF x) as [s|s| |s m e]; try discriminate; now split.
Qed.

Lemma positive_not_nan (x : float) : (0 <? x) = true -> is_nan x = false.
Proof.
  rewrite ltb_zero, is_nan_spec. now destruct (Prim2SF x).
Qed.


Lemma eqb_zero_to_Q (x : float) : (x =? 0) = true -> (to_Q x == 0)%Q.
Proof.
  rewrite eqb_zero. unfold to_Q.
  destruct (Prim2SF x); try discriminate. reflexivity.
Qed.

Lemma to_Q_opp (x : float) : (to_Q (- x) == - to_Q x)%Q.
Proof.
  unfold to_Q. rewrite FloatAxioms.opp_spec.
  destruct (Prim2SF x) as [s|s| |s m e]; simpl; try reflexivity.
  destruct s; simpl; ring.
Qed.

Lemma is_finite_opp (x : float) : is_finite (- x) = is_finite x.
Proof.
  rewrite !is_finite_spec, FloatAxioms.opp_spec.
  now destruct (Prim2SF x).
Qed.


(** [x - x] is zero for every finite [x]; it is NaN for an infinity. *)
Lemma sub_diag (x : float) : is_finite x = true -> (x - x =? 0) = true.
Proof.
  rewrite is_finite_spec, eqb_zero, FloatAxioms.sub_spec.
  destruct (Prim2SF x) as [s|s| |s m e]; try discriminate; intros _.
  - now destruct s.
  - unfold SF64sub, SFsub. rewrite Z.sub_diag. reflexivity.
Qed.

(** Adding the opposite is subtracting. *)
Lemma add_opp (x y : float) : x + - y = x - y.
Proof.
  apply Prim2SF_inj.
  rewrite FloatAxioms.add_spec, FloatAxioms.sub_spec, FloatAxioms.opp_spec.
  destruct (Prim2SF x) as [s|s| |s m e], (Prim2SF y) as [s'|s'| |s' m' e'];
    try reflexivity; destruct s, s'; reflexivity.
Qed.

(** Adding zero leaves a number as it is, up to the sign of a zero. *)
Lemma add_zero (x : float) : is_nan x = false -> (x + 0 =? x) = true.
Proof.
  rewrite is_nan_spec, FloatAxioms.eqb_spec, FloatAxioms.add_spec, Prim2SF_zero.
  destruct (Prim2SF x) as [s|s| |s m e]; try discriminate; intros _.
  - now destruct s.
  - now destruct s.
  - unfold SF64add, SFadd, SFeqb, SFcompare. rewrite Z.compare_refl.
    change (Pos.compare_cont Eq m m) with (Pos.compare m m).
    rewrite Pos.compare_refl. now destruct s.
Qed.




(** ** Signs

    A sum of numbers that are zero or above is zero or above: rounding
    never turns a positive mantissa into NaN or into a negative
    number. *)











(** ** Exact operations *)

Lemma exact_add_spec (x y : float) :
  exact_add x y = true ->
  is_finite x = true /\ is_finite y = true /\ is_finite (x + y) = true /\
  (to_Q (x + y) == to_Q x + to_Q y)%Q.
Proof.
  unfold exact_add. rewrite !andb_true_iff, Qeq_bool_iff. tauto.
Qed.

Lemma exact_sub_spec (x y : float) :
  exact_sub x y = true ->
  is_finite x = true /\ is_finite y = true /\ is_finite (x - y) = true /\
  (to_Q (x - y) == to_Q x - to_Q y)%Q.
Proof.
  unfold exact_sub. rewrite !andb_true_iff, Qeq_bool_iff. tauto.
Qed.





(** ** Balances *)

Lemma effect_create (a : float) (ty : TransactionType) :
  (if TransactionType_eqb ty TRANSFER then 0
   else if TransactionType_eqb ty INCOME then a else - a) = effect a ty.
Proof. now destruct ty. Qed.

Lemma effect_update (a : float) (ty : TransactionType) :
  (if TransactionType_eqb ty INCOME then a
   else if TransactionType_eqb ty EXPENSE then - a else 0) = effect a ty.
Proof. now destruct ty. Qed.

Lemma reversal_delete (a : float) (ty : TransactionType) :
  (if TransactionType_eqb ty INCOME then - a
   else if TransactionType_eqb ty EXPENSE then a else 0) = reversal a ty.
Proof. now destruct ty. Qed.

(** The reversal stands for the opposite of the effect. *)
Lemma to_Q_reversal (a : float) (ty : TransactionType) :
  (to_Q (reversal a ty) == - to_Q (effect a ty))%Q.
Proof.
  destruct ty; simpl.
  - apply to_Q_opp.
  - rewrite to_Q_opp. ring.
  - reflexivity.
Qed.

Lemma total_balance_inc (db : DB) (uid : string) (delta : float)
    (cats : list Category) (txs : list Transaction) :
  known_user db uid = true ->
  total_balance
    (mk_DB (update_one (user_id_query uid) (inc_total_balance delta) (users db))
       cats txs) uid
  = total_balance db uid + delta.
Proof.
  intros K. unfold total_balance, find_one; simpl.
  rewrite find_update_one by reflexivity.
  destruct (existsb_find _ _ K) as [u ->]. simpl. reflexivity.
Qed.

(** [when (delta != 0) ($inc delta)] adds [delta] unless it is zero. *)
Lemma total_balance_when_inc (db : DB) (uid : string) (delta : float) :
  known_user db uid = true ->
  total_balance
    (fst (when (negb (delta =? 0))
            (users_update_one (user_id_query uid) (inc_total_balance delta)) db))
    uid
  = if delta =? 0 then total_balance db uid else total_balance db uid + delta.
Proof.
  intros K. destruct (delta =? 0) eqn:E; simpl.
  - reflexivity.
  - now apply total_balance_inc.
Qed.

Lemma when_inc_keeps (db : DB) (uid : string) (delta : float) :
  let db' :=
    fst (when (negb (delta =? 0))
           (users_update_one (user_id_query uid) (inc_total_balance delta)) db) in
  transactions db' = transactions db /\ categories db' = categories db /\
  snd (when (negb (delta =? 0))
         (users_update_one (user_id_query uid) (inc_total_balance delta)) db)
  = inr tt.
Proof. destruct (delta =? 0); simpl; auto. Qed.

Lemma known_user_same_users (db db' : DB) (uid : string) :
  users db' = users db -> known_user db' uid = known_user db uid.
Proof. unfold known_user. now intros ->. Qed.

Lemma total_balance_same_users (db db' : DB) (uid : string) :
  users db' = users db -> total_balance db' uid = total_balance db uid.
Proof. unfold total_balance. now intros ->. Qed.

(** ** Creating a transaction *)

Lemma create_transaction_checked (data : TransactionCreate) (cu : User)
    (uuid4 : string) (now : datetime) (db : DB) :
  let t :=
    mk_Transaction uuid4 (u_id cu) (tc_amount data) (tc_description data)
      (tc_type data) (tc_category_id data)
      (isoformat (match tc_transaction_date data with
                  | Some d => d
                  | None => now
                  end))
      (tc_notes data) (isoformat now) true in
  create_transaction data cu uuid4 now db =
  if truthy (tc_category_id data) &&
     match find_one
             (category_query
                (match tc_category_id data with Some c => c | None => "" end)
                (u_id cu)) (categories db) with
     | None => true
     | Some _ => false
     end
  then (db, inl CategoryNotFound)
  else
    (mk_DB
       (update_one (user_id_query (u_id cu))
          (inc_total_balance (effect (tc_amount data) (tc_type data)))
          (users db))
       (categories db) (insert_one t (transactions db)),
     inr t).
Proof.
  intros t. unfold create_transaction, bind, when, categories_find_one.
  destruct (truthy (tc_category_id data)); simpl.
  - destruct (find_one _ (categories db)); simpl;
      [rewrite effect_create|]; reflexivity.
  - rewrite effect_create. reflexivity.
Qed.

(** C3, as the code has it: a successful creation replaces the user's
    [total_balance] by the binary64 sum of the balance and
    [effect(amount, type)]: the balance plus the amount for an income,
    the balance minus the amount for an expense, the balance plus zero
    for a transfer, which is the balance itself.  The balance changes by
    exactly [effect(amount, type)] when that addition is exact. *)
Theorem create_transaction_balance_change :
  forall (data : TransactionCreate) (cu : User) (uuid4 : string)
         (now : datetime) (db db' : DB) (t : Transaction),
    known_user db (u_id cu) = true ->
    (0 <? tc_amount data) = true ->
    create_transaction data cu uuid4 now db = (db', inr t) ->
    let b := total_balance db (u_id cu) in
    let b' := total_balance db' (u_id cu) in
    b' = b + effect (tc_amount data) (tc_type data) /\
    (tc_type data = INCOME -> b' = b + tc_amount data) /\
    (tc_type data = EXPENSE -> b' = b - tc_amount data) /\
    (tc_type data = TRANSFER ->
     b' = b + 0 /\ (is_nan b = false -> (b' =? b) = true)) /\
    (exact_add b (effect (tc_amount data) (tc_type data)) = true ->
     is_finite b' = true /\
     (to_Q b' == to_Q b + to_Q (effect (tc_amount data) (tc_type data)))%Q /\
     (tc_type data = INCOME -> (to_Q b' == to_Q b + to_Q (tc_amount data))%Q) /\
     (tc_type data = EXPENSE -> (to_Q b' == to_Q b - to_Q (tc_amount data))%Q) /\
     (tc_type data = TRANSFER -> (to_Q b' == to_Q b)%Q)).
Proof.
  intros data cu uuid4 now db db' t K _ H b b'.
  rewrite create_transaction_checked in H.
  destruct (truthy _ && _); [discriminate|].
  injection H as <- _.
  assert (B : b' = b + effect (tc_amount data) (tc_type data)).
  { unfold b', b. now apply total_balance_inc. }
  split; [exact B|].
  split; [intros E; now rewrite B, E|].
  split; [intros E; rewrite B, E; apply add_opp|].
  split.
  - intros E. rewrite B, E. split; [reflexivity|]. apply add_zero.
  - intros X. apply exact_add_spec in X. destruct X as [_ [_ [F X]]].
    rewrite <- B in F, X.
    split; [exact F|]. split; [exact X|].
    split; [|split]; intros E; rewrite X, E; simpl.
    + reflexivity.
    + rewrite to_Q_opp. ring.
    + rewrite to_Q_zero. ring.
Qed.

Lemma create_transaction_balance_change_witness :
  total_balance
    (fst (create_transaction demo_expense demo_user "t1" demo_now demo_db)) "u1"
  = total_balance demo_db "u1" - 50.25 /\
  (to_Q (total_balance
           (fst (create_transaction demo_expense demo_user "t1" demo_now
                   demo_db)) "u1")
   == to_Q (total_balance demo_db "u1") - to_Q 50.25)%Q.
Proof.
  set (r := create_transaction demo_expense demo_user "t1" demo_now demo_db).
  pose proof (create_transaction_balance_change demo_expense demo_user "t1"
                demo_now demo_db (fst r)
                (match snd r with inr t => t | inl _ => demo_income_tx end)
                eq_refl eq_refl eq_refl) as W.
  cbv zeta in W. destruct W as [_ [_ [E [_ X]]]].
  split; [exact (E eq_refl)|].
  destruct (X eq_refl) as [_ [_ [_ [Q _]]]]. exact (Q eq_refl).
Defined.

(** C3 as stated fails when the sum rounds: after an income of 1.0, an
    income of 1e-17 is created and stored, and the balance is 1.0 as
    before; it has not increased by the amount. *)
Lemma income_lost_to_rounding :
  let r := create_transaction (income_of 1e-17) demo_user "b2" demo_now unit_db in
  (0 <? 1e-17) = true /\
  (exists t, snd r = inr t /\ In t (transactions (fst r)) /\
             t_amount t = 1e-17 /\ t_type t = INCOME) /\
  total_balance unit_db "u1" = 1 /\
  total_balance (fst r) "u1" = 1 /\
  ~ (to_Q (total_balance (fst r) "u1")
     == to_Q (total_balance unit_db "u1") + to_Q 1e-17)%Q.
Proof.
  cbv zeta. split; [reflexivity|]. split.
  - eexists. split; [reflexivity|]. split; [|split; reflexivity].
    right. left. reflexivity.
  - split; [reflexivity|]. split; [reflexivity|].
    intros E. apply Qeq_bool_iff in E. vm_compute in E. discriminate E.
Qed.

(** ** Updating and deleting a transaction *)

Lemma apply_update_data_empty (data : TransactionUpdate) (t : Transaction) :
  update_data_nonempty data = false -> apply_update_data data t = t.
Proof.
  destruct data as [a d ty c dt n], t. unfold update_data_nonempty. simpl.
  destruct a, d, ty, c, dt, n; simpl; try discriminate. reflexivity.
Qed.

Lemma update_one_empty_data (tid : string) (data : TransactionUpdate)
    (txs : list Transaction) :
  update_data_nonempty data = false ->
  update_one (id_query tid) (apply_update_data data) txs = txs.
Proof.
  intros E. induction txs as [|d rest IH]; simpl; [reflexivity|].
  destruct (id_query tid d).
  - now rewrite apply_update_data_empty.
  - now rewrite IH.
Qed.

Lemma update_transaction_found (tid : string) (data : TransactionUpdate)
    (cu : User) (db : DB) (t : Transaction) :
  find_one (transaction_query tid (u_id cu)) (transactions db) = Some t ->
  let t' := apply_update_data data t in
  let adjustment :=
    effect (t_amount t') (t_type t') - effect (t_amount t) (t_type t) in
  update_transaction tid data cu db =
  (fst (when (negb (adjustment =? 0))
          (users_update_one (user_id_query (u_id cu))
             (inc_total_balance adjustment))
          (mk_DB (users db) (categories db)
             (update_one (id_query tid) (apply_update_data data)
                (transactions db)))),
   inr t').
Proof.
  intros F t' adjustment.
  unfold update_transaction, bind, transactions_find_one.
  rewrite F. cbv beta iota zeta.
  destruct (update_data_nonempty data) eqn:E.
  - unfold transactions_update_one, ret. cbv beta iota zeta.
    rewrite !effect_update. fold t'. fold adjustment.
    destruct (when _ _ _) as [db' [e|[]]] eqn:W;
      pose proof (when_inc_keeps
                    (mk_DB (users db) (categories db)
                       (update_one (id_query tid) (apply_update_data data)
                          (transactions db)))
                    (u_id cu) adjustment) as [_ [_ S]];
      rewrite W in S; simpl in S; [discriminate|reflexivity].
  - unfold ret. cbv beta iota zeta.
    assert (Et : t' = t) by now apply apply_update_data_empty.
    rewrite update_one_empty_data by exact E.
    rewrite !effect_update. unfold adjustment. rewrite Et.
    destruct db as [us cs ts]. cbn [users categories transactions].
    destruct (when _ _ _) as [db' [e|[]]] eqn:W;
      pose proof (when_inc_keeps (mk_DB us cs ts) (u_id cu)
                    (effect (t_amount t) (t_type t)
                     - effect (t_amount t) (t_type t))) as [_ [_ S]];
      rewrite W in S; simpl in S; [discriminate|reflexivity].
Qed.

Lemma update_transaction_missing (tid : string) (data : TransactionUpdate)
    (cu : User) (db : DB) :
  find_one (transaction_query tid (u_id cu)) (transactions db) = None ->
  update_transaction tid data cu db = (db, inl TransactionNotFound).
Proof.
  intros F. unfold update_transaction, bind, transactions_find_one.
  now rewrite F.
Qed.

Lemma delete_transaction_found (tid : string) (cu : User) (db : DB)
    (t : Transaction) :
  find_one (transaction_query tid (u_id cu)) (transactions db) = Some t ->
  let reversal := reversal (t_amount t) (t_type t) in
  delete_transaction tid cu db =
  (fst (when (negb (reversal =? 0))
          (users_update_one (user_id_query (u_id cu))
             (inc_total_balance reversal))
          (mk_DB (users db) (categories db)
             (update_one (id_query tid) set_inactive (transactions db)))),
   inr tt).
Proof.
  intros F reversal. unfold delete_transaction, bind, transactions_find_one.
  rewrite F. cbv beta iota zeta. rewrite reversal_delete. fold reversal.
  unfold transactions_update_one, ret. cbv beta iota zeta.
  destruct (when _ _ _) as [db' [e|[]]] eqn:W;
    pose proof (when_inc_keeps
                  (mk_DB (users db) (categories db)
                     (update_one (id_query tid) set_inactive (transactions db)))
                  (u_id cu) reversal) as [_ [_ S]];
    rewrite W in S; simpl in S; [discriminate|reflexivity].
Qed.

Lemma delete_transaction_missing (tid : string) (cu : User) (db : DB) :
  find_one (transaction_query tid (u_id cu)) (transactions db) = None ->
  delete_transaction tid cu db = (db, inl TransactionNotFound).
Proof.
  intros F. unfold delete_transaction, bind, transactions_find_one.
  now rewrite F.
Qed.

(** C2, as the code has it: a successful update of an active transaction
    computes the adjustment as the binary64 difference
    [new_effect - old_effect] and, unless it is zero, replaces the user's
    [total_balance] by the binary64 sum of the balance and the
    adjustment.  The balance changes by exactly
    [new_effect - old_effect] when neither operation rounds.  Raising an
    income from 100.50 to 150.75 gives the adjustment 50.25, and turning
    an income of 100.50 into an expense gives -201.00, both exactly; each
    is then added to the balance. *)
Theorem update_transaction_adjustment :
  forall (tid : string) (data : TransactionUpdate) (cu : User) (db : DB)
         (t : Transaction),
    known_user db (u_id cu) = true ->
    find_one (transaction_query tid (u_id cu)) (transactions db) = Some t ->
    let t' := apply_update_data data t in
    let new_effect := effect (t_amount t') (t_type t') in
    let old_effect := effect (t_amount t) (t_type t) in
    let adjustment := new_effect - old_effect in
    let b := total_balance db (u_id cu) in
    let b' := total_balance (fst (update_transaction tid data cu db)) (u_id cu) in
    snd (update_transaction tid data cu db) = inr t' /\
    b' = (if adjustment =? 0 then b else b + adjustment) /\
    (exact_sub new_effect old_effect = true ->
     (if adjustment =? 0 then true else exact_add b adjustment) = true ->
     (to_Q b' == to_Q b + (to_Q new_effect - to_Q old_effect))%Q) /\
    (t_type t = INCOME -> t_amount t = 100.5 ->
     tu_amount data = Some 150.75 -> tu_type data = None ->
     adjustment = 50.25 /\ b' = b + 50.25) /\
    (t_type t = INCOME -> t_amount t = 100.5 ->
     tu_amount data = None -> tu_type data = Some EXPENSE ->
     adjustment = -201 /\ b' = b - 201).
Proof.
  intros tid data cu db t K F t' new_effect old_effect adjustment b b'.
  assert (B : b' = (if adjustment =? 0 then b else b + adjustment)).
  { unfold b'. rewrite (update_transaction_found tid data cu db t F). simpl.
    rewrite total_balance_when_inc by exact K.
    fold t' new_effect old_effect adjustment.
    unfold total_balance. simpl. reflexivity. }
  split; [now rewrite (update_transaction_found tid data cu db t F)|].
  split; [exact B|].
  split; [|split].
  - intros S A. apply exact_sub_spec in S. destruct S as [_ [_ [_ S]]].
    fold adjustment in S. rewrite B.
    destruct (adjustment =? 0) eqn:Z.
    + apply eqb_zero_to_Q in Z. rewrite <- S, Z. ring.
    + apply exact_add_spec in A. destruct A as [_ [_ [_ A]]].
      rewrite A, S. reflexivity.
  - intros Ety Ea Ha Hty.
    assert (A : adjustment = 50.25).
    { unfold adjustment, new_effect, old_effect, t', apply_update_data.
      simpl. rewrite Ha, Hty, Ety, Ea. reflexivity. }
    split; [exact A|]. rewrite B, A. reflexivity.
  - intros Ety Ea Ha Hty.
    assert (A : adjustment = -201).
    { unfold adjustment, new_effect, old_effect, t', apply_update_data.
      simpl. rewrite Ha, Hty, Ety, Ea. reflexivity. }
    split; [exact A|]. rewrite B, A. exact (add_opp b 201).
Qed.

Lemma update_transaction_adjustment_witness :
  total_balance (fst (update_transaction "t1" demo_raise demo_user demo_db1)) "u1"
  = total_balance demo_db1 "u1" + 50.25 /\
  (to_Q (total_balance
           (fst (update_transaction "t1" demo_raise demo_user demo_db1)) "u1")
   == to_Q (total_balance demo_db1 "u1") + (to_Q 150.75 - to_Q 100.5))%Q.
Proof.
  pose proof (update_transaction_adjustment "t1" demo_raise demo_user demo_db1
                demo_income_tx eq_refl eq_refl) as W.
  cbv zeta in W. destruct W as [_ [_ [X [E _]]]].
  split.
  - exact (proj2 (E eq_refl eq_refl eq_refl eq_refl)).
  - exact (X eq_refl eq_refl).
Defined.

(** C2 as stated fails when an operation rounds.  With an income of 1.0
    and an income of 1e-17 on record, raising the second to 3e-17 gives
    a difference of effects that is not zero, and the balance stays at
    1.0.  With an income of 100.50 and an income of 0.3 on record,
    raising the first to 150.75 moves the balance from 100.8 to
    151.05000000000001, which is not 50.25 more. *)
Lemma raise_lost_to_rounding :
  let r := update_transaction "b2" tiny_raise demo_user tiny_db in
  let r' := update_transaction "t1" demo_raise demo_user odd_db in
  (exists t,
     find_one (transaction_query "b2" "u1") (transactions tiny_db) = Some t /\
     t_type t = INCOME /\ t_amount t = 1e-17 /\
     snd r = inr (apply_update_data tiny_raise t) /\
     t_amount (apply_update_data tiny_raise t) = 3e-17) /\
  (3e-17 - 1e-17 =? 0) = false /\
  total_balance tiny_db "u1" = 1 /\
  total_balance (fst r) "u1" = 1 /\
  ~ (to_Q (total_balance (fst r) "u1")
     == to_Q (total_balance tiny_db "u1") + (to_Q 3e-17 - to_Q 1e-17))%Q /\
  (exists t,
     find_one (transaction_query "t1" "u1") (transactions odd_db) = Some t /\
     t_type t = INCOME /\ t_amount t = 100.5 /\
     snd r' = inr (apply_update_data demo_raise t) /\
     t_amount (apply_update_data demo_raise t) = 150.75) /\
  total_balance odd_db "u1" = 100.8 /\
  total_balance (fst r') "u1" = 151.05000000000001 /\
  ~ (to_Q (total_balance (fst r') "u1")
     == to_Q (total_balance odd_db "u1") + to_Q 50.25)%Q.
Proof.
  cbv zeta. split.
  { eexists. split; [reflexivity|]. repeat split. }
  split; [reflexivity|]. split; [reflexivity|]. split; [reflexivity|].
  split.
  { intros E. apply Qeq_bool_iff in E. vm_compute in E. discriminate E. }
  split.
  { eexists. split; [reflexivity|]. repeat split. }
  split; [reflexivity|]. split; [reflexivity|].
  intros E. apply Qeq_bool_iff in E. vm_compute in E. discriminate E.
Qed.

(** ** Failed lookups *)

Lemma find_transaction_none (tid uid : string) (txs : list Transaction) :
  (forall t, In t txs -> t_id t = tid ->
             t_user_id t <> uid \/ t_is_active t = false) ->
  find_one (transaction_query tid uid) txs = None.
Proof.
  unfold find_one. induction txs as [|d rest IH]; intros H; simpl; [reflexivity|].
  unfold transaction_query at 1.
  destruct (String.eqb_spec (t_id d) tid) as [Ei|Ni]; simpl.
  - destruct (H d (or_introl eq_refl) Ei) as [Nu|Na].
    + destruct (String.eqb_spec (t_user_id d) uid); [contradiction|]. simpl.
      apply IH. intros t Ht. apply H. now right.
    + rewrite Na, andb_false_r. apply IH. intros t Ht. apply H. now right.
  - apply IH. intros t Ht. apply H. now right.
Qed.

(** C8: an update or a soft delete that names a transaction id with no
    active transaction of the caller behind it (the id is unknown, or is
    another user's, or is already soft-deleted) fails with
    [TransactionNotFound] and leaves the whole store as it was. *)
Theorem transaction_not_found_changes_nothing :
  forall (tid : string) (data : TransactionUpdate) (cu : User) (db : DB),
    (forall t, In t (transactions db) -> t_id t = tid ->
               t_user_id t <> u_id cu \/ t_is_active t = false) ->
    update_transaction tid data cu db = (db, inl TransactionNotFound) /\
    delete_transaction tid cu db = (db, inl TransactionNotFound).
Proof.
  intros tid data cu db H.
  pose proof (find_transaction_none tid (u_id cu) (transactions db) H) as F.
  split.
  - now apply update_transaction_missing.
  - now apply delete_transaction_missing.
Qed.

Lemma transaction_not_found_changes_nothing_witness :
  (update_transaction "t2" demo_raise demo_user demo_db1
   = (demo_db1, inl TransactionNotFound) /\
   delete_transaction "t2" demo_user demo_db1
   = (demo_db1, inl TransactionNotFound)) /\
  (update_transaction "t3" demo_raise demo_user demo_db1
   = (demo_db1, inl TransactionNotFound) /\
   delete_transaction "t3" demo_user demo_db1
   = (demo_db1, inl TransactionNotFound)) /\
  (update_transaction "t7" demo_raise demo_user demo_db1
   = (demo_db1, inl TransactionNotFound) /\
   delete_transaction "t7" demo_user demo_db1
   = (demo_db1, inl TransactionNotFound)).
Proof.
  split; [|split];
    apply (transaction_not_found_changes_nothing _ demo_raise demo_user demo_db1);
    intros t [<-|[<-|[<-|[]]]] E; simpl in *;
    first [discriminate E | left; discriminate | right; reflexivity].
Defined.

(** ** Category checks *)

Lemma find_category_none (cid uid : string) (cats : list Category) :
  (forall c, In c cats -> c_id c = cid ->
             c_user_id c <> uid \/ c_is_active c = false) ->
  find_one (category_query cid uid) cats = None.
Proof.
  unfold find_one. induction cats as [|d rest IH]; intros H; simpl; [reflexivity|].
  unfold category_query at 1.
  destruct (String.eqb_spec (c_id d) cid) as [Ei|Ni]; simpl.
  - destruct (H d (or_introl eq_refl) Ei) as [Nu|Na].
    + destruct (String.eqb_spec (c_user_id d) uid); [contradiction|]. simpl.
      apply IH. intros t Ht. apply H. now right.
    + rewrite Na, andb_false_r. apply IH. intros t Ht. apply H. now right.
  - apply IH. intros t Ht. apply H. now right.
Qed.

(** C9, as the code has it: a create whose [category_id] is a non-empty
    string that names no active category of the caller fails with
    [CategoryNotFound], and nothing is written: no transaction, no
    balance change. *)
Theorem create_transaction_category_not_found :
  forall (data : TransactionCreate) (cu : User) (uuid4 : string)
         (now : datetime) (db : DB) (cid : string),
    tc_category_id data = Some cid ->
    cid <> "" ->
    (forall c, In c (categories db) -> c_id c = cid ->
               c_user_id c <> u_id cu \/ c_is_active c = false) ->
    create_transaction data cu uuid4 now db = (db, inl CategoryNotFound).
Proof.
  intros data cu uuid4 now db cid E N H.
  rewrite create_transaction_checked, E.
  rewrite (find_category_none cid (u_id cu) (categories db) H).
  destruct cid; [contradiction|reflexivity].
Qed.

Lemma create_transaction_category_not_found_witness :
  create_transaction demo_dangling demo_user "t9" demo_now demo_db1
  = (demo_db1, inl CategoryNotFound).
Proof.
  apply (create_transaction_category_not_found demo_dangling demo_user "t9"
           demo_now demo_db1 "c2" eq_refl).
  - discriminate.
  - intros c [<-|[<-|[<-|[]]]] E; simpl in *;
      first [discriminate E | right; reflexivity].
Defined.

(** C9 as stated fails on the empty string: it is a supplied
    [category_id] that names no category, yet the create goes through,
    the transaction is stored and the balance moves. *)
Lemma create_transaction_blank_category_id_accepted :
  let r := create_transaction demo_blank demo_user "t9" demo_now demo_db1 in
  tc_category_id demo_blank = Some "" /\
  (forall c, In c (categories demo_db1) -> c_id c <> "") /\
  snd r <> inl CategoryNotFound /\
  (exists t, snd r = inr t /\ In t (transactions (fst r)) /\
             t_category_id t = Some "") /\
  (total_balance (fst r) "u1" =? total_balance demo_db1 "u1") = false.
Proof.
  cbv zeta. split; [reflexivity|]. split.
  - intros c [<-|[<-|[<-|[]]]]; discriminate.
  - split; [discriminate|]. split.
    + eexists. split; [reflexivity|]. split; [|reflexivity].
      right. right. right. left. reflexivity.
    + reflexivity.
Qed.

(** ** Unique identifiers *)

Lemma find_transaction_some (tid uid : string) (txs : list Transaction)
    (t : Transaction) :
  find_one (transaction_query tid uid) txs = Some t ->
  In t txs /\ t_id t = tid /\ t_user_id t = uid /\ t_is_active t = true.
Proof.
  intros F. apply find_some in F. destruct F as [I Q]. split; [exact I|].
  unfold transaction_query in Q.
  apply andb_prop in Q. destruct Q as [Q A].
  apply andb_prop in Q. destruct Q as [Qi Qu].
  apply String.eqb_eq in Qi. apply String.eqb_eq in Qu. auto.
Qed.

(** With unique ids, the document rewritten under the filter [{"id": ..}]
    is the one the lookup under [{"id", "user_id", "is_active"}] found. *)
Lemma update_one_by_id (tid uid : string) (upd : Transaction -> Transaction)
    (txs : list Transaction) (t : Transaction) :
  NoDup (map t_id txs) ->
  find_one (transaction_query tid uid) txs = Some t ->
  update_one (id_query tid) upd txs
  = update_one (transaction_query tid uid) upd txs.
Proof.
  unfold find_one. induction txs as [|d rest IH]; simpl; [reflexivity|].
  intros ND F. inversion ND as [|? ? Nin ND']; subst.
  unfold id_query at 1. unfold transaction_query at 1 in F.
  unfold transaction_query at 1.
  destruct (String.eqb_spec (t_id d) tid) as [Ei|Ni]; simpl in *.
  - destruct (String.eqb (t_user_id d) uid && t_is_active d); [reflexivity|].
    exfalso. apply Nin.
    destruct (find_transaction_some tid uid rest t F) as [I [Et _]].
    rewrite Ei, <- Et. now apply in_map.
  - f_equal. now apply IH.
Qed.

Lemma map_t_id_update_one (query : Transaction -> bool)
    (upd : Transaction -> Transaction) (txs : list Transaction) :
  (forall t, t_id (upd t) = t_id t) ->
  map t_id (update_one query upd txs) = map t_id txs.
Proof.
  intros K. induction txs as [|d rest IH]; simpl; [reflexivity|].
  destruct (query d); simpl; [now rewrite K | now rewrite IH].
Qed.

(** C10: an update that supplies a [category_id] succeeds and stores it
    whatever the categories collection holds; no check is made, and an
    update never answers [CategoryNotFound]. *)
Theorem update_transaction_category_unchecked :
  (forall (tid : string) (data : TransactionUpdate) (cu : User) (db : DB)
          (t : Transaction) (cid : string),
      NoDup (transaction_ids db) ->
      find_one (transaction_query tid (u_id cu)) (transactions db) = Some t ->
      tu_category_id data = Some cid ->
      let r := update_transaction tid data cu db in
      snd r = inr (apply_update_data data t) /\
      t_category_id (apply_update_data data t) = Some cid /\
      find_one (transaction_query tid (u_id cu)) (transactions (fst r))
      = Some (apply_update_data data t) /\
      categories (fst r) = categories db) /\
  (forall (tid : string) (data : TransactionUpdate) (cu : User) (db : DB),
      snd (update_transaction tid data cu db) <> inl CategoryNotFound).
Proof.
  split.
  - intros tid data cu db t cid ND F E r. unfold r.
    rewrite (update_transaction_found tid data cu db t F).
    cbn [fst snd].
    match goal with
    | |- context [when ?b ?m ?d] =>
        pose proof (when_inc_keeps d (u_id cu)
                      (effect (t_amount (apply_update_data data t))
                         (t_type (apply_update_data data t))
                       - effect (t_amount t) (t_type t))) as [Tx [Cx _]]
    end.
    cbv zeta in Tx, Cx. rewrite Tx, Cx. cbn [transactions categories].
    split; [reflexivity|]. split; [unfold apply_update_data; simpl; now rewrite E|].
    split; [|reflexivity].
    rewrite (update_one_by_id tid (u_id cu) _ _ t ND F).
    unfold find_one in *. rewrite find_update_one by reflexivity.
    now rewrite F.
  - intros tid data cu db.
    destruct (find_one (transaction_query tid (u_id cu)) (transactions db))
      as [t|] eqn:F.
    + rewrite (update_transaction_found tid data cu db t F). discriminate.
    + rewrite (update_transaction_missing tid data cu db F). discriminate.
Qed.

Lemma update_transaction_category_unchecked_witness :
  find_one (category_query "c3" "u1") (categories demo_db1) = None /\
  find_one (transaction_query "t1" "u1")
    (transactions (fst (update_transaction "t1" demo_recategorise demo_user
                          demo_db1)))
  = Some (apply_update_data demo_recategorise demo_income_tx) /\
  t_category_id (apply_update_data demo_recategorise demo_income_tx)
  = Some "c3".
Proof.
  split; [reflexivity|].
  pose proof (proj1 update_transaction_category_unchecked "t1"
                demo_recategorise demo_user demo_db1 demo_income_tx "c3") as W.
  assert (ND : NoDup (transaction_ids demo_db1)).
  { repeat constructor; simpl; intuition discriminate. }
  destruct (W ND eq_refl eq_refl) as [_ [C [S _]]].
  split; [exact S | exact C].
Defined.

(** ** The ledger *)

Lemma sum_effects_app (l1 l2 : list Transaction) :
  (sum_effects (l1 ++ l2) == sum_effects l1 + sum_effects l2)%Q.
Proof.
  induction l1 as [|t rest IH]; simpl; [ring|]. rewrite IH. ring.
Qed.

Lemma ledger_cons (uid : string) (t : Transaction) (txs : list Transaction) :
  (sum_effects (filter (owned_active uid) (t :: txs))
   == contribution uid t + sum_effects (filter (owned_active uid) txs))%Q.
Proof.
  unfold contribution. simpl. destruct (owned_active uid t); simpl; ring.
Qed.

Lemma ledger_insert_one (uid : string) (t : Transaction)
    (txs : list Transaction) :
  (sum_effects (filter (owned_active uid) (insert_one t txs))
   == sum_effects (filter (owned_active uid) txs) + contribution uid t)%Q.
Proof.
  unfold insert_one. rewrite filter_app, sum_effects_app.
  rewrite (ledger_cons uid t []). simpl. ring.
Qed.

Lemma ledger_update_one (uid : string) (query : Transaction -> bool)
    (upd : Transaction -> Transaction) (txs : list Transaction)
    (t : Transaction) :
  find query txs = Some t ->
  (sum_effects (filter (owned_active uid) (update_one query upd txs))
   == sum_effects (filter (owned_active uid) txs)
      - contribution uid t + contribution uid (upd t))%Q.
Proof.
  induction txs as [|d rest IH]; [discriminate|].
  cbn [find update_one]. destruct (query d).
  - intros [= ->]. rewrite !ledger_cons. ring.
  - intros F. rewrite !ledger_cons, (IH F). ring.
Qed.

(** A property of the user's active transactions after one of them has
    been rewritten *)
Lemma active_update_one (P : Transaction -> Prop) (uid : string)
    (query : Transaction -> bool) (upd : Transaction -> Transaction)
    (txs : list Transaction) (t : Transaction) :
  find query txs = Some t ->
  (owned_active uid (upd t) = true -> P (upd t)) ->
  Forall P (filter (owned_active uid) txs) ->
  Forall P (filter (owned_active uid) (update_one query upd txs)).
Proof.
  induction txs as [|d rest IH]; [discriminate|].
  cbn [find update_one]. destruct (query d).
  - intros [= ->] U A. cbn [filter] in *.
    assert (R : Forall P (filter (owned_active uid) rest)).
    { destruct (owned_active uid t); [now inversion A | exact A]. }
    destruct (owned_active uid (upd t)); [constructor; auto | exact R].
  - intros F U A. cbn [filter] in *.
    destruct (owned_active uid d).
    + inversion A; subst. constructor; auto.
    + auto.
Qed.

Lemma known_user_inc (db : DB) (uid vid : string) (delta : float) :
  existsb (user_id_query uid)
    (update_one (user_id_query vid) (inc_total_balance delta) (users db))
  = known_user db uid.
Proof.
  unfold known_user. induction (users db) as [|u rest IH]; simpl; [reflexivity|].
  destruct (user_id_query vid u); simpl; [reflexivity | now rewrite IH].
Qed.

Lemma known_user_when_inc (db : DB) (uid vid : string) (delta : float) :
  known_user
    (fst (when (negb (delta =? 0))
            (users_update_one (user_id_query vid) (inc_total_balance delta)) db))
    uid
  = known_user db uid.
Proof.
  destruct (delta =? 0); simpl; [reflexivity|].
  unfold known_user at 1. simpl. apply known_user_inc.
Qed.

Lemma owned_active_found (tid uid : string) (txs : list Transaction)
    (t : Transaction) :
  find_one (transaction_query tid uid) txs = Some t ->
  owned_active uid t = true.
Proof.
  intros F. destruct (find_transaction_some tid uid txs t F) as [_ [_ [U A]]].
  unfold owned_active. now rewrite U, A, String.eqb_refl.
Qed.

(** What a successful create leaves behind *)
Lemma create_transaction_success (data : TransactionCreate) (cu : User)
    (uuid4 : string) (now : datetime) (db db' : DB) (t : Transaction) :
  create_transaction data cu uuid4 now db = (db', inr t) ->
  t_id t = uuid4 /\ t_user_id t = u_id cu /\ t_is_active t = true /\
  t_amount t = tc_amount data /\ t_type t = tc_type data /\
  transactions db' = insert_one t (transactions db) /\
  categories db' = categories db /\
  users db'
  = update_one (user_id_query (u_id cu))
      (inc_total_balance (effect (tc_amount data) (tc_type data))) (users db).
Proof.
  rewrite create_transaction_checked.
  destruct (truthy _ && _); [discriminate|].
  intros [= <- <-]. simpl. repeat split; reflexivity.
Qed.

Lemma find_insert_one_fresh (uid : string) (t : Transaction)
    (txs : list Transaction) :
  ~ In (t_id t) (map t_id txs) ->
  t_user_id t = uid -> t_is_active t = true ->
  find_one (transaction_query (t_id t) uid) (insert_one t txs) = Some t.
Proof.
  intros Fresh U A. unfold find_one, insert_one.
  induction txs as [|d rest IH]; simpl.
  - unfold transaction_query. now rewrite U, A, !String.eqb_refl.
  - unfold transaction_query at 1.
    destruct (String.eqb_spec (t_id d) (t_id t)) as [E|N].
    + exfalso. apply Fresh. left. exact E.
    + simpl. apply IH. intros I. apply Fresh. now right.
Qed.

(** C4, as the code has it: a create followed by the soft delete of the
    transaction it made leaves the user's [total_balance] at the balance
    plus the amount and then minus the amount (income), or minus the
    amount and then plus the amount (expense), each operation rounded; a
    transfer leaves the balance plus zero, which is the balance itself.
    When neither of the two additions rounds, the balance is back at
    exactly the value it had. *)
Theorem create_then_delete_restores_balance :
  forall (data : TransactionCreate) (cu : User) (uuid4 : string)
         (now : datetime) (db db1 : DB) (t : Transaction),
    known_user db (u_id cu) = true ->
    ~ In uuid4 (transaction_ids db) ->
    (0 <? tc_amount data) = true ->
    create_transaction data cu uuid4 now db = (db1, inr t) ->
    let b := total_balance db (u_id cu) in
    let b1 := total_balance db1 (u_id cu) in
    let b2 :=
      total_balance (fst (delete_transaction (t_id t) cu db1)) (u_id cu) in
    snd (delete_transaction (t_id t) cu db1) = inr tt /\
    b2 = match tc_type data with
         | INCOME => b + tc_amount data - tc_amount data
         | EXPENSE => b - tc_amount data + tc_amount data
         | TRANSFER => b + 0
         end /\
    (tc_type data = TRANSFER -> is_nan b = false -> (b2 =? b) = true) /\
    (exact_add b (effect (tc_amount data) (tc_type data)) = true ->
     (if reversal (tc_amount data) (tc_type data) =? 0 then true
      else exact_add b1 (reversal (tc_amount data) (tc_type data))) = true ->
     (to_Q b2 == to_Q b)%Q).
Proof.
  intros data cu uuid4 now db db1 t K Fresh P C b b1 b2.
  destruct (create_transaction_success _ _ _ _ _ _ _ C)
    as [Ei [Eu [Ea [Eam [Ety [Etx [_ Eus]]]]]]].
  assert (F : find_one (transaction_query (t_id t) (u_id cu)) (transactions db1)
              = Some t).
  { rewrite Etx. apply find_insert_one_fresh; auto. now rewrite Ei. }
  assert (K1 : known_user db1 (u_id cu) = true).
  { unfold known_user. rewrite Eus, known_user_inc. exact K. }
  assert (B1 : b1 = b + effect (tc_amount data) (tc_type data)).
  { unfold b1, total_balance at 1. rewrite Eus.
    exact (total_balance_inc db (u_id cu) _ [] [] K). }
  assert (B2 : b2 = if reversal (tc_amount data) (tc_type data) =? 0 then b1
                    else b1 + reversal (tc_amount data) (tc_type data)).
  { unfold b2. rewrite (delete_transaction_found (t_id t) cu db1 t F).
    cbn [fst]. rewrite Eam, Ety.
    match goal with
    | |- total_balance (fst (when _ _ ?d)) _ = _ =>
        rewrite (total_balance_when_inc d (u_id cu) _
                   (eq_trans (known_user_same_users db1 d (u_id cu) eq_refl) K1));
        rewrite (total_balance_same_users db1 d (u_id cu) eq_refl)
    end.
    reflexivity. }
  destruct (positive_not_zero (tc_amount data) P) as [NZ NZ'].
  split; [now rewrite (delete_transaction_found (t_id t) cu db1 t F)|].
  split; [|split].
  - rewrite B2, B1. destruct (tc_type data); simpl.
    + rewrite NZ'. apply add_opp.
    + rewrite NZ, add_opp. reflexivity.
    + reflexivity.
  - intros E N. rewrite B2, B1, E. simpl. now apply add_zero.
  - intros X1 X2. rewrite B2.
    apply exact_add_spec in X1. destruct X1 as [_ [_ [_ X1]]].
    rewrite <- B1 in X1.
    destruct (reversal (tc_amount data) (tc_type data) =? 0) eqn:Z.
    + apply eqb_zero_to_Q in Z. rewrite to_Q_reversal in Z.
      rewrite X1. lra.
    + apply exact_add_spec in X2. destruct X2 as [_ [_ [_ X2]]].
      rewrite X2, to_Q_reversal, X1. ring.
Qed.

Lemma create_then_delete_restores_balance_witness :
  total_balance
    (fst (delete_transaction "t9" demo_user
            (fst (create_transaction demo_expense demo_user "t9" demo_now
                    demo_db1)))) "u1"
  = total_balance demo_db1 "u1" - 50.25 + 50.25 /\
  (to_Q (total_balance
           (fst (delete_transaction "t9" demo_user
                   (fst (create_transaction demo_expense demo_user "t9"
                           demo_now demo_db1)))) "u1")
   == to_Q (total_balance demo_db1 "u1"))%Q.
Proof.
  set (r := create_transaction demo_expense demo_user "t9" demo_now demo_db1).
  assert (N : ~ In "t9" (transaction_ids demo_db1))
    by (simpl; intuition discriminate).
  pose proof (create_then_delete_restores_balance demo_expense demo_user
                "t9" demo_now demo_db1 (fst r)
                (match snd r with inr t => t | inl _ => demo_income_tx end)
                eq_refl N eq_refl eq_refl) as W.
  cbv zeta in W. destruct W as [_ [E [_ X]]].
  split; [exact E | exact (X eq_refl eq_refl)].
Defined.

(** C4 as stated fails when the create rounds: with an income of 0.1 on
    record, an income of 0.2 is created and then soft-deleted, and the
    balance ends at 0.10000000000000003, not at the 0.1 it started
    from. *)
Lemma create_then_delete_leaves_a_residue :
  let r := create_transaction (income_of 0.2) demo_user "d2" demo_now tenth_db in
  let d := delete_transaction "d2" demo_user (fst r) in
  ~ In "d2" (transaction_ids tenth_db) /\
  (exists t, snd r = inr t /\ t_id t = "d2") /\
  snd d = inr tt /\
  total_balance tenth_db "u1" = 0.1 /\
  total_balance (fst r) "u1" = 0.30000000000000004 /\
  total_balance (fst d) "u1" = 0.10000000000000003 /\
  (total_balance (fst d) "u1" =? total_balance tenth_db "u1") = false.
Proof.
  cbv zeta. split; [simpl; intuition discriminate|].
  split; [eexists; split; reflexivity|].
  repeat split.
Qed.

(** ** Sequences of requests *)

Section Ledger.
Variable cu : User.

Lemma create_keeps_reconciled (data : TransactionCreate) (uuid4 : string)
    (now : datetime) (db db' : DB) (t : Transaction) :
  known_user db (u_id cu) = true ->
  reconciled cu db ->
  create_transaction data cu uuid4 now db = (db', inr t) ->
  exact_add (total_balance db (u_id cu)) (effect (t_amount t) (t_type t)) = true ->
  reconciled cu db'.
Proof.
  intros K [Fb [Fe R]] C X.
  destruct (create_transaction_success _ _ _ _ _ _ _ C)
    as [_ [Eu [Ea [Eam [Ety [Etx [_ Eus]]]]]]].
  rewrite Eam, Ety in X.
  apply exact_add_spec in X. destruct X as [_ [Fx [Fs X]]].
  assert (B : total_balance db' (u_id cu)
              = total_balance db (u_id cu)
                + effect (tc_amount data) (tc_type data)).
  { unfold total_balance at 1. rewrite Eus.
    exact (total_balance_inc db (u_id cu) _ [] [] K). }
  assert (O : owned_active (u_id cu) t = true).
  { unfold owned_active. now rewrite Eu, Ea, String.eqb_refl. }
  split; [|split].
  - now rewrite B.
  - rewrite Etx. unfold insert_one. rewrite filter_app. apply Forall_app.
    split; [exact Fe|]. cbn [filter]. rewrite O.
    constructor; [|constructor]. now rewrite Eam, Ety.
  - unfold ledger_balance. rewrite Etx, ledger_insert_one, B, X.
    unfold ledger_balance in R. rewrite R.
    unfold contribution. rewrite O, Eam, Ety. reflexivity.
Qed.

Lemma update_keeps_reconciled (tid : string) (data : TransactionUpdate)
    (db : DB) (t : Transaction) :
  NoDup (transaction_ids db) ->
  known_user db (u_id cu) = true ->
  reconciled cu db ->
  find_one (transaction_query tid (u_id cu)) (transactions db) = Some t ->
  let t' := apply_update_data data t in
  let new_effect := effect (t_amount t') (t_type t') in
  let old_effect := effect (t_amount t) (t_type t) in
  exact_sub new_effect old_effect = true ->
  (if new_effect - old_effect =? 0 then true
   else exact_add (total_balance db (u_id cu)) (new_effect - old_effect))
  = true ->
  reconciled cu (fst (update_transaction tid data cu db)).
Proof.
  intros ND K [Fb [Fe R]] F t' new_effect old_effect S A.
  apply exact_sub_spec in S. destruct S as [Fn [_ [_ S]]].
  rewrite (update_transaction_found tid data cu db t F). cbn [fst].
  fold t' new_effect old_effect.
  unfold reconciled, ledger_balance.
  match goal with
  | |- context [total_balance (fst (when _ _ ?d)) _] =>
      rewrite (total_balance_when_inc d (u_id cu) _
                 (eq_trans (known_user_same_users db d (u_id cu) eq_refl) K));
      rewrite (total_balance_same_users db d (u_id cu) eq_refl);
      rewrite (proj1 (when_inc_keeps d (u_id cu) _))
  end.
  cbn [transactions].
  rewrite (update_one_by_id tid (u_id cu) _ _ t ND F).
  pose proof (owned_active_found tid (u_id cu) _ t F) as O.
  assert (O' : owned_active (u_id cu) t' = true) by exact O.
  split; [|split].
  - destruct (new_effect - old_effect =? 0); [exact Fb|].
    now apply exact_add_spec in A.
  - apply (active_update_one _ _ _ _ _ t F); [|exact Fe].
    intros _. exact Fn.
  - rewrite (ledger_update_one (u_id cu) _ _ _ t F).
    unfold contribution. fold t'. rewrite O, O'. fold new_effect old_effect.
    unfold ledger_balance in R. rewrite <- R.
    destruct (new_effect - old_effect =? 0) eqn:Z.
    + apply eqb_zero_to_Q in Z. rewrite S in Z. lra.
    + apply exact_add_spec in A. destruct A as [_ [_ [_ A]]].
      rewrite A, S. ring.
Qed.

Lemma delete_keeps_reconciled (tid : string) (db : DB) (t : Transaction) :
  NoDup (transaction_ids db) ->
  known_user db (u_id cu) = true ->
  reconciled cu db ->
  find_one (transaction_query tid (u_id cu)) (transactions db) = Some t ->
  (if reversal (t_amount t) (t_type t) =? 0 then true
   else exact_add (total_balance db (u_id cu))
          (reversal (t_amount t) (t_type t))) = true ->
  reconciled cu (fst (delete_transaction tid cu db)).
Proof.
  intros ND K [Fb [Fe R]] F A.
  rewrite (delete_transaction_found tid cu db t F). cbn [fst].
  unfold reconciled, ledger_balance.
  match goal with
  | |- context [total_balance (fst (when _ _ ?d)) _] =>
      rewrite (total_balance_when_inc d (u_id cu) _
                 (eq_trans (known_user_same_users db d (u_id cu) eq_refl) K));
      rewrite (total_balance_same_users db d (u_id cu) eq_refl);
      rewrite (proj1 (when_inc_keeps d (u_id cu) _))
  end.
  cbn [transactions].
  rewrite (update_one_by_id tid (u_id cu) _ _ t ND F).
  pose proof (owned_active_found tid (u_id cu) _ t F) as O.
  assert (O' : owned_active (u_id cu) (set_inactive t) = false).
  { unfold owned_active, set_inactive. simpl. apply andb_false_r. }
  split; [|split].
  - destruct (reversal (t_amount t) (t_type t) =? 0); [exact Fb|].
    now apply exact_add_spec in A.
  - apply (active_update_one _ _ _ _ _ t F); [|exact Fe].
    rewrite O'. discriminate.
  - rewrite (ledger_update_one (u_id cu) _ _ _ t F).
    unfold contribution. rewrite O, O'.
    unfold ledger_balance in R. rewrite <- R.
    pose proof (to_Q_reversal (t_amount t) (t_type t)) as V.
    destruct (reversal (t_amount t) (t_type t) =? 0) eqn:Z.
    + apply eqb_zero_to_Q in Z. lra.
    + apply exact_add_spec in A. destruct A as [_ [_ [_ A]]].
      rewrite A. lra.
Qed.

Lemma serve_keeps_reconciled (r : Request) (db : DB) :
  NoDup (transaction_ids db) ->
  known_user db (u_id cu) = true ->
  reconciled cu db ->
  exact_step cu r db = true ->
  reconciled cu (serve cu r db).
Proof.
  intros ND K R X. destruct r as [body uuid4 now|tid body|tid]; simpl in *.
  - unfold post_transactions in *. destruct (validate_create body); [|exact R].
    destruct (create_transaction body cu uuid4 now db) as [db' [e|t]] eqn:C.
    + rewrite create_transaction_checked in C.
      destruct (truthy _ && _); [|discriminate].
      now injection C as <- _.
    + now apply (create_keeps_reconciled body uuid4 now db db' t).
  - unfold put_transactions.
    destruct (find_one (transaction_query tid (u_id cu)) (transactions db))
      as [t|] eqn:F.
    + destruct (validate_update body); [|exact R].
      apply andb_prop in X. destruct X as [S A].
      now apply (update_keeps_reconciled tid body db t).
    + destruct (validate_update body); [|exact R].
      now rewrite (update_transaction_missing tid body cu db F).
  - destruct (find_one (transaction_query tid (u_id cu)) (transactions db))
      as [t|] eqn:F.
    + now apply (delete_keeps_reconciled tid db t).
    + now rewrite (delete_transaction_missing tid cu db F).
Qed.

Lemma serve_keeps_known_user (r : Request) (db : DB) :
  known_user (serve cu r db) (u_id cu) = known_user db (u_id cu).
Proof.
  destruct r as [body uuid4 now|tid body|tid]; simpl.
  - unfold post_transactions. destruct (validate_create body); [|reflexivity].
    rewrite create_transaction_checked.
    destruct (truthy _ && _); [reflexivity|].
    unfold known_user at 1. simpl. apply known_user_inc.
  - unfold put_transactions. destruct (validate_update body); [|reflexivity].
    destruct (find_one (transaction_query tid (u_id cu)) (transactions db))
      as [t|] eqn:F.
    + rewrite (update_transaction_found tid body cu db t F). cbn [fst].
      now rewrite known_user_when_inc.
    + now rewrite (update_transaction_missing tid body cu db F).
  - destruct (find_one (transaction_query tid (u_id cu)) (transactions db))
      as [t|] eqn:F.
    + rewrite (delete_transaction_found tid cu db t F). cbn [fst].
      now rewrite known_user_when_inc.
    + now rewrite (delete_transaction_missing tid cu db F).
Qed.

(** The ids in the store after a request: those before, and the id drawn
    by the request when it is a create that went through. *)
Lemma serve_transaction_ids (r : Request) (db : DB) :
  transaction_ids (serve cu r db) = transaction_ids db \/
  exists body uuid4 now,
    r = Create body uuid4 now /\
    transaction_ids (serve cu r db) = (transaction_ids db ++ [uuid4])%list.
Proof.
  unfold transaction_ids.
  destruct r as [body uuid4 now|tid body|tid]; simpl.
  - unfold post_transactions. destruct (validate_create body); [|now left].
    rewrite create_transaction_checked.
    destruct (truthy _ && _); [now left|].
    right. exists body, uuid4, now. split; [reflexivity|].
    simpl. unfold insert_one. now rewrite map_app.
  - left. unfold put_transactions. destruct (validate_update body);
      [|reflexivity].
    destruct (find_one (transaction_query tid (u_id cu)) (transactions db))
      as [t|] eqn:F.
    + rewrite (update_transaction_found tid body cu db t F). cbn [fst].
      rewrite (proj1 (when_inc_keeps _ (u_id cu) _)). cbn [transactions].
      now apply map_t_id_update_one.
    + now rewrite (update_transaction_missing tid body cu db F).
  - left.
    destruct (find_one (transaction_query tid (u_id cu)) (transactions db))
      as [t|] eqn:F.
    + rewrite (delete_transaction_found tid cu db t F). cbn [fst].
      rewrite (proj1 (when_inc_keeps _ (u_id cu) _)). cbn [transactions].
      now apply map_t_id_update_one.
    + now rewrite (delete_transaction_missing tid cu db F).
Qed.

Lemma serve_keeps_ids_distinct (r : Request) (rest : list Request) (db : DB) :
  NoDup (transaction_ids db ++ drawn_ids (r :: rest)) ->
  NoDup (transaction_ids (serve cu r db) ++ drawn_ids rest).
Proof.
  intros ND.
  destruct (serve_transaction_ids r db) as [E|[body [uuid4 [now [-> E]]]]].
  - rewrite E. destruct r; simpl in ND; try exact ND.
    now apply NoDup_remove_1 in ND.
  - rewrite E, <- app_assoc. exact ND.
Qed.
End Ledger.

(** The invariant along a sequence of requests whose arithmetic is exact *)
Lemma serve_all_keeps_reconciled (cu : User) (rs : list Request) :
  forall db : DB,
    NoDup (transaction_ids db ++ drawn_ids rs) ->
    known_user db (u_id cu) = true ->
    reconciled cu db ->
    exact_run cu rs db = true ->
    reconciled cu (serve_all cu rs db).
Proof.
  induction rs as [|r rest IH]; intros db ND K R X; [exact R|].
  simpl in *. apply andb_prop in X. destruct X as [X1 X2].
  apply IH.
  - now apply serve_keeps_ids_distinct.
  - now rewrite serve_keeps_known_user.
  - apply serve_keeps_reconciled; auto.
    now apply NoDup_app_remove_r in ND.
  - exact X2.
Qed.

(** C1, as the code has it: over a sequence of creates, updates and soft
    deletes of a user in which no balance arithmetic rounds, if
    [total_balance] was the exact sum of the effects of the user's
    active transactions before, it is so after: it equals the sum of
    [effect(amount, type)] over the user's transactions that are active
    at the end.  Identifiers are unique: those in the store and those the
    creates draw are pairwise distinct. *)
Theorem total_balance_reconciles :
  forall (cu : User) (rs : list Request) (db : DB),
    NoDup (transaction_ids db ++ drawn_ids rs) ->
    known_user db (u_id cu) = true ->
    reconciled cu db ->
    exact_run cu rs db = true ->
    is_finite (total_balance (serve_all cu rs db) (u_id cu)) = true /\
    Forall (fun t => is_finite (effect (t_amount t) (t_type t)) = true)
      (filter (fun t => String.eqb (t_user_id t) (u_id cu) && t_is_active t)
         (transactions (serve_all cu rs db))) /\
    (to_Q (total_balance (serve_all cu rs db) (u_id cu))
     == sum_effects
          (filter (fun t => String.eqb (t_user_id t) (u_id cu) && t_is_active t)
             (transactions (serve_all cu rs db))))%Q.
Proof.
  intros cu rs db ND K R X.
  exact (serve_all_keeps_reconciled cu rs db ND K R X).
Qed.

Lemma total_balance_reconciles_witness :
  (to_Q (total_balance (serve_all demo_user demo_requests demo_db) "u1")
   == sum_effects
        (filter (fun t => String.eqb (t_user_id t) "u1" && t_is_active t)
           (transactions (serve_all demo_user demo_requests demo_db))))%Q.
Proof.
  apply (total_balance_reconciles demo_user demo_requests demo_db).
  - repeat constructor; simpl; intuition discriminate.
  - reflexivity.
  - split; [reflexivity|]. split; [constructor | reflexivity].
  - vm_compute. reflexivity.
Defined.

(** C1 as stated fails when a balance update rounds: from a balance of 0
    and no transaction, an income of 0.1 and an income of 0.2 are
    created and the first is soft-deleted.  The one active transaction
    is the income of 0.2, and the balance is 0.20000000000000004. *)
Lemma balance_drifts_from_ledger :
  let db := serve_all demo_user drift_requests new_db in
  NoDup (transaction_ids new_db ++ drawn_ids drift_requests) /\
  known_user new_db "u1" = true /\
  reconciled demo_user new_db /\
  map (fun t => (t_id t, t_user_id t, t_amount t, t_type t, t_is_active t))
    (transactions db)
  = [("a1", "u1", 0.1, INCOME, false); ("a2", "u1", 0.2, INCOME, true)] /\
  total_balance db "u1" = 0.20000000000000004 /\
  (total_balance db "u1" =? 0.2) = false /\
  (ledger_balance db "u1" == to_Q 0.2)%Q /\
  ~ (to_Q (total_balance db "u1") == ledger_balance db "u1")%Q.
Proof.
  cbv zeta. split.
  { repeat constructor; simpl; intuition discriminate. }
  split; [reflexivity|]. split.
  { split; [reflexivity|]. split; [constructor | reflexivity]. }
  split; [reflexivity|]. split; [reflexivity|]. split; [reflexivity|].
  split.
  - apply Qeq_bool_iff. vm_compute. reflexivity.
  - intros E. apply Qeq_bool_iff in E. vm_compute in E. discriminate E.
Qed.

(** ** Dictionaries *)

Lemma opt_eqb_eq (a b : option string) : opt_eqb a b = true <-> a = b.
Proof.
  destruct a as [x|], b as [y|]; simpl; try (split; congruence).
  rewrite String.eqb_eq. split; congruence.
Qed.

Lemma opt_eqb_refl (a : option string) : opt_eqb a a = true.
Proof. now apply opt_eqb_eq. Qed.

Lemma opt_eqb_sym (a b : option string) : opt_eqb a b = opt_eqb b a.
Proof.
  destruct (opt_eqb a b) eqn:E, (opt_eqb b a) eqn:E'; try reflexivity.
  - apply opt_eqb_eq in E. subst. now rewrite opt_eqb_refl in E'.
  - apply opt_eqb_eq in E'. subst. now rewrite opt_eqb_refl in E.
Qed.

Section DictFacts.
Context {V : Type}.
Implicit Types (d : dict V) (k : option string).

Lemma dict_mem_keys k d :
  dict_mem k d = existsb (opt_eqb k) (map fst d).
Proof.
  unfold dict_mem. induction d as [|[k' v] rest IH]; simpl; [reflexivity|].
  rewrite (opt_eqb_sym k k'). destruct (opt_eqb k' k); simpl; auto.
Qed.

Lemma dict_modify_keys k (f : V -> V) d :
  map fst (dict_modify k f d) = map fst d.
Proof.
  induction d as [|[k' v] rest IH]; simpl; [reflexivity|].
  destruct (opt_eqb k' k); simpl; [reflexivity | now rewrite IH].
Qed.

Lemma dict_set_new_keys k (v : V) d :
  dict_mem k d = false -> dict_set k v d = (d ++ [(k, v)])%list.
Proof.
  unfold dict_mem. induction d as [|[k' v'] rest IH]; simpl; [reflexivity|].
  destruct (opt_eqb k' k); [discriminate|].
  intros H. now rewrite IH.
Qed.

Lemma dict_get_modify k k' (f : V -> V) d :
  dict_get k (dict_modify k' f d)
  = if opt_eqb k' k then option_map f (dict_get k d) else dict_get k d.
Proof.
  induction d as [|[k0 v] rest IH]; simpl.
  - now destruct (opt_eqb k' k).
  - destruct (opt_eqb k0 k') eqn:E0; simpl.
    + apply opt_eqb_eq in E0. subst k0.
      destruct (opt_eqb k' k); reflexivity.
    + destruct (opt_eqb k0 k) eqn:E1; simpl.
      * apply opt_eqb_eq in E1. subst k0.
        rewrite (opt_eqb_sym k' k), E0. reflexivity.
      * exact IH.
Qed.

Lemma dict_get_app_new k k' (v : V) d :
  dict_mem k' d = false ->
  dict_get k (d ++ [(k', v)])%list
  = if opt_eqb k' k then Some v else dict_get k d.
Proof.
  unfold dict_mem. induction d as [|[k0 v0] rest IH]; simpl; [reflexivity|].
  destruct (opt_eqb k0 k') eqn:E0; [discriminate|].
  intros H. destruct (opt_eqb k0 k) eqn:E1.
  - apply opt_eqb_eq in E1. subst k0. now rewrite (opt_eqb_sym k' k), E0.
  - now apply IH.
Qed.
End DictFacts.

(** ** Sums *)

Lemma total_app (l1 l2 : list Q) :
  (total (l1 ++ l2) == total l1 + total l2)%Q.
Proof. induction l1 as [|x rest IH]; simpl; [ring|]. rewrite IH. ring. Qed.



(** ** Grouping by category *)


Lemma dict_modify_app_new {V : Type} (k : option string) (f : V -> V) (v : V)
    (d : dict V) :
  dict_mem k d = false ->
  dict_modify k f (d ++ [(k, v)])%list = (d ++ [(k, f v)])%list.
Proof.
  unfold dict_mem. induction d as [|[k0 v0] rest IH]; simpl.
  - now rewrite opt_eqb_refl.
  - destruct (opt_eqb k0 k); [discriminate|].
    intros H. now rewrite IH.
Qed.

Lemma dict_get_in {V : Type} (k : option string) (v : V) (d : dict V) :
  NoDup (map fst d) -> In (k, v) d -> dict_get k d = Some v.
Proof.
  induction d as [|[k0 v0] rest IH]; simpl; [contradiction|].
  intros ND [E|I].
  - injection E as -> ->. now rewrite opt_eqb_refl.
  - inversion ND as [|? ? Nin ND']; subst.
    destruct (opt_eqb k0 k) eqn:E0.
    + apply opt_eqb_eq in E0. subst k0. exfalso. apply Nin.
      change k with (fst (k, v)). now apply in_map.
    + now apply IH.
Qed.

Lemma group_step_cases (acc : dict Totals) (t : Transaction) :
  (exists v, dict_get (t_category_id t) acc = Some v /\
             group_step acc t = dict_modify (t_category_id t) (add_to t) acc) \/
  (dict_mem (t_category_id t) acc = false /\
   group_step acc t
   = (acc ++ [(t_category_id t, mk_Totals (0 + t_amount t) (0 + 1))])%list).
Proof.
  unfold group_step. fold (add_to t).
  destruct (dict_mem (t_category_id t) acc) eqn:M.
  - left. unfold dict_mem in M.
    destruct (dict_get (t_category_id t) acc) as [v|]; [|discriminate].
    now exists v.
  - right. split; [reflexivity|].
    rewrite dict_set_new_keys by exact M.
    now rewrite dict_modify_app_new.
Qed.

Lemma group_step_keys (acc : dict Totals) (t : Transaction) :
  map fst (group_step acc t)
  = if existsb (opt_eqb (t_category_id t)) (map fst acc)
    then map fst acc else (map fst acc ++ [t_category_id t])%list.
Proof.
  rewrite <- dict_mem_keys.
  destruct (group_step_cases acc t) as [[v [G ->]]|[M ->]].
  - unfold dict_mem. rewrite G. apply dict_modify_keys.
  - rewrite M. now rewrite map_app.
Qed.

Lemma group_step_amount (k : option string) (acc : dict Totals)
    (t : Transaction) :
  group_amount k (group_step acc t)
  = if opt_eqb (t_category_id t) k then group_amount k acc + t_amount t
    else group_amount k acc.
Proof.
  unfold group_amount.
  destruct (group_step_cases acc t) as [[v [G ->]]|[M ->]].
  - rewrite dict_get_modify.
    destruct (opt_eqb (t_category_id t) k) eqn:E; [|reflexivity].
    apply opt_eqb_eq in E. subst k. rewrite G. reflexivity.
  - rewrite dict_get_app_new by exact M.
    destruct (opt_eqb (t_category_id t) k) eqn:E; [|reflexivity].
    apply opt_eqb_eq in E. subst k. unfold dict_mem in M.
    destruct (dict_get (t_category_id t) acc); [discriminate|]. reflexivity.
Qed.

Lemma group_step_count (k : option string) (acc : dict Totals)
    (t : Transaction) :
  group_count k (group_step acc t)
  = (group_count k acc
     + (if opt_eqb (t_category_id t) k then 1 else 0))%nat.
Proof.
  unfold group_count.
  destruct (group_step_cases acc t) as [[v [G ->]]|[M ->]].
  - rewrite dict_get_modify.
    destruct (opt_eqb (t_category_id t) k) eqn:E.
    + apply opt_eqb_eq in E. subst k. rewrite G. simpl. reflexivity.
    + lia.
  - rewrite dict_get_app_new by exact M.
    destruct (opt_eqb (t_category_id t) k) eqn:E.
    + apply opt_eqb_eq in E. subst k. unfold dict_mem in M.
      destruct (dict_get (t_category_id t) acc); [discriminate|]. simpl. lia.
    + lia.
Qed.

(** The amount a group holds is the sum, taken from the left in the order
    of the loop, of the amounts of its transactions. *)
Lemma group_fold_amount (k : option string) (sel : list Transaction) :
  forall acc : dict Totals,
    group_amount k (fold_left group_step sel acc)
    = fold_left PrimFloat.add (map t_amount (in_category k sel))
        (group_amount k acc).
Proof.
  induction sel as [|t rest IH]; intros acc; simpl; [reflexivity|].
  rewrite IH, group_step_amount.
  destruct (opt_eqb (t_category_id t) k); reflexivity.
Qed.

Lemma group_fold_count (k : option string) (sel : list Transaction) :
  forall acc : dict Totals,
    group_count k (fold_left group_step sel acc)
    = (group_count k acc + List.length (in_category k sel))%nat.
Proof.
  induction sel as [|t rest IH]; intros acc; simpl; [lia|].
  rewrite IH, group_step_count.
  destruct (opt_eqb (t_category_id t) k); simpl; lia.
Qed.

Lemma group_fold_keys (sel : list Transaction) :
  forall acc : dict Totals,
    map fst (fold_left group_step sel acc)
    = fold_left
        (fun seen k =>
           if existsb (opt_eqb k) seen then seen else (seen ++ [k])%list)
        (map t_category_id sel) (map fst acc).
Proof.
  induction sel as [|t rest IH]; intros acc; simpl; [reflexivity|].
  now rewrite IH, group_step_keys.
Qed.

Lemma group_by_category_keys (sel : list Transaction) :
  map fst (group_by_category sel) = first_occurrences (map t_category_id sel).
Proof. apply (group_fold_keys sel []). Qed.

Lemma first_occurrences_NoDup (keys : list (option string)) :
  NoDup (first_occurrences keys).
Proof.
  unfold first_occurrences.
  assert (G : forall seen, NoDup seen ->
              NoDup (fold_left
                       (fun seen k =>
                          if existsb (opt_eqb k) seen then seen
                          else (seen ++ [k])%list) keys seen)).
  { induction keys as [|k rest IH]; intros seen ND; simpl; [exact ND|].
    apply IH. destruct (existsb (opt_eqb k) seen) eqn:E; [exact ND|].
    apply NoDup_app; [exact ND | repeat constructor; intros [] |].
    intros x Hx [<-|[]].
    assert (existsb (opt_eqb k) seen = true); [|congruence].
    apply existsb_exists. exists k. split; [exact Hx | apply opt_eqb_refl]. }
  apply G. constructor.
Qed.

(** ** Sorting by amount *)

Lemma insert_desc_perm (x : CategoryExpense) (l : list CategoryExpense) :
  Permutation (insert_desc x l) (x :: l).
Proof.
  induction l as [|y rest IH]; simpl; [reflexivity|].
  destruct (ce_total_amount y <=? ce_total_amount x); [reflexivity|].
  rewrite IH. apply perm_swap.
Qed.

Lemma sort_desc_perm (l : list CategoryExpense) : Permutation (sort_desc l) l.
Proof.
  induction l as [|x rest IH]; simpl; [reflexivity|].
  rewrite insert_desc_perm. now constructor.
Qed.









(** ** The category breakdown *)

Lemma get_expenses_by_category_unfold (month year : option N) (cu : User)
    (now : datetime) (db : DB) :
  let groups := group_by_category (expense_window month year cu now db) in
  let T := sum (map entry_amount groups) in
  get_expenses_by_category month year cu now db
  = mk_ExpenseByCategory
      (sort_desc
         (map (make_expense (build_category_map (category_window cu db)) T)
            groups))
      T.
Proof. reflexivity. Qed.

Lemma make_expense_fields (cmap : dict string) (T : float)
    (entry : option string * Totals) :
  ce_category_id (make_expense cmap T entry) = fst entry /\
  ce_total_amount (make_expense cmap T entry) = tot_amount (snd entry) /\
  ce_transaction_count (make_expense cmap T entry) = tot_count (snd entry) /\
  ce_percentage (make_expense cmap T entry)
  = (if 0 <? T then tot_amount (snd entry) / T * 100 else 0) /\
  ce_category_name (make_expense cmap T entry)
  = dict_get_default (fst entry) "Sem categoria" cmap.
Proof.
  destruct entry as [k d]. simpl. repeat split.
  now destruct (truthy k).
Qed.

Lemma group_by_category_entry (sel : list Transaction) (k : option string)
    (d : Totals) :
  In (k, d) (group_by_category sel) ->
  tot_amount d = accumulate (map t_amount (in_category k sel)) /\
  tot_count d = List.length (in_category k sel).
Proof.
  intros I.
  assert (G : dict_get k (group_by_category sel) = Some d).
  { apply dict_get_in; [|exact I].
    rewrite group_by_category_keys. apply first_occurrences_NoDup. }
  split.
  - pose proof (group_fold_amount k sel []) as A.
    fold (group_by_category sel) in A. unfold group_amount in A.
    rewrite G in A. exact A.
  - pose proof (group_fold_count k sel []) as C.
    fold (group_by_category sel) in C. unfold group_count in C.
    rewrite G in C. simpl in C. exact C.
Qed.

Lemma TransactionType_eqb_eq (a b : TransactionType) :
  TransactionType_eqb a b = true <-> a = b.
Proof. destruct a, b; simpl; split; congruence. Qed.

Lemma expense_query_spec (uid lo hi : string) (t : Transaction) :
  expense_query uid lo hi t = true <->
  t_user_id t = uid /\ t_is_active t = true /\ t_type t = EXPENSE /\
  in_range lo hi (t_transaction_date t) = true.
Proof.
  unfold expense_query.
  rewrite !andb_true_iff, String.eqb_eq, TransactionType_eqb_eq. tauto.
Qed.

Lemma filter_none {A : Type} (p : A -> bool) (l : list A) :
  (forall x, In x l -> p x = false) -> filter p l = [].
Proof.
  induction l as [|x rest IH]; intros H; simpl; [reflexivity|].
  rewrite (H x (or_introl eq_refl)). apply IH. intros y I. apply H. now right.
Qed.









(** ** Category names in the breakdown *)

Lemma dict_get_set {V : Type} (k k' : option string) (v : V) (d : dict V) :
  dict_get k (dict_set k' v d)
  = if opt_eqb k' k then Some v else dict_get k d.
Proof.
  induction d as [|[k0 v0] rest IH]; simpl; [reflexivity|].
  destruct (opt_eqb k0 k') eqn:E0; simpl.
  - apply opt_eqb_eq in E0. subst k0. now destruct (opt_eqb k' k).
  - destruct (opt_eqb k0 k) eqn:E1.
    + apply opt_eqb_eq in E1. subst k0. now rewrite (opt_eqb_sym k' k), E0.
    + exact IH.
Qed.

Lemma category_map_lookup (k : option string) (cats : list Category) :
  forall acc : dict string,
    let m := fold_left (fun m c => dict_set (Some (c_id c)) (c_name c) m)
               cats acc in
    (dict_get k m = dict_get k acc /\
     forall c, In c cats -> Some (c_id c) <> k) \/
    (exists c, In c cats /\ Some (c_id c) = k /\ dict_get k m = Some (c_name c)).
Proof.
  induction cats as [|c rest IH]; intros acc; simpl.
  - left. split; [reflexivity | intros c []].
  - destruct (IH (dict_set (Some (c_id c)) (c_name c) acc))
      as [[E N]|[c' [I [K E]]]].
    + rewrite dict_get_set in E.
      destruct (opt_eqb (Some (c_id c)) k) eqn:M.
      * right. exists c. apply opt_eqb_eq in M. auto.
      * left. split; [exact E|].
        intros c' [<-|I]; [|now apply N].
        intros K. apply opt_eqb_eq in K. congruence.
    + right. exists c'. auto.
Qed.

Lemma first_occurrences_complete (k : option string)
    (keys : list (option string)) :
  In k keys -> In k (first_occurrences keys).
Proof.
  unfold first_occurrences.
  assert (G : forall seen, In k seen \/ In k keys ->
              In k (fold_left
                      (fun seen k =>
                         if existsb (opt_eqb k) seen then seen
                         else (seen ++ [k])%list) keys seen)).
  { induction keys as [|k0 rest IH]; intros seen [I|I]; simpl;
      try contradiction; try exact I.
    - apply IH. left.
      destruct (existsb (opt_eqb k0) seen); [exact I|].
      apply in_or_app. now left.
    - apply IH. destruct I as [->|I]; [left | now right].
      destruct (existsb (opt_eqb k) seen) eqn:E.
      + apply existsb_exists in E. destruct E as [x [Hx E]].
        apply opt_eqb_eq in E. now subst x.
      + apply in_or_app. right. now left. }
  intros I. apply G. now right.
Qed.

Lemma category_view_window (p : Category -> bool) (q : Category -> bool)
    (f : Category -> Category) (cats : list Category) :
  (forall c, p (f c) = p c) ->
  (forall c, category_view (f c) = category_view c) ->
  map category_view (filter p (update_one q f cats))
  = map category_view (filter p cats).
Proof.
  intros Kp Kv. induction cats as [|c rest IH]; simpl; [reflexivity|].
  destruct (q c); simpl.
  - rewrite Kp. destruct (p c); simpl; [now rewrite Kv | reflexivity].
  - destruct (p c); simpl; now rewrite IH.
Qed.

Lemma build_category_map_view (cats : list Category) :
  build_category_map cats
  = fold_left (fun m v => dict_set (Some (fst v)) (snd v) m)
      (map category_view cats) [].
Proof.
  unfold build_category_map. generalize (@nil (option string * string)).
  induction cats as [|c rest IH]; intros acc; simpl; [reflexivity|].
  apply IH.
Qed.

Lemma delete_category_keeps_report (month year : option N) (cu : User)
    (now : datetime) (db : DB) (cid : string) :
  get_expenses_by_category month year cu now (fst (delete_category cid cu db))
  = get_expenses_by_category month year cu now db.
Proof.
  unfold delete_category.
  destruct (find_one (category_query cid (u_id cu)) (categories db));
    [|reflexivity].
  cbn [fst]. rewrite !get_expenses_by_category_unfold.
  assert (W : build_category_map
                (category_window cu
                   (mk_DB (users db)
                      (update_one (category_query cid (u_id cu))
                         set_category_inactive (categories db))
                      (transactions db)))
              = build_category_map (category_window cu db)).
  { rewrite !build_category_map_view. f_equal.
    unfold category_window, to_list, find_many. cbn [categories].
    rewrite <- !firstn_map. f_equal.
    now apply category_view_window. }
  cbv zeta. rewrite W. reflexivity.
Qed.

Lemma first_occurrences_sound (k : option string)
    (keys : list (option string)) :
  In k (first_occurrences keys) -> In k keys.
Proof.
  unfold first_occurrences.
  assert (G : forall seen,
              In k (fold_left
                      (fun seen k =>
                         if existsb (opt_eqb k) seen then seen
                         else (seen ++ [k])%list) keys seen) ->
              In k seen \/ In k keys).
  { induction keys as [|k0 rest IH]; intros seen I; simpl in *; [now left|].
    destruct (IH _ I) as [H|H]; [|now right; right].
    destruct (existsb (opt_eqb k0) seen); [now left|].
    apply in_app_or in H. destruct H as [H|[<-|[]]]; [now left|].
    right. now left. }
  intros I. destruct (G [] I) as [[]|H]. exact H.
Qed.

(** Two category documents of a list without repeated ids that carry the
    same id are one document. *)
Lemma category_by_id (cats : list Category) (c c' : Category) :
  NoDup (map c_id cats) -> In c cats -> In c' cats -> c_id c = c_id c' ->
  c = c'.
Proof.
  induction cats as [|d rest IH]; [contradiction|].
  intros ND I I' E. inversion ND as [|? ? Nin ND']; subst.
  destruct I as [<-|I], I' as [<-|I']; auto.
  - exfalso. apply Nin. rewrite E. now apply in_map.
  - exfalso. apply Nin. rewrite <- E. now apply in_map.
Qed.

(** C7, as the code has it, for a user with at most 1000 category
    documents and a month with at most 10000 matching expenses, which is
    all the breakdown reads: every active expense of the user in the byte
    range of the month is reported under its own [category_id], and
    every group comes from such an expense; the display name of a group
    is "Sem categoria" when its id is null or is the id of none of the
    user's category documents, and otherwise it is the stored name of a
    category document of the user with that id, active or soft-deleted:
    soft-deleting a category leaves the breakdown as it was. *)
Theorem breakdown_category_names :
  forall (month year : option N) (cu : User) (now : datetime) (db : DB),
    let r := get_expenses_by_category month year cu now db in
    let lo := fst (date_range month year now) in
    let hi := snd (date_range month year now) in
    let own :=
      filter (fun c => String.eqb (c_user_id c) (u_id cu)) (categories db) in
    (List.length (filter (expense_query (u_id cu) lo hi) (transactions db))
     <= N.to_nat 10000)%nat ->
    (List.length own <= N.to_nat 1000)%nat ->
    (forall t, In t (transactions db) -> t_user_id t = u_id cu ->
       t_is_active t = true -> t_type t = EXPENSE ->
       in_range lo hi (t_transaction_date t) = true ->
       exists e, In e (expenses r) /\ ce_category_id e = t_category_id t) /\
    (forall e, In e (expenses r) ->
       (exists t, In t (transactions db) /\ t_user_id t = u_id cu /\
                  t_is_active t = true /\ t_type t = EXPENSE /\
                  in_range lo hi (t_transaction_date t) = true /\
                  t_category_id t = ce_category_id e) /\
       (ce_category_id e = None -> ce_category_name e = "Sem categoria") /\
       (forall cid, ce_category_id e = Some cid ->
          (forall c, In c (categories db) -> c_user_id c = u_id cu ->
                     c_id c <> cid) ->
          ce_category_name e = "Sem categoria") /\
       (forall cid, ce_category_id e = Some cid ->
          (exists c, In c (categories db) /\ c_user_id c = u_id cu /\
                     c_id c = cid) ->
          exists c, In c (categories db) /\ c_user_id c = u_id cu /\
                    c_id c = cid /\ ce_category_name e = c_name c) /\
       (forall c, NoDup (map c_id own) ->
          In c (categories db) -> c_user_id c = u_id cu ->
          ce_category_id e = Some (c_id c) ->
          ce_category_name e = c_name c)) /\
    (forall cid,
       get_expenses_by_category month year cu now
         (fst (delete_category cid cu db)) = r).
Proof.
  intros month year cu now db r lo hi own Lt Lc.
  assert (W : expense_window month year cu now db
              = filter (expense_query (u_id cu) lo hi) (transactions db)).
  { unfold expense_window, to_list, find_many. now apply firstn_all2. }
  assert (C : category_window cu db = own).
  { unfold category_window, to_list, find_many. now apply firstn_all2. }
  assert (O : forall c, In c own <->
                        In c (categories db) /\ c_user_id c = u_id cu).
  { intros c. unfold own. rewrite filter_In, String.eqb_eq. reflexivity. }
  assert (N : forall e, In e (expenses r) ->
              (ce_category_id e = None -> ce_category_name e = "Sem categoria") /\
              (forall cid, ce_category_id e = Some cid ->
                 (forall c, In c own -> c_id c <> cid) ->
                 ce_category_name e = "Sem categoria") /\
              (forall cid, ce_category_id e = Some cid ->
                 (exists c, In c own /\ c_id c = cid) ->
                 exists c, In c own /\ c_id c = cid /\
                           ce_category_name e = c_name c)).
  { intros e I. unfold r in I. rewrite get_expenses_by_category_unfold in I.
    cbn [expenses] in I.
    apply (Permutation_in _ (sort_desc_perm _)) in I.
    apply in_map_iff in I. destruct I as [entry [<- _]].
    match goal with
    | |- context [make_expense ?m ?T entry] =>
        destruct (make_expense_fields m T entry) as [-> [_ [_ [_ ->]]]]
    end.
    rewrite C. unfold dict_get_default, build_category_map.
    split; [|split].
    + intros ->.
      destruct (category_map_lookup None own []) as [[-> _]|[c [_ [K _]]]];
        [reflexivity | discriminate].
    + intros cid -> M.
      destruct (category_map_lookup (Some cid) own [])
        as [[-> _]|[c [Ic [K _]]]]; [reflexivity|].
      exfalso. apply (M c Ic). congruence.
    + intros cid -> [c0 [I0 E0]].
      destruct (category_map_lookup (Some cid) own [])
        as [[_ M]|[c [Ic [K ->]]]].
      * exfalso. apply (M c0 I0). congruence.
      * exists c. repeat split; [exact Ic | congruence]. }
  split; [|split].
  - intros t It U A E R. unfold r. rewrite get_expenses_by_category_unfold.
    cbn [expenses].
    set (groups := group_by_category (expense_window month year cu now db)).
    assert (K : In (t_category_id t) (map fst groups)).
    { unfold groups. rewrite group_by_category_keys.
      apply first_occurrences_complete. apply in_map. rewrite W.
      apply filter_In. split; [exact It|]. now apply expense_query_spec. }
    apply in_map_iff in K. destruct K as [entry [Ek Ie]].
    eexists. split.
    + apply (Permutation_in _ (Permutation_sym (sort_desc_perm _))).
      apply in_map. exact Ie.
    + now destruct (make_expense_fields
                      (build_category_map (category_window cu db))
                      (sum (map entry_amount groups)) entry) as [-> _].
  - intros e I. destruct (N e I) as [N0 [N1 N2]].
    split; [|split; [exact N0|split; [|split]]].
    + unfold r in I. rewrite get_expenses_by_category_unfold in I.
      cbn [expenses] in I.
      apply (Permutation_in _ (sort_desc_perm _)) in I.
      apply in_map_iff in I. destruct I as [entry [<- Ie]].
      match goal with
      | |- context [make_expense ?m ?T entry] =>
          destruct (make_expense_fields m T entry) as [-> _]
      end.
      assert (K : In (fst entry)
                    (map t_category_id (expense_window month year cu now db))).
      { apply first_occurrences_sound. rewrite <- group_by_category_keys.
        now apply in_map. }
      apply in_map_iff in K. destruct K as [t [Et It]].
      rewrite W in It. apply filter_In in It. destruct It as [It Q].
      apply expense_query_spec in Q. exists t. tauto.
    + intros cid E M. apply (N1 cid E). intros c Ic.
      apply O in Ic. now apply M.
    + intros cid E [c [Ic [Uc Ec]]].
      destruct (N2 cid E) as [c' [Ic' [Ec' En]]].
      { exists c. split; [now apply O | exact Ec]. }
      exists c'. apply O in Ic'. tauto.
    + intros c ND Ic Uc E.
      destruct (N2 (c_id c) E) as [c' [Ic' [Ec' En]]].
      { exists c. split; [now apply O | reflexivity]. }
      rewrite En. f_equal.
      apply (category_by_id own); auto. now apply O.
  - intros cid. apply delete_category_keeps_report.
Qed.

Lemma breakdown_category_names_witness :
  In (mk_Category "c2" "u1" "Antiga" false) (categories demo_db2) /\
  forall e, In e (expenses demo_breakdown) ->
            ce_category_id e = Some "c2" -> ce_category_name e = "Antiga".
Proof.
  split; [right; left; reflexivity|].
  intros e I E.
  assert (Lt : (List.length
                  (filter
                     (expense_query (u_id demo_user)
                        (fst (date_range (Some 1%N) (Some 2024%N) demo_now))
                        (snd (date_range (Some 1%N) (Some 2024%N) demo_now)))
                     (transactions demo_db2)) <= N.to_nat 10000)%nat)
    by (apply Nat.leb_le; vm_compute; reflexivity).
  assert (Lc : (List.length
                  (filter (fun c => String.eqb (c_user_id c) (u_id demo_user))
                     (categories demo_db2)) <= N.to_nat 1000)%nat)
    by (apply Nat.leb_le; vm_compute; reflexivity).
  destruct (proj1 (proj2
    (breakdown_category_names (Some 1%N) (Some 2024%N) demo_user demo_now
       demo_db2 Lt Lc)) e I) as [_ [_ [_ [_ H]]]].
  apply (H (mk_Category "c2" "u1" "Antiga" false)).
  - repeat constructor; simpl; intuition discriminate.
  - right. left. reflexivity.
  - reflexivity.
  - exact E.
Defined.

(** C7 as stated fails for a soft-deleted category: the expense under the
    soft-deleted category "c2" is reported under "c2" with the stored
    name "Antiga", and the bucket without category holds only the
    expense that has none. *)
Lemma soft_deleted_category_keeps_its_name :
  In (mk_Category "c2" "u1" "Antiga" false) (categories demo_db2) /\
  (exists t, In t (expense_window (Some 1%N) (Some 2024%N) demo_user demo_now
                     demo_db2) /\
             t_category_id t = Some "c2") /\
  (exists e, In e (expenses demo_breakdown) /\
             ce_category_id e = Some "c2" /\
             ce_category_name e = "Antiga" /\
             ce_category_name e <> "Sem categoria") /\
  (forall e, In e (expenses demo_breakdown) ->
             ce_category_name e = "Sem categoria" ->
             ce_category_id e <> Some "c2") /\
  (forall e, In e (expenses demo_breakdown) -> ce_category_id e = None ->
             ce_transaction_count e = 1%nat /\ ce_total_amount e = 20).
Proof.
  split; [right; left; reflexivity|].
  split.
  { eexists. split; [right; right; left; reflexivity | reflexivity]. }
  split.
  { eexists. split; [right; right; left; reflexivity|].
    repeat split. discriminate. }
  split.
  - intros e I. vm_compute in I.
    destruct I as [<-|[<-|[<-|[<-|[]]]]]; simpl; intros H; discriminate.
  - intros e I. vm_compute in I.
    destruct I as [<-|[<-|[<-|[<-|[]]]]]; simpl; intros H;
      try discriminate; split; reflexivity.
Qed.

(** ** Byte order of ISO-8601 strings *)

Lemma compare_app (a b s t : string) :
  String.length a = String.length b ->
  String.compare (a ++ s) (b ++ t)
  = match String.compare a b with
    | Eq => String.compare s t
    | c => c
    end.
Proof.
  revert b. induction a as [|c a IH]; intros [|c' b] L; simpl in *;
    try discriminate; [reflexivity|].
  destruct (Ascii.compare c c'); try reflexivity.
  apply IH. now injection L.
Qed.

Lemma compare_digit (a b : N) :
  Ascii.compare (digit a) (digit b) = N.compare (a mod 10) (b mod 10).
Proof.
  unfold Ascii.compare, digit.
  assert (A : (a mod 10 < 10)%N) by (apply N.mod_lt; discriminate).
  assert (B : (b mod 10 < 10)%N) by (apply N.mod_lt; discriminate).
  rewrite !N_ascii_embedding by lia.
  destruct (N.compare_spec (a mod 10) (b mod 10)) as [E|L|L].
  - rewrite E. apply N.compare_refl.
  - apply N.compare_lt_iff. lia.
  - apply N.compare_gt_iff. lia.
Qed.

(** Comparing two numbers is comparing their tens, then their units. *)
Lemma compare_decimal (x y : N) :
  N.compare x y
  = match N.compare (x / 10) (y / 10) with
    | Eq => N.compare (x mod 10) (y mod 10)
    | c => c
    end.
Proof.
  pose proof (N.div_mod x 10 ltac:(discriminate)) as Ex.
  pose proof (N.div_mod y 10 ltac:(discriminate)) as Ey.
  pose proof (N.mod_lt x 10 ltac:(discriminate)) as Lx.
  pose proof (N.mod_lt y 10 ltac:(discriminate)) as Ly.
  revert Ex Ey Lx Ly.
  generalize (x / 10)%N (x mod 10)%N (y / 10)%N (y mod 10)%N.
  intros qx rx qy ry Ex Ey Lx Ly.
  destruct (N.compare_spec qx qy) as [E|L|L].
  - destruct (N.compare_spec rx ry) as [E'|L'|L'].
    + apply N.compare_eq_iff. lia.
    + apply N.compare_lt_iff. lia.
    + apply N.compare_gt_iff. lia.
  - apply N.compare_lt_iff. lia.
  - apply N.compare_gt_iff. lia.
Qed.

Lemma compare_pad2 (a b : N) :
  (a < 100)%N -> (b < 100)%N ->
  String.compare (pad2 a) (pad2 b) = N.compare a b.
Proof.
  intros A B. unfold pad2. simpl. rewrite !compare_digit.
  rewrite (N.mod_small (a / 10)), (N.mod_small (b / 10))
    by (apply N.Div0.div_lt_upper_bound; lia).
  rewrite (compare_decimal a b).
  destruct (a / 10 ?= b / 10)%N; try reflexivity.
  now destruct (a mod 10 ?= b mod 10)%N.
Qed.

Lemma compare_pad4 (a b : N) :
  (a < 10000)%N -> (b < 10000)%N ->
  String.compare (pad4 a) (pad4 b) = N.compare a b.
Proof.
  intros A B. unfold pad4, pad2. simpl. rewrite !compare_digit.
  rewrite (N.mod_small (a / 1000)), (N.mod_small (b / 1000))
    by (apply N.Div0.div_lt_upper_bound; lia).
  rewrite (compare_decimal a b).
  rewrite (compare_decimal (a / 10) (b / 10)).
  rewrite (compare_decimal (a / 10 / 10) (b / 10 / 10)).
  rewrite !N.Div0.div_div. change (10 * 10)%N with 100%N.
  change (10 * 100)%N with 1000%N.
  destruct (a / 1000 ?= b / 1000)%N; try reflexivity.
  destruct ((a / 100) mod 10 ?= (b / 100) mod 10)%N; try reflexivity.
  destruct ((a / 10) mod 10 ?= (b / 10) mod 10)%N; try reflexivity.
  now destruct (a mod 10 ?= b mod 10)%N.
Qed.

Lemma valid_datetime_bounds (d : datetime) :
  valid_datetime d = true ->
  (1 <= year d <= 9999)%N /\ (1 <= month d <= 12)%N /\ (1 <= day d)%N /\
  (hour d < 24)%N /\ (minute d < 60)%N /\ (second d < 60)%N /\
  (microsecond d < 1000000)%N /\
  (Z.of_N (day d) <= days_in_month (Z.of_N (year d)) (Z.of_N (month d)))%Z.
Proof.
  unfold valid_datetime. rewrite !andb_true_iff.
  rewrite !N.leb_le, !N.ltb_lt, Z.leb_le. tauto.
Qed.

Lemma days_in_month_le (y m : Z) : (28 <= days_in_month y m <= 31)%Z.
Proof.
  unfold days_in_month.
  destruct (m =? 2)%Z; [destruct (is_leap y); lia|].
  destruct ((m =? 4) || (m =? 6) || (m =? 9) || (m =? 11))%Z; lia.
Qed.

Lemma is_utc_offset (d : datetime) :
  is_utc d = true -> utcoffset d = Some 0%Z.
Proof.
  unfold is_utc. destruct (utcoffset d) as [[| |]|]; try discriminate.
  reflexivity.
Qed.

(** The order of the ISO string of a UTC datetime against the ISO string
    of the first instant of a month *)
Lemma compare_isoformat_first (d : datetime) (y m : N) :
  valid_datetime d = true -> is_utc d = true ->
  (y < 10000)%N -> (m < 100)%N ->
  String.compare (isoformat d) (isoformat (first_of_month y m))
  = match N.compare (year d) y with
    | Eq =>
        match N.compare (month d) m with
        | Eq =>
            if ((day d =? 1) && (hour d =? 0) && (minute d =? 0)
                && (second d =? 0) && (microsecond d =? 0))%N
            then Eq else Gt
        | c => c
        end
    | c => c
    end.
Proof.
  intros V U Hy Hm.
  destruct (valid_datetime_bounds d V)
    as [By [Bm [Bd [Bh [Bmi [Bs [Bus Bdim]]]]]]].
  pose proof (days_in_month_le (Z.of_N (year d)) (Z.of_N (month d))) as Dim.
  apply is_utc_offset in U.
  unfold isoformat, first_of_month. rewrite U.
  cbn [year month day hour minute second microsecond utcoffset].
  change (format_offset (Some 0%Z)) with "+00:00".
  change (if (0 =? 0)%N then "" else "." ++ pad6 0) with "".
  rewrite compare_app by reflexivity.
  rewrite compare_pad4 by lia.
  destruct (year d ?= y)%N; try reflexivity.
  rewrite (compare_app "-" "-") by reflexivity. cbn [String.compare].
  change (Ascii.compare "-" "-") with Eq. cbv iota.
  rewrite compare_app by reflexivity.
  rewrite compare_pad2 by lia.
  destruct (month d ?= m)%N; try reflexivity.
  rewrite (compare_app "-" "-") by reflexivity. cbn [String.compare].
  change (Ascii.compare "-" "-") with Eq. cbv iota.
  rewrite compare_app by reflexivity.
  rewrite compare_pad2 by lia.
  destruct (N.eqb_spec (day d) 1) as [E|N];
    [rewrite E; cbn [N.compare Pos.compare Pos.compare_cont andb]
    |replace (day d ?= 1)%N with Gt by (symmetry; apply N.compare_gt_iff; lia);
     reflexivity].
  rewrite (compare_app "T" "T") by reflexivity. cbn [String.compare].
  change (Ascii.compare "T" "T") with Eq. cbv iota.
  rewrite compare_app by reflexivity.
  rewrite compare_pad2 by lia.
  destruct (N.eqb_spec (hour d) 0) as [E0|N0];
    [rewrite E0; cbn [N.compare andb]
    |replace (hour d ?= 0)%N with Gt by (symmetry; apply N.compare_gt_iff; lia);
     reflexivity].
  rewrite (compare_app ":" ":") by reflexivity. cbn [String.compare].
  change (Ascii.compare ":" ":") with Eq. cbv iota.
  rewrite compare_app by reflexivity.
  rewrite compare_pad2 by lia.
  destruct (N.eqb_spec (minute d) 0) as [E1|N1];
    [rewrite E1; cbn [N.compare andb]
    |replace (minute d ?= 0)%N with Gt
       by (symmetry; apply N.compare_gt_iff; lia);
     reflexivity].
  rewrite (compare_app ":" ":") by reflexivity. cbn [String.compare].
  change (Ascii.compare ":" ":") with Eq. cbv iota.
  rewrite compare_app by reflexivity.
  rewrite compare_pad2 by lia.
  destruct (N.eqb_spec (second d) 0) as [E2|N2];
    [rewrite E2; cbn [N.compare andb]
    |replace (second d ?= 0)%N with Gt
       by (symmetry; apply N.compare_gt_iff; lia);
     reflexivity].
  destruct (microsecond d =? 0)%N; reflexivity.
Qed.

Lemma in_range_utc (d : datetime) (y m : N) :
  valid_datetime d = true -> is_utc d = true -> valid_target y m = true ->
  in_range (isoformat (start_date y m)) (isoformat (end_date y m))
    (isoformat d)
  = ((year d =? y) && (month d =? m))%N.
Proof.
  intros V U T.
  unfold valid_target in T. rewrite !andb_true_iff, !N.leb_le in T.
  destruct T as [[[Y1 Y2] M1] M2].
  destruct (valid_datetime_bounds d V) as [By [Bm _]].
  unfold in_range, String.leb, String.ltb, start_date, end_date.
  rewrite (String.compare_antisym (isoformat (first_of_month y m))
             (isoformat d)).
  rewrite (compare_isoformat_first d y m V U) by lia.
  destruct (N.eqb_spec m 12) as [E12|N12].
  - rewrite (compare_isoformat_first d (y + 1) 1 V U) by lia.
    destruct (N.compare_spec (year d) y) as [Ey|Ly|Ly];
      destruct (N.compare_spec (month d) m) as [Em|Lm|Lm];
      destruct (N.compare_spec (year d) (y + 1)) as [Ey'|Ly'|Ly'];
      destruct (N.compare_spec (month d) 1) as [Em'|Lm'|Lm'];
      destruct (N.eqb_spec (year d) y); destruct (N.eqb_spec (month d) m);
      try lia;
      destruct ((day d =? 1) && (hour d =? 0) && (minute d =? 0)
                && (second d =? 0) && (microsecond d =? 0))%N;
      reflexivity.
  - rewrite (compare_isoformat_first d y (m + 1) V U) by lia.
    destruct (N.compare_spec (year d) y) as [Ey|Ly|Ly];
      destruct (N.compare_spec (month d) m) as [Em|Lm|Lm];
      destruct (N.compare_spec (month d) (m + 1)) as [Em'|Lm'|Lm'];
      destruct (N.eqb_spec (year d) y); destruct (N.eqb_spec (month d) m);
      try lia;
      destruct ((day d =? 1) && (hour d =? 0) && (minute d =? 0)
                && (second d =? 0) && (microsecond d =? 0))%N;
      reflexivity.
Qed.

(** ** Ordinals and instants *)

Lemma year_length (y : Z) :
  (days_before_year (y + 1)
   = days_before_year y + 365 + (if is_leap y then 1 else 0))%Z.
Proof.
  unfold days_before_year, is_leap.
  replace (y + 1 - 1)%Z with y by lia.
  destruct (Z.eqb_spec (y mod 4) 0); destruct (Z.eqb_spec (y mod 100) 0);
    destruct (Z.eqb_spec (y mod 400) 0); cbn [andb orb negb];
    Z.to_euclidean_division_equations; lia.
Qed.

Lemma days_before_year_mono (y y' : Z) :
  (y <= y')%Z -> (days_before_year y <= days_before_year y')%Z.
Proof.
  intros L. unfold days_before_year.
  assert (H4 : ((y - 1) / 4 <= (y' - 1) / 4)%Z)
    by (apply Z.div_le_mono; lia).
  assert (H400 : ((y - 1) / 400 <= (y' - 1) / 400)%Z)
    by (apply Z.div_le_mono; lia).
  assert (E : forall x, (x / 100 = x / 4 / 25)%Z)
    by (intros x; rewrite Z.div_div by lia; reflexivity).
  rewrite (E (y - 1)%Z), (E (y' - 1)%Z).
  revert H4. generalize ((y - 1) / 4)%Z ((y' - 1) / 4)%Z. intros a a' H4.
  assert (a - a / 25 <= a' - a' / 25)%Z
    by (Z.to_euclidean_division_equations; lia).
  lia.
Qed.

Lemma month_cases (m : Z) :
  (1 <= m <= 12)%Z ->
  (m = 1 \/ m = 2 \/ m = 3 \/ m = 4 \/ m = 5 \/ m = 6 \/ m = 7 \/ m = 8 \/
   m = 9 \/ m = 10 \/ m = 11 \/ m = 12)%Z.
Proof. lia. Qed.

Lemma next_month_starts (y m : Z) :
  (1 <= m < 12)%Z ->
  (days_before_month y m + days_in_month y m = days_before_month y (m + 1))%Z.
Proof.
  intros H. assert (H' : (1 <= m <= 12)%Z) by lia.
  apply month_cases in H'; repeat (destruct H' as [H'|H']); subst; try lia;
    unfold days_before_month, days_in_month; simpl;
    destruct (is_leap y); reflexivity.
Qed.

Lemma december_ends_year (y : Z) :
  (days_before_year y + days_before_month y 12 + days_in_month y 12
   = days_before_year (y + 1) + days_before_month (y + 1) 1)%Z.
Proof.
  rewrite year_length. unfold days_before_month, days_in_month. simpl.
  destruct (is_leap y); lia.
Qed.

Lemma month_fits_year (y m : Z) :
  (1 <= m <= 12)%Z ->
  (0 <= days_before_month y m /\
   days_before_month y m + days_in_month y m
   <= 365 + (if is_leap y then 1 else 0))%Z.
Proof.
  intros H. apply month_cases in H; repeat (destruct H as [H|H]); subst;
    unfold days_before_month, days_in_month; simpl;
    destruct (is_leap y); lia.
Qed.

Lemma months_in_order (y m m' : Z) :
  (1 <= m)%Z -> (m < m')%Z -> (m' <= 12)%Z ->
  (days_before_month y m + days_in_month y m <= days_before_month y m')%Z.
Proof.
  intros L1 L2 L3.
  assert (H : (1 <= m <= 12)%Z) by lia.
  assert (H' : (1 <= m' <= 12)%Z) by lia.
  apply month_cases in H; repeat (destruct H as [H|H]); subst;
    apply month_cases in H'; repeat (destruct H' as [H'|H']); subst; try lia;
    unfold days_before_month, days_in_month; simpl;
    destruct (is_leap y); lia.
Qed.

(** A month ends before any later month starts. *)
Lemma month_precedes (y m y' m' : Z) :
  (1 <= m <= 12)%Z -> (1 <= m' <= 12)%Z ->
  (y < y' \/ (y = y' /\ m < m'))%Z ->
  (days_before_year y + days_before_month y m + days_in_month y m
   <= days_before_year y' + days_before_month y' m')%Z.
Proof.
  intros M M' [L|[-> L]].
  - pose proof (month_fits_year y m M) as [_ F].
    pose proof (month_fits_year y' m' M') as [P _].
    pose proof (year_length y) as Y.
    pose proof (days_before_year_mono (y + 1) y' ltac:(lia)) as Mo.
    lia.
  - pose proof (months_in_order y' m m' ltac:(lia) L ltac:(lia)). lia.
Qed.

Lemma instant_utc (d : datetime) :
  valid_datetime d = true -> is_utc d = true ->
  (toordinal d * microseconds_per_day <= instant d
   < (toordinal d + 1) * microseconds_per_day)%Z.
Proof.
  intros V U.
  destruct (valid_datetime_bounds d V) as [_ [_ [_ [Bh [Bmi [Bs [Bus _]]]]]]].
  apply is_utc_offset in U.
  unfold instant, microseconds_per_day. rewrite U. lia.
Qed.

Lemma instant_first_of_month (y m : N) :
  instant (first_of_month y m)
  = ((days_before_year (Z.of_N y) + days_before_month (Z.of_N y) (Z.of_N m)
      + 1) * microseconds_per_day)%Z.
Proof.
  unfold instant, toordinal, first_of_month, microseconds_per_day.
  cbn [year month day hour minute second microsecond utcoffset].
  change (Z.of_N 1) with 1%Z. change (Z.of_N 0) with 0%Z. lia.
Qed.

(** For a UTC datetime, lying in the interval of a month is having its
    year and its month. *)
Lemma in_month_utc (d : datetime) (y m : N) :
  valid_datetime d = true -> is_utc d = true -> valid_target y m = true ->
  in_month y m d <-> year d = y /\ month d = m.
Proof.
  intros V U T.
  unfold valid_target in T. rewrite !andb_true_iff, !N.leb_le in T.
  destruct T as [[[Y1 Y2] M1] M2].
  destruct (valid_datetime_bounds d V) as [By [Bm [Bd [_ [_ [_ [_ Bdim]]]]]]].
  pose proof (instant_utc d V U) as I.
  unfold in_month. rewrite instant_first_of_month.
  unfold toordinal in I. unfold microseconds_per_day in *.
  set (yd := Z.of_N (year d)) in *. set (md := Z.of_N (month d)) in *.
  set (yt := Z.of_N y) in *. set (mt := Z.of_N m) in *.
  assert (Hmd : (1 <= md <= 12)%Z) by (unfold md; lia).
  assert (Hmt : (1 <= mt <= 12)%Z) by (unfold mt; lia).
  assert (C : ((yd < yt \/ (yd = yt /\ md < mt)) \/
               (yd = yt /\ md = mt) \/
               (yt < yd \/ (yt = yd /\ mt < md)))%Z) by lia.
  destruct C as [C|[[Cy Cm]|C]].
  - pose proof (month_precedes yd md yt mt Hmd Hmt C) as P.
    split; [intros [L _]; exfalso; lia|].
    intros [Ey Em]. exfalso. unfold yd, md, yt, mt in C. lia.
  - split; [intros _; unfold yd, md, yt, mt in *; lia|].
    intros _. rewrite <- Cy, <- Cm. lia.
  - pose proof (month_precedes yt mt yd md Hmt Hmd C) as P.
    split; [intros [_ L]; exfalso; lia|].
    intros [Ey Em]. exfalso. unfold yd, md, yt, mt in C. lia.
Qed.

(** The byte-order window of the queries is the month, for UTC dates. *)
Lemma in_range_is_in_month (d : datetime) (y m : N) :
  valid_datetime d = true -> is_utc d = true -> valid_target y m = true ->
  in_range (isoformat (start_date y m)) (isoformat (end_date y m))
    (isoformat d) = true
  <-> in_month y m d.
Proof.
  intros V U T. rewrite (in_range_utc d y m V U T).
  rewrite (in_month_utc d y m V U T).
  rewrite andb_true_iff, !N.eqb_eq. reflexivity.
Qed.

Lemma end_date_valid (y m : N) :
  valid_target y m = true ->
  valid_datetime (end_date y m) = true /\ is_utc (end_date y m) = true /\
  (instant (end_date y m)
   = instant (first_of_month y m)
     + days_in_month (Z.of_N y) (Z.of_N m) * microseconds_per_day)%Z.
Proof.
  intros T. unfold valid_target in T.
  rewrite !andb_true_iff, !N.leb_le in T. destruct T as [[[Y1 Y2] M1] M2].
  unfold end_date. destruct (N.eqb_spec m 12) as [->|N12].
  - split; [|split; [reflexivity|]].
    + unfold valid_datetime, first_of_month.
      cbn [year month day hour minute second microsecond].
      rewrite !andb_true_iff, !N.leb_le, !N.ltb_lt, Z.leb_le.
      pose proof (days_in_month_le (Z.of_N (y + 1)) (Z.of_N 1)). lia.
    + rewrite !instant_first_of_month.
      pose proof (december_ends_year (Z.of_N y)) as D.
      replace (Z.of_N (y + 1)) with (Z.of_N y + 1)%Z by lia.
      change (Z.of_N 12) with 12%Z. change (Z.of_N 1) with 1%Z. lia.
  - split; [|split; [reflexivity|]].
    + unfold valid_datetime, first_of_month.
      cbn [year month day hour minute second microsecond].
      rewrite !andb_true_iff, !N.leb_le, !N.ltb_lt, Z.leb_le.
      pose proof (days_in_month_le (Z.of_N y) (Z.of_N (m + 1))). lia.
    + rewrite !instant_first_of_month.
      pose proof (next_month_starts (Z.of_N y) (Z.of_N m) ltac:(lia)) as D.
      replace (Z.of_N (m + 1)) with (Z.of_N m + 1)%Z by lia. lia.
Qed.

Lemma start_date_valid (y m : N) :
  valid_target y m = true ->
  valid_datetime (start_date y m) = true /\ is_utc (start_date y m) = true.
Proof.
  intros T. unfold valid_target in T.
  rewrite !andb_true_iff, !N.leb_le in T. destruct T as [[[Y1 Y2] M1] M2].
  split; [|reflexivity].
  unfold valid_datetime, start_date, first_of_month.
  cbn [year month day hour minute second microsecond].
  rewrite !andb_true_iff, !N.leb_le, !N.ltb_lt, Z.leb_le.
  pose proof (days_in_month_le (Z.of_N y) (Z.of_N m)). lia.
Qed.

(** ** The monthly summary *)

Lemma get_financial_summary_unfold (month year : option N) (cu : User)
    (now : datetime) (db : DB) :
  let window := summary_window month year cu now db in
  let income :=
    sum (map t_amount
           (filter (fun t => TransactionType_eqb (t_type t) INCOME) window)) in
  let expense :=
    sum (map t_amount
           (filter (fun t => TransactionType_eqb (t_type t) EXPENSE) window)) in
  get_financial_summary month year cu now db
  = mk_FinancialSummary income expense (income - expense)
      (List.length window)
      (or_default month (month_of now))
      (or_default year (year_of now)).
Proof. reflexivity. Qed.

Lemma summary_query_spec (uid lo hi : string) (t : Transaction) :
  summary_query uid lo hi t = true <->
  t_user_id t = uid /\ t_is_active t = true /\
  in_range lo hi (t_transaction_date t) = true.
Proof.
  unfold summary_query. rewrite !andb_true_iff, String.eqb_eq. tauto.
Qed.

(** C5, as the code has it: the monthly summary reads the user's active
    transactions whose stored ISO date is, in byte order, at or after the
    ISO string of the first instant of the month and before that of the
    first instant of the next month: the first 10000 of them in store
    order, so all of them when there are no more.  For dates given in
    UTC this window is the half-open interval from the first instant of
    the month to the first instant of the next one, December running
    into January of the next year; its lower bound is in, its upper bound
    is out.  The summary holds the sum of the incomes and the sum of the
    expenses read, each a binary64 sum taken in store order, their
    binary64 difference, and the number of transactions read, transfers
    included; all of these are zero when no transaction matches. *)
Theorem monthly_summary_window :
  forall (month year : option N) (cu : User) (now : datetime) (db : DB),
    let s := get_financial_summary month year cu now db in
    let window := summary_window month year cu now db in
    let y := or_default year (year_of now) in
    let m := or_default month (month_of now) in
    let lo := isoformat (start_date y m) in
    let hi := isoformat (end_date y m) in
    let matching := find_many (summary_query (u_id cu) lo hi) (transactions db) in
    (window = firstn (N.to_nat 10000) matching /\
     (exists rest, matching = (window ++ rest)%list) /\
     (forall t, In t matching <->
        In t (transactions db) /\ t_user_id t = u_id cu /\
        t_is_active t = true /\
        String.leb lo (t_transaction_date t) = true /\
        String.ltb (t_transaction_date t) hi = true) /\
     (forall t, In t window -> In t matching)) /\
    ((List.length matching <= N.to_nat 10000)%nat ->
     window = matching /\
     forall t,
       In t window <->
       In t (transactions db) /\ t_user_id t = u_id cu /\
       t_is_active t = true /\ in_range lo hi (t_transaction_date t) = true) /\
    (valid_target y m = true ->
     (List.length matching <= N.to_nat 10000)%nat ->
     forall t d,
       t_transaction_date t = isoformat d ->
       valid_datetime d = true -> is_utc d = true ->
       (In t window <->
        In t (transactions db) /\ t_user_id t = u_id cu /\
        t_is_active t = true /\ in_month y m d)) /\
    (valid_target y m = true ->
     in_range lo hi lo = true /\ in_range lo hi hi = false /\
     in_month y m (start_date y m) /\ ~ in_month y m (end_date y m)) /\
    (total_income s
     = sum (map t_amount
              (filter (fun t => TransactionType_eqb (t_type t) INCOME) window)) /\
     total_expense s
     = sum (map t_amount
              (filter (fun t => TransactionType_eqb (t_type t) EXPENSE)
                 window)) /\
     net_balance s = total_income s - total_expense s /\
     transaction_count s = List.length window /\
     fs_month s = m /\ fs_year s = y) /\
    ((forall t, In t (transactions db) -> t_user_id t = u_id cu ->
        t_is_active t = true ->
        in_range lo hi (t_transaction_date t) = false) ->
     window = [] /\
     total_income s = 0 /\ total_expense s = 0 /\ net_balance s = 0 /\
     transaction_count s = 0%nat).
Proof.
  intros month year cu now db s window y m lo hi matching.
  assert (W : window = firstn (N.to_nat 10000) matching) by reflexivity.
  assert (M : forall t, In t matching <->
                In t (transactions db) /\ t_user_id t = u_id cu /\
                t_is_active t = true /\
                in_range lo hi (t_transaction_date t) = true).
  { intros t. unfold matching, find_many.
    rewrite filter_In, summary_query_spec. reflexivity. }
  split; [|split; [|split; [|split; [|split]]]].
  - split; [exact W|]. split; [|split].
    + exists (skipn (N.to_nat 10000) matching).
      rewrite W. symmetry. apply firstn_skipn.
    + intros t. rewrite M. unfold in_range. rewrite andb_true_iff. tauto.
    + intros t I. rewrite W in I. now apply In_firstn in I.
  - intros C.
    assert (W' : window = matching) by (rewrite W; now apply firstn_all2).
    split; [exact W'|]. intros t. rewrite W'. apply M.
  - intros T C t d E V U.
    assert (W' : window = matching).
    { rewrite W. now apply firstn_all2. }
    rewrite W', M, E.
    unfold lo, hi. rewrite (in_range_is_in_month d y m V U T). tauto.
  - intros T.
    destruct (start_date_valid y m T) as [Vs Us].
    destruct (end_date_valid y m T) as [Ve [Ue Ie]].
    assert (Is : in_month y m (start_date y m)).
    { unfold in_month, start_date.
      pose proof (days_in_month_le (Z.of_N y) (Z.of_N m)).
      unfold microseconds_per_day. lia. }
    assert (Ne : ~ in_month y m (end_date y m)).
    { unfold in_month. rewrite Ie. lia. }
    split; [|split; [|split]]; try assumption.
    + apply (in_range_is_in_month (start_date y m) y m Vs Us T). exact Is.
    + destruct (in_range lo hi hi) eqn:R; [|reflexivity].
      exfalso. apply Ne.
      apply (in_range_is_in_month (end_date y m) y m Ve Ue T). exact R.
  - unfold s. rewrite get_financial_summary_unfold. fold window.
    cbn [total_income total_expense net_balance transaction_count fs_month
         fs_year].
    repeat split; reflexivity.
  - intros H.
    assert (E : window = []).
    { rewrite W. unfold matching, find_many.
      rewrite filter_none; [now rewrite firstn_nil|].
      intros t I. destruct (summary_query _ _ _ t) eqn:Q; [|reflexivity].
      apply summary_query_spec in Q. destruct Q as [U [A R]].
      rewrite (H t I U A) in R. discriminate R. }
    split; [exact E|].
    unfold s. rewrite get_financial_summary_unfold. fold window.
    rewrite E. repeat split; reflexivity.
Qed.

(** The summary never counts more than the 10000 documents that
    [to_list(10000)] fetches, however many match. *)
Lemma monthly_summary_reads_at_most_10000 (month year : option N) (cu : User)
    (now : datetime) (db : DB) :
  let s := get_financial_summary month year cu now db in
  let matching :=
    find_many
      (summary_query (u_id cu) (fst (date_range month year now))
         (snd (date_range month year now)))
      (transactions db) in
  (transaction_count s <= N.to_nat 10000)%nat /\
  ((N.to_nat 10000 < List.length matching)%nat ->
   (transaction_count s < List.length matching)%nat).
Proof.
  intros s matching. unfold s. rewrite get_financial_summary_unfold.
  cbn [transaction_count]. unfold summary_window, to_list. fold matching.
  rewrite length_firstn. lia.
Qed.

Lemma monthly_summary_window_witness :
  in_range "2024-01-01T00:00:00+00:00" "2024-02-01T00:00:00+00:00"
    "2024-01-01T00:00:00+00:00" = true /\
  in_range "2024-01-01T00:00:00+00:00" "2024-02-01T00:00:00+00:00"
    "2024-02-01T00:00:00+00:00" = false /\
  in_month 2024 1 (start_date 2024 1) /\ ~ in_month 2024 1 (end_date 2024 1).
Proof.
  exact (proj1 (proj2 (proj2 (proj2
    (monthly_summary_window (Some 1%N) (Some 2024%N) demo_user demo_now
       demo_db2)))) eq_refl).
Defined.

(** C5 as stated fails for a date with an offset: a transaction dated
    23:00 on 31 January at UTC-03:00 is an instant of February, outside
    the interval of January, yet the summary of January counts it and the
    summary of February does not. *)
Lemma offset_date_in_the_wrong_month :
  let january :=
    get_financial_summary (Some 1%N) (Some 2024%N) demo_user demo_now demo_db3 in
  let february :=
    get_financial_summary (Some 2%N) (Some 2024%N) demo_user demo_now demo_db3 in
  map t_transaction_date (transactions demo_db3) = [isoformat demo_late] /\
  valid_datetime demo_late = true /\
  ~ in_month 2024 1 demo_late /\
  in_month 2024 2 demo_late /\
  transaction_count january = 1%nat /\ total_expense january = 50 /\
  transaction_count february = 0%nat /\ total_expense february = 0.
Proof.
  cbv zeta. split; [reflexivity|]. split; [reflexivity|]. split; [|split].
  - unfold in_month. vm_compute. intros [_ H]. discriminate H.
  - unfold in_month. vm_compute. split; [discriminate | reflexivity].
  - repeat split; reflexivity.
Qed.

(** * Properties of the routes beyond the claims *)

(** ** What a request does to the collections *)

Lemma Forall_update_one {Doc : Type} (P : Doc -> Prop) (query : Doc -> bool)
    (upd : Doc -> Doc) (coll : list Doc) :
  (forall d, P d -> P (upd d)) ->
  Forall P coll -> Forall P (update_one query upd coll).
Proof.
  intros K F. induction F as [|d rest Pd F IH]; simpl; [constructor|].
  destruct (query d); constructor; auto.
Qed.

Lemma map_update_one {Doc B : Type} (view : Doc -> B) (query : Doc -> bool)
    (upd : Doc -> Doc) (coll : list Doc) :
  (forall d, view (upd d) = view d) ->
  map view (update_one query upd coll) = map view coll.
Proof.
  intros K. induction coll as [|d rest IH]; simpl; [reflexivity|].
  destruct (query d); simpl; [now rewrite K | now rewrite IH].
Qed.

Lemma filter_update_one_other {Doc : Type} (p query : Doc -> bool)
    (upd : Doc -> Doc) (coll : list Doc) :
  (forall d, query d = true -> p d = false) ->
  (forall d, p (upd d) = p d) ->
  filter p (update_one query upd coll) = filter p coll.
Proof.
  intros Q K. induction coll as [|d rest IH]; simpl; [reflexivity|].
  destruct (query d) eqn:E; simpl.
  - now rewrite K, (Q d E).
  - now rewrite IH.
Qed.

Lemma update_transaction_transactions (tid : string) (data : TransactionUpdate)
    (cu : User) (db : DB) :
  transactions (fst (update_transaction tid data cu db)) = transactions db \/
  transactions (fst (update_transaction tid data cu db))
  = update_one (id_query tid) (apply_update_data data) (transactions db).
Proof.
  destruct (find_one (transaction_query tid (u_id cu)) (transactions db))
    as [t|] eqn:F.
  - right. rewrite (update_transaction_found tid data cu db t F). cbn [fst].
    now rewrite (proj1 (when_inc_keeps _ (u_id cu) _)).
  - left. now rewrite (update_transaction_missing tid data cu db F).
Qed.

Lemma delete_transaction_transactions (tid : string) (cu : User) (db : DB) :
  transactions (fst (delete_transaction tid cu db)) = transactions db \/
  transactions (fst (delete_transaction tid cu db))
  = update_one (id_query tid) set_inactive (transactions db).
Proof.
  destruct (find_one (transaction_query tid (u_id cu)) (transactions db))
    as [t|] eqn:F.
  - right. rewrite (delete_transaction_found tid cu db t F). cbn [fst].
    now rewrite (proj1 (when_inc_keeps _ (u_id cu) _)).
  - left. now rewrite (delete_transaction_missing tid cu db F).
Qed.

(** The transactions after a request: unchanged, or one more at the end,
    or the first document with the id rewritten. *)
Lemma serve_transactions (cu : User) (r : Request) (db : DB) :
  transactions (serve cu r db) = transactions db \/
  (exists body uuid4 now t,
     r = Create body uuid4 now /\ validate_create body = true /\
     transactions (serve cu r db) = insert_one t (transactions db) /\
     t_id t = uuid4 /\ t_user_id t = u_id cu /\
     t_amount t = tc_amount body /\ t_is_active t = true) \/
  (exists tid body,
     r = Update tid body /\ validate_update body = true /\
     transactions (serve cu r db)
     = update_one (id_query tid) (apply_update_data body) (transactions db)) \/
  (exists tid,
     r = Delete tid /\
     transactions (serve cu r db)
     = update_one (id_query tid) set_inactive (transactions db)).
Proof.
  destruct r as [body uuid4 now|tid body|tid]; simpl.
  - unfold post_transactions. destruct (validate_create body) eqn:V;
      [|now left].
    destruct (create_transaction body cu uuid4 now db) as [db' [e|t]] eqn:C.
    + left. rewrite create_transaction_checked in C.
      destruct (truthy _ && _); [|discriminate]. now injection C as <- _.
    + right. left. exists body, uuid4, now, t.
      destruct (create_transaction_success _ _ _ _ _ _ _ C)
        as [Ei [Eu [Ea [Eam [_ [Etx _]]]]]].
      cbn [fst]. repeat split; auto.
  - unfold put_transactions. destruct (validate_update body) eqn:V;
      [|now left].
    destruct (update_transaction_transactions tid body cu db) as [E|E];
      [now left|].
    right. right. left. exists tid, body. auto.
  - destruct (delete_transaction_transactions tid cu db) as [E|E];
      [now left|].
    right. right. right. exists tid. auto.
Qed.

Lemma validate_update_amount (body : TransactionUpdate) (a : float) :
  validate_update body = true -> tu_amount body = Some a -> (0 <? a) = true.
Proof.
  unfold validate_update. intros V E. rewrite E in V.
  apply andb_prop in V. now destruct V as [V _].
Qed.

Lemma validate_create_amount (body : TransactionCreate) :
  validate_create body = true -> (0 <? tc_amount body) = true.
Proof.
  unfold validate_create. intros V.
  apply andb_prop in V. now destruct V as [V _].
Qed.

Lemma serve_keeps_amounts_positive (cu : User) (r : Request) (db : DB) :
  amounts_positive db -> amounts_positive (serve cu r db).
Proof.
  unfold amounts_positive. intros P.
  destruct (serve_transactions cu r db)
    as [E|[[body [uuid4 [now [t [_ [V [E [_ [_ [Ea _]]]]]]]]]]
          |[[tid [body [_ [V E]]]]|[tid [_ E]]]]]; rewrite E.
  - exact P.
  - unfold insert_one. apply Forall_app. split; [exact P|].
    constructor; [|constructor]. rewrite Ea. now apply validate_create_amount.
  - apply Forall_update_one; [|exact P].
    intros d Pd. unfold apply_update_data. simpl.
    destruct (tu_amount body) as [a|] eqn:A; [|exact Pd].
    now apply (validate_update_amount body).
  - apply Forall_update_one; [|exact P]. intros d Pd. exact Pd.
Qed.

(** X1: the validated routes keep every stored amount strictly positive:
    if all amounts in the store are positive, they are so after any
    sequence of create, update and delete requests (the sign of a
    transaction is carried by its type, never by its amount). *)
Theorem amounts_stay_positive :
  forall (cu : User) (rs : list Request) (db : DB),
    amounts_positive db -> amounts_positive (serve_all cu rs db).
Proof.
  intros cu rs. induction rs as [|r rest IH]; intros db P; [exact P|].
  simpl. apply IH. now apply serve_keeps_amounts_positive.
Qed.

Lemma amounts_stay_positive_witness :
  amounts_positive (serve_all demo_user demo_requests demo_db1).
Proof.
  apply (amounts_stay_positive demo_user demo_requests demo_db1).
  repeat constructor.
Defined.

Lemma serve_keeps_identities (cu : User) (r : Request) (db : DB) :
  exists added,
    map transaction_identity (transactions (serve cu r db))
    = (map transaction_identity (transactions db) ++ added)%list.
Proof.
  destruct (serve_transactions cu r db)
    as [E|[[body [uuid4 [now [t [_ [_ [E _]]]]]]]
          |[[tid [body [_ [_ E]]]]|[tid [_ E]]]]]; rewrite E.
  - exists []. now rewrite app_nil_r.
  - exists [transaction_identity t]. unfold insert_one. now rewrite map_app.
  - exists []. rewrite app_nil_r. now apply map_update_one.
  - exists []. rewrite app_nil_r. now apply map_update_one.
Qed.

(** X2: no request ever removes, moves or re-identifies a transaction
    document: after any sequence of requests the store holds the
    documents it held, in the same order and each with the same id, owner
    and creation time, followed by the ones created since. *)
Theorem transactions_are_never_removed :
  forall (cu : User) (rs : list Request) (db : DB),
    exists added,
      map transaction_identity (transactions (serve_all cu rs db))
      = (map transaction_identity (transactions db) ++ added)%list.
Proof.
  intros cu rs. induction rs as [|r rest IH]; intros db.
  - exists []. now rewrite app_nil_r.
  - simpl. destruct (IH (serve cu r db)) as [added E].
    destruct (serve_keeps_identities cu r db) as [added0 E0].
    exists (added0 ++ added)%list. now rewrite E, E0, app_assoc.
Qed.

(** ** Isolation between users *)

Lemma serve_users (cu : User) (r : Request) (db : DB) :
  users (serve cu r db) = users db \/
  exists delta,
    users (serve cu r db)
    = update_one (user_id_query (u_id cu)) (inc_total_balance delta) (users db).
Proof.
  destruct r as [body uuid4 now|tid body|tid]; simpl.
  - unfold post_transactions. destruct (validate_create body); [|now left].
    rewrite create_transaction_checked.
    destruct (truthy _ && _); [now left|]. right. eexists. reflexivity.
  - unfold put_transactions. destruct (validate_update body); [|now left].
    destruct (find_one (transaction_query tid (u_id cu)) (transactions db))
      as [t|] eqn:F.
    + rewrite (update_transaction_found tid body cu db t F). cbn [fst].
      destruct (negb (_ =? 0)); simpl; [|now left].
      right. eexists. reflexivity.
    + rewrite (update_transaction_missing tid body cu db F). now left.
  - destruct (find_one (transaction_query tid (u_id cu)) (transactions db))
      as [t|] eqn:F.
    + rewrite (delete_transaction_found tid cu db t F). cbn [fst].
      destruct (negb (_ =? 0)); simpl; [|now left].
      right. eexists. reflexivity.
    + rewrite (delete_transaction_missing tid cu db F). now left.
Qed.

Lemma find_user_other (uid other : string) (delta : float)
    (us : list User) :
  other <> uid ->
  find (user_id_query other)
    (update_one (user_id_query uid) (inc_total_balance delta) us)
  = find (user_id_query other) us.
Proof.
  intros N. induction us as [|u rest IH]; [reflexivity|].
  cbn [update_one]. destruct (user_id_query uid u) eqn:Q; cbn [find].
  - assert (O : user_id_query other u = false).
    { unfold user_id_query in *. apply String.eqb_eq in Q.
      destruct (String.eqb_spec (u_id u) other); [congruence|reflexivity]. }
    assert (O' : user_id_query other (inc_total_balance delta u) = false)
      by exact O.
    now rewrite O, O'.
  - destruct (user_id_query other u); [reflexivity | exact IH].
Qed.

Lemma serve_keeps_other_transactions (cu : User) (r : Request) (db : DB)
    (other : string) :
  NoDup (transaction_ids db) ->
  other <> u_id cu ->
  filter (owned other) (transactions (serve cu r db))
  = filter (owned other) (transactions db).
Proof.
  intros ND N.
  assert (O : forall d, transaction_query (t_id d) (u_id cu) d = true ->
                        owned other d = false).
  { intros d Q. unfold transaction_query in Q. unfold owned.
    apply andb_prop in Q. destruct Q as [Q _].
    apply andb_prop in Q. destruct Q as [_ Q].
    apply String.eqb_eq in Q. rewrite Q.
    destruct (String.eqb_spec (u_id cu) other); [congruence|reflexivity]. }
  destruct r as [body uuid4 now|tid body|tid]; simpl.
  - unfold post_transactions. destruct (validate_create body); [|reflexivity].
    destruct (create_transaction body cu uuid4 now db) as [db' [e|t]] eqn:C.
    + rewrite create_transaction_checked in C.
      destruct (truthy _ && _); [|discriminate]. now injection C as <- _.
    + destruct (create_transaction_success _ _ _ _ _ _ _ C)
        as [_ [Eu [_ [_ [_ [Etx _]]]]]].
      cbn [fst]. rewrite Etx. unfold insert_one. rewrite filter_app. simpl.
      unfold owned at 2. rewrite Eu.
      destruct (String.eqb_spec (u_id cu) other); [congruence|].
      now rewrite app_nil_r.
  - unfold put_transactions. destruct (validate_update body); [|reflexivity].
    destruct (find_one (transaction_query tid (u_id cu)) (transactions db))
      as [t|] eqn:F.
    + rewrite (update_transaction_found tid body cu db t F). cbn [fst].
      rewrite (proj1 (when_inc_keeps _ (u_id cu) _)). cbn [transactions].
      rewrite (update_one_by_id tid (u_id cu) _ _ t ND F).
      apply filter_update_one_other; [|reflexivity].
      intros d Q. apply O.
      assert (E : t_id d = tid).
      { unfold transaction_query in Q. apply andb_prop in Q.
        destruct Q as [Q _]. apply andb_prop in Q. destruct Q as [Q _].
        now apply String.eqb_eq in Q. }
      now rewrite E.
    + now rewrite (update_transaction_missing tid body cu db F).
  - destruct (find_one (transaction_query tid (u_id cu)) (transactions db))
      as [t|] eqn:F.
    + rewrite (delete_transaction_found tid cu db t F). cbn [fst].
      rewrite (proj1 (when_inc_keeps _ (u_id cu) _)). cbn [transactions].
      rewrite (update_one_by_id tid (u_id cu) _ _ t ND F).
      apply filter_update_one_other; [|reflexivity].
      intros d Q. apply O.
      assert (E : t_id d = tid).
      { unfold transaction_query in Q. apply andb_prop in Q.
        destruct Q as [Q _]. apply andb_prop in Q. destruct Q as [Q _].
        now apply String.eqb_eq in Q. }
      now rewrite E.
    + now rewrite (delete_transaction_missing tid cu db F).
Qed.

Lemma serve_keeps_other_balance (cu : User) (r : Request) (db : DB)
    (other : string) :
  other <> u_id cu ->
  total_balance (serve cu r db) other = total_balance db other.
Proof.
  intros N. unfold total_balance, find_one.
  destruct (serve_users cu r db) as [->|[delta ->]]; [reflexivity|].
  now rewrite find_user_other.
Qed.

(** X3: the requests of one user never touch another user: with unique
    transaction ids, after any sequence of requests by the caller every
    other user's [total_balance] and every other user's transaction
    documents are what they were. *)
Theorem requests_touch_only_the_caller :
  forall (cu : User) (rs : list Request) (db : DB) (other : string),
    NoDup (transaction_ids db ++ drawn_ids rs) ->
    other <> u_id cu ->
    total_balance (serve_all cu rs db) other = total_balance db other /\
    filter (owned other) (transactions (serve_all cu rs db))
    = filter (owned other) (transactions db).
Proof.
  intros cu rs. induction rs as [|r rest IH]; intros db other ND N;
    [split; reflexivity|].
  simpl.
  destruct (IH (serve cu r db) other (serve_keeps_ids_distinct cu r rest db ND) N)
    as [B T].
  rewrite B, T. split.
  - now apply serve_keeps_other_balance.
  - apply serve_keeps_other_transactions; [|exact N].
    now apply NoDup_app_remove_r in ND.
Qed.

Lemma requests_touch_only_the_caller_witness :
  let rs := [Update "t2" demo_raise; Delete "t2"; Update "t1" demo_raise;
             Create demo_expense "t9" demo_now] in
  total_balance (serve_all demo_user rs demo_db1) "u2"
  = total_balance demo_db1 "u2" /\
  filter (owned "u2") (transactions (serve_all demo_user rs demo_db1))
  = filter (owned "u2") (transactions demo_db1).
Proof.
  apply (requests_touch_only_the_caller demo_user
           [Update "t2" demo_raise; Delete "t2"; Update "t1" demo_raise;
            Create demo_expense "t9" demo_now] demo_db1 "u2").
  - repeat constructor; simpl; intuition discriminate.
  - discriminate.
Defined.

(** ** After a soft delete *)

Lemma delete_transaction_success (tid : string) (cu : User) (db db1 : DB) :
  delete_transaction tid cu db = (db1, inr tt) ->
  exists t,
    find_one (transaction_query tid (u_id cu)) (transactions db) = Some t /\
    transactions db1 = update_one (id_query tid) set_inactive (transactions db) /\
    categories db1 = categories db.
Proof.
  intros D.
  destruct (find_one (transaction_query tid (u_id cu)) (transactions db))
    as [t|] eqn:F.
  - exists t. split; [reflexivity|].
    rewrite (delete_transaction_found tid cu db t F) in D.
    injection D as <-.
    destruct (when_inc_keeps
                (mk_DB (users db) (categories db)
                   (update_one (id_query tid) set_inactive (transactions db)))
                (u_id cu) (reversal (t_amount t) (t_type t))) as [Tx [Cx _]].
    cbv zeta in Tx, Cx. now rewrite Tx, Cx.
  - rewrite (delete_transaction_missing tid cu db F) in D. discriminate.
Qed.

Lemma inactive_after_delete (tid uid : string) (txs : list Transaction)
    (t : Transaction) :
  NoDup (map t_id txs) ->
  find_one (transaction_query tid uid) txs = Some t ->
  forall t', In t' (update_one (id_query tid) set_inactive txs) ->
             t_id t' = tid -> t_is_active t' = false.
Proof.
  unfold find_one. induction txs as [|d rest IH]; [discriminate|].
  intros ND F t' I E. inversion ND as [|? ? Nin ND']; subst.
  cbn [update_one] in I. cbn [find] in F.
  unfold id_query at 1 in I.
  destruct (String.eqb_spec (t_id d) (t_id t')) as [Ei|Ni].
  - destruct I as [<-|I]; [reflexivity|].
    exfalso. apply Nin. rewrite Ei. now apply in_map.
  - destruct I as [<-|I]; [contradiction|].
    destruct (transaction_query (t_id t') uid d) eqn:Q.
    + unfold transaction_query in Q. apply andb_prop in Q.
      destruct Q as [Q _]. apply andb_prop in Q. destruct Q as [Q _].
      apply String.eqb_eq in Q. contradiction.
    + now apply (IH ND' F t').
Qed.

(** X4: a soft-deleted transaction is gone for every later request: with
    unique ids, after a successful delete a second delete and any update
    of the same id fail with [TransactionNotFound] and change nothing,
    and neither report reads the transaction any more, whatever the
    month. *)
Theorem deleted_transaction_is_gone :
  forall (tid : string) (cu : User) (db db1 : DB),
    NoDup (transaction_ids db) ->
    delete_transaction tid cu db = (db1, inr tt) ->
    delete_transaction tid cu db1 = (db1, inl TransactionNotFound) /\
    (forall data,
       update_transaction tid data cu db1 = (db1, inl TransactionNotFound)) /\
    (forall month year now,
       ~ In tid (map t_id (summary_window month year cu now db1)) /\
       ~ In tid (map t_id (expense_window month year cu now db1))).
Proof.
  intros tid cu db db1 ND D.
  destruct (delete_transaction_success tid cu db db1 D) as [t [F [Etx _]]].
  assert (G : forall t', In t' (transactions db1) -> t_id t' = tid ->
                         t_is_active t' = false).
  { rewrite Etx. now apply (inactive_after_delete tid (u_id cu) _ t). }
  assert (M : find_one (transaction_query tid (u_id cu)) (transactions db1)
              = None).
  { apply find_transaction_none. intros t' I E. right. now apply G. }
  split; [now apply delete_transaction_missing|].
  split; [intros data; now apply update_transaction_missing|].
  intros month year now. split; intros I;
    apply in_map_iff in I; destruct I as [t' [E I]];
    unfold summary_window, expense_window, to_list, find_many in I;
    apply In_firstn in I; apply filter_In in I; destruct I as [I Q].
  - apply summary_query_spec in Q. destruct Q as [_ [A _]].
    rewrite (G t' I E) in A. discriminate.
  - unfold expense_query in Q. rewrite !andb_true_iff in Q.
    destruct Q as [[[_ A] _] _]. rewrite (G t' I E) in A. discriminate.
Qed.

Lemma deleted_transaction_is_gone_witness :
  let db1 := fst (delete_transaction "t1" demo_user demo_db1) in
  delete_transaction "t1" demo_user db1 = (db1, inl TransactionNotFound) /\
  ~ In "t1" (map t_id (summary_window (Some 1%N) (Some 2024%N) demo_user
                         demo_now db1)).
Proof.
  cbv zeta.
  assert (ND : NoDup (transaction_ids demo_db1))
    by (repeat constructor; simpl; intuition discriminate).
  destruct (deleted_transaction_is_gone "t1" demo_user demo_db1
              (fst (delete_transaction "t1" demo_user demo_db1)) ND eq_refl)
    as [D [_ W]].
  split; [exact D|].
  exact (proj1 (W (Some 1%N) (Some 2024%N) demo_now)).
Defined.

(** ** Updates without fields *)

Lemma is_finite_effect (a : float) (ty : TransactionType) :
  is_finite a = true -> is_finite (effect a ty) = true.
Proof.
  intros F. destruct ty; simpl; [exact F | now rewrite is_finite_opp |].
  reflexivity.
Qed.

(** X5: an update whose body supplies no field writes nothing: for a
    transaction whose amount is finite it answers the transaction as
    stored and leaves the whole store, the balance included, as it
    was. *)
Theorem empty_update_changes_nothing :
  forall (tid : string) (data : TransactionUpdate) (cu : User) (db : DB)
         (t : Transaction),
    update_data_nonempty data = false ->
    find_one (transaction_query tid (u_id cu)) (transactions db) = Some t ->
    is_finite (t_amount t) = true ->
    update_transaction tid data cu db = (db, inr t).
Proof.
  intros tid data cu db t E F Fa.
  rewrite (update_transaction_found tid data cu db t F).
  rewrite (apply_update_data_empty data t E).
  rewrite (update_one_empty_data tid data (transactions db) E).
  rewrite (sub_diag _ (is_finite_effect _ (t_type t) Fa)).
  destruct db as [us cs ts]. reflexivity.
Qed.

Lemma empty_update_changes_nothing_witness :
  update_transaction "t1"
    (mk_TransactionUpdate None None None None None None) demo_user demo_db1
  = (demo_db1, inr demo_income_tx).
Proof.
  apply (empty_update_changes_nothing "t1"
           (mk_TransactionUpdate None None None None None None) demo_user
           demo_db1 demo_income_tx); reflexivity.
Defined.

(** The amount has to be finite: an income of infinity passes the
    validation, and an update of it without fields computes
    [infinity - infinity], which is NaN and not zero, and adds it to the
    balance. *)
Lemma empty_update_of_an_infinite_income :
  let db := serve_all demo_user [Create (income_of infinity) "i1" demo_now] new_db in
  let r :=
    update_transaction "i1" (mk_TransactionUpdate None None None None None None)
      demo_user db in
  validate_create (income_of infinity) = true /\
  map t_amount (transactions db) = [infinity] /\
  total_balance db "u1" = infinity /\
  is_nan (total_balance (fst r) "u1") = true.
Proof. cbv zeta. repeat split. Qed.

(** ** What a create answers *)

Lemma find_category_some (cid uid : string) (cats : list Category) :
  (exists c, In c cats /\ c_id c = cid /\ c_user_id c = uid /\
             c_is_active c = true) ->
  exists c, find_one (category_query cid uid) cats = Some c.
Proof.
  intros [c [I [Ei [Eu Ea]]]]. apply existsb_find. apply existsb_exists.
  exists c. split; [exact I|].
  unfold category_query. now rewrite Ei, Eu, Ea, !String.eqb_refl.
Qed.

(** X6: a create with no category, with an empty category id, or with
    the id of an active category of the caller always succeeds: it stores
    exactly one new document, active, owned by the caller, carrying the
    amount, type and category id of the body, and touches no category.
    [CategoryNotFound] is the only error a create can answer. *)
Theorem create_transaction_outcome :
  (forall (data : TransactionCreate) (cu : User) (uuid4 : string)
          (now : datetime) (db : DB),
      truthy (tc_category_id data) = false \/
      (exists cid c,
         tc_category_id data = Some cid /\ In c (categories db) /\
         c_id c = cid /\ c_user_id c = u_id cu /\ c_is_active c = true) ->
      exists t db',
        create_transaction data cu uuid4 now db = (db', inr t) /\
        transactions db' = (transactions db ++ [t])%list /\
        categories db' = categories db /\
        t_id t = uuid4 /\ t_user_id t = u_id cu /\ t_is_active t = true /\
        t_amount t = tc_amount data /\ t_type t = tc_type data /\
        t_category_id t = tc_category_id data) /\
  (forall (data : TransactionCreate) (cu : User) (uuid4 : string)
          (now : datetime) (db : DB) (e : HTTPException),
      snd (create_transaction data cu uuid4 now db) = inl e ->
      e = CategoryNotFound /\
      fst (create_transaction data cu uuid4 now db) = db).
Proof.
  split.
  - intros data cu uuid4 now db H.
    rewrite create_transaction_checked.
    assert (G : truthy (tc_category_id data) &&
                match find_one
                        (category_query
                           (match tc_category_id data with
                            | Some c => c
                            | None => ""
                            end) (u_id cu)) (categories db) with
                | None => true
                | Some _ => false
                end = false).
    { destruct H as [T|[cid [c [E H]]]]; [now rewrite T|].
      rewrite E. destruct (find_category_some cid (u_id cu) (categories db))
        as [c' ->]; [now exists c|]. apply andb_false_r. }
    rewrite G. eexists. eexists. split; [reflexivity|].
    repeat split; reflexivity.
  - intros data cu uuid4 now db e.
    rewrite create_transaction_checked.
    destruct (truthy _ && _); simpl; [|discriminate].
    intros [= <-]. split; reflexivity.
Qed.

Lemma create_transaction_outcome_witness :
  exists t db',
    create_transaction demo_expense demo_user "t9" demo_now demo_db1
    = (db', inr t) /\
    transactions db' = (transactions demo_db1 ++ [t])%list /\
    t_category_id t = Some "c1".
Proof.
  destruct (proj1 create_transaction_outcome demo_expense demo_user "t9"
              demo_now demo_db1) as [t [db' [C [T [_ [_ [_ [_ [_ [_ K]]]]]]]]]].
  - right. exists "c1", (mk_Category "c1" "u1" "Mercado" true).
    repeat split. left. reflexivity.
  - exists t, db'. repeat split; assumption.
Defined.

(** ** Category routes *)

Lemma update_category_missing (cid : string) (data : CategoryUpdate)
    (cu : User) (db : DB) :
  find_one (category_query cid (u_id cu)) (categories db) = None ->
  update_category cid data cu db = (db, inl NotFound_category).
Proof.
  intros F. unfold update_category, bind, categories_find_one. now rewrite F.
Qed.

Lemma update_category_found (cid : string) (data : CategoryUpdate)
    (cu : User) (db : DB) (c : Category) :
  find_one (category_query cid (u_id cu)) (categories db) = Some c ->
  update_category cid data cu db
  = match cup_name data with
    | Some n =>
        (mk_DB (users db)
           (update_one (category_id_query cid) (set_category_name n)
              (categories db))
           (transactions db),
         inr (set_category_name n c))
    | None => (db, inr c)
    end.
Proof.
  intros F. unfold update_category, bind, categories_find_one. rewrite F.
  destruct (cup_name data); reflexivity.
Qed.

Lemma delete_category_missing (cid : string) (cu : User) (db : DB) :
  find_one (category_query cid (u_id cu)) (categories db) = None ->
  delete_category cid cu db = (db, inl NotFound_category).
Proof. intros F. unfold delete_category. now rewrite F. Qed.

(** X7: an update or a soft delete that names a category id with no
    active category of the caller behind it (unknown, another user's, or
    already soft-deleted) fails with 404 "Category not found" and leaves
    the whole store as it was. *)
Theorem category_not_found_changes_nothing :
  forall (cid : string) (data : CategoryUpdate) (cu : User) (db : DB),
    (forall c, In c (categories db) -> c_id c = cid ->
               c_user_id c <> u_id cu \/ c_is_active c = false) ->
    update_category cid data cu db = (db, inl NotFound_category) /\
    delete_category cid cu db = (db, inl NotFound_category).
Proof.
  intros cid data cu db H.
  pose proof (find_category_none cid (u_id cu) (categories db) H) as F.
  split.
  - now apply update_category_missing.
  - now apply delete_category_missing.
Qed.

Lemma category_not_found_changes_nothing_witness :
  (update_category "c2" (mk_CategoryUpdate (Some "Nova")) demo_user demo_db1
   = (demo_db1, inl NotFound_category) /\
   delete_category "c2" demo_user demo_db1
   = (demo_db1, inl NotFound_category)) /\
  (update_category "c3" (mk_CategoryUpdate (Some "Nova")) demo_user demo_db1
   = (demo_db1, inl NotFound_category) /\
   delete_category "c3" demo_user demo_db1
   = (demo_db1, inl NotFound_category)).
Proof.
  split;
    apply (category_not_found_changes_nothing _
             (mk_CategoryUpdate (Some "Nova")) demo_user demo_db1);
    intros c [<-|[<-|[<-|[]]]] E; simpl in *;
    first [discriminate E | left; discriminate | right; reflexivity].
Defined.

Lemma inactive_after_delete_category (cid uid : string)
    (cats : list Category) :
  NoDup (map c_id cats) ->
  forall c', In c' (update_one (category_query cid uid) set_category_inactive
                      cats) ->
             c_id c' = cid ->
             c_user_id c' <> uid \/ c_is_active c' = false.
Proof.
  induction cats as [|d rest IH]; intros ND c' I E; [contradiction|].
  inversion ND as [|? ? Nin ND']; subst.
  cbn [update_one] in I.
  destruct (category_query (c_id c') uid d) eqn:Q.
  - destruct I as [<-|I]; [right; reflexivity|].
    exfalso. apply Nin.
    unfold category_query in Q. apply andb_prop in Q. destruct Q as [Q _].
    apply andb_prop in Q. destruct Q as [Q _]. apply String.eqb_eq in Q.
    rewrite Q. now apply in_map.
  - destruct I as [<-|I]; [|now apply (IH ND' c')].
    unfold category_query in Q. rewrite String.eqb_refl in Q. simpl in Q.
    destruct (String.eqb_spec (c_user_id d) uid) as [Eu|Nu]; [|now left].
    right. exact Q.
Qed.

(** X8: soft-deleting a category does not cascade and closes the
    category: with unique category ids, after a successful delete the
    users and the transactions are untouched (transactions keep their
    category id), every later create of a transaction under that id fails
    with [CategoryNotFound], and a second delete or an update of the
    category answers 404. *)
Theorem deleted_category_is_closed :
  forall (cid : string) (cu : User) (db db1 : DB),
    NoDup (map c_id (categories db)) ->
    cid <> "" ->
    delete_category cid cu db = (db1, inr tt) ->
    users db1 = users db /\ transactions db1 = transactions db /\
    (forall data uuid4 now,
       tc_category_id data = Some cid ->
       create_transaction data cu uuid4 now db1 = (db1, inl CategoryNotFound)) /\
    delete_category cid cu db1 = (db1, inl NotFound_category) /\
    (forall data,
       update_category cid data cu db1 = (db1, inl NotFound_category)).
Proof.
  intros cid cu db db1 ND NE D. unfold delete_category in D.
  destruct (find_one (category_query cid (u_id cu)) (categories db))
    as [c|] eqn:F; [|discriminate].
  injection D as <-. cbn [users transactions].
  split; [reflexivity|]. split; [reflexivity|].
  set (db1 := mk_DB (users db)
                (update_one (category_query cid (u_id cu))
                   set_category_inactive (categories db))
                (transactions db)).
  assert (G : forall c', In c' (categories db1) -> c_id c' = cid ->
                         c_user_id c' <> u_id cu \/ c_is_active c' = false).
  { intros c' I E. now apply (inactive_after_delete_category cid (u_id cu)
                                (categories db) ND). }
  split; [|split].
  - intros data uuid4 now E. rewrite create_transaction_checked, E.
    rewrite (find_category_none cid (u_id cu) (categories db1) G).
    destruct cid; [contradiction|reflexivity].
  - apply delete_category_missing. now apply find_category_none.
  - intros data. apply update_category_missing. now apply find_category_none.
Qed.

Lemma deleted_category_is_closed_witness :
  let db1 := fst (delete_category "c1" demo_user demo_db1) in
  transactions db1 = transactions demo_db1 /\
  create_transaction demo_expense demo_user "t9" demo_now db1
  = (db1, inl CategoryNotFound).
Proof.
  cbv zeta.
  assert (ND : NoDup (map c_id (categories demo_db1)))
    by (repeat constructor; simpl; intuition discriminate).
  assert (NE : "c1" <> "") by discriminate.
  destruct (deleted_category_is_closed "c1" demo_user demo_db1
              (fst (delete_category "c1" demo_user demo_db1)) ND NE eq_refl)
    as [_ [T [C _]]].
  split; [exact T|].
  exact (C demo_expense "t9" demo_now eq_refl).
Defined.

(** X9: a category is usable as soon as it is created: the create adds
    one active category of the caller and touches nothing else, and a
    create of a transaction that names the new id goes through, whatever
    the store held before. *)
Theorem created_category_is_accepted :
  forall (category_data : CategoryCreate) (cu : User) (uuid4 : string)
         (db : DB),
    let c := mk_Category uuid4 (u_id cu) (cc_name category_data) true in
    let db1 := fst (create_category category_data cu uuid4 db) in
    create_category category_data cu uuid4 db = (db1, inr c) /\
    categories db1 = (categories db ++ [c])%list /\
    users db1 = users db /\ transactions db1 = transactions db /\
    forall data tid now,
      tc_category_id data = Some uuid4 ->
      exists t db2,
        create_transaction data cu tid now db1 = (db2, inr t) /\
        t_category_id t = Some uuid4.
Proof.
  intros category_data cu uuid4 db c db1.
  split; [reflexivity|]. split; [reflexivity|].
  split; [reflexivity|]. split; [reflexivity|].
  intros data tid now E. rewrite create_transaction_checked, E.
  assert (F : exists c', find_one (category_query uuid4 (u_id cu))
                           (categories db1) = Some c').
  { apply find_category_some. exists c. unfold db1. simpl.
    unfold insert_one. split; [apply in_or_app; right; now left|].
    repeat split. }
  destruct F as [c' ->]. rewrite andb_false_r.
  eexists. eexists. split; [reflexivity|]. reflexivity.
Qed.

Lemma created_category_is_accepted_witness :
  exists t db2,
    create_transaction demo_expense demo_user "t9" demo_now
      (fst (create_category (mk_CategoryCreate "Mercado") demo_user "c1"
              (mk_DB [demo_user] [] [])))
    = (db2, inr t) /\
    t_category_id t = Some "c1".
Proof.
  exact (proj2 (proj2 (proj2 (proj2
    (created_category_is_accepted (mk_CategoryCreate "Mercado") demo_user "c1"
       (mk_DB [demo_user] [] [])))))
    demo_expense "t9" demo_now eq_refl).
Defined.

Lemma update_one_unique_id (cid : string) (upd : Category -> Category)
    (cats : list Category) :
  NoDup (map c_id cats) ->
  (forall c, c_id (upd c) = c_id c) ->
  update_one (category_id_query cid) upd cats
  = map (fun c => if String.eqb (c_id c) cid then upd c else c) cats.
Proof.
  intros ND K. induction cats as [|d rest IH]; [reflexivity|].
  inversion ND as [|? ? Nin ND']; subst.
  cbn [update_one map]. unfold category_id_query at 1.
  destruct (String.eqb_spec (c_id d) cid) as [E|N].
  - f_equal. symmetry. rewrite <- (map_id rest) at 2.
    apply map_ext_in. intros c I.
    destruct (String.eqb_spec (c_id c) cid) as [E'|_]; [|reflexivity].
    exfalso. apply Nin. rewrite E, <- E'. now apply in_map.
  - f_equal. now apply IH.
Qed.

(** X10: an update of a category renames exactly that category: with
    unique category ids, when the caller owns the active category and the
    body gives a name, the category with that id gets the name and keeps
    its id, owner and active flag, every other category, every user and
    every transaction is left as it was; with no name in the body no
    category changes its id, owner, name or active flag. *)
Theorem update_category_renames_one :
  forall (cid : string) (data : CategoryUpdate) (cu : User) (db : DB)
         (c : Category),
    NoDup (map c_id (categories db)) ->
    find_one (category_query cid (u_id cu)) (categories db) = Some c ->
    match cup_name data with
    | Some n =>
        let db1 := fst (update_category cid data cu db) in
        snd (update_category cid data cu db) = inr (set_category_name n c) /\
        categories db1
        = map (fun x => if String.eqb (c_id x) cid
                        then mk_Category (c_id x) (c_user_id x) n (c_is_active x)
                        else x)
            (categories db) /\
        users db1 = users db /\ transactions db1 = transactions db
    | None => update_category cid data cu db = (db, inr c)
    end.
Proof.
  intros cid data cu db c ND F.
  rewrite (update_category_found cid data cu db c F).
  destruct (cup_name data) as [n|]; [|reflexivity].
  cbn [fst snd categories users transactions].
  split; [reflexivity|]. split; [|split; reflexivity].
  now apply update_one_unique_id.
Qed.

Lemma update_category_renames_one_witness :
  categories
    (fst (update_category "c1" (mk_CategoryUpdate (Some "Feira")) demo_user
            demo_db1))
  = [mk_Category "c1" "u1" "Feira" true; mk_Category "c2" "u1" "Antiga" false;
     mk_Category "c3" "u2" "Alheia" true].
Proof.
  assert (ND : NoDup (map c_id (categories demo_db1)))
    by (repeat constructor; simpl; intuition discriminate).
  exact (proj1 (proj2
    (update_category_renames_one "c1" (mk_CategoryUpdate (Some "Feira"))
       demo_user demo_db1 (mk_Category "c1" "u1" "Mercado" true) ND eq_refl))).
Defined.

(** ** Paging *)

Lemma paginate_nth {Doc : Type} (page_size i : nat) (cursor : list Doc) :
  (1 <= page_size)%nat ->
  nth_error (paginate (i / page_size + 1) page_size cursor) (i mod page_size)
  = nth_error cursor i.
Proof.
  intros P. unfold paginate, to_list.
  assert (L : (i mod page_size < page_size)%nat)
    by (apply Nat.mod_upper_bound; lia).
  rewrite !nth_error_firstn.
  apply Nat.ltb_lt in L. rewrite L.
  rewrite nth_error_skipn. f_equal.
  replace (i / page_size + 1 - 1)%nat with (i / page_size)%nat by lia.
  rewrite (Nat.div_mod_eq i page_size) at 3. lia.
Qed.

Lemma paginate_bounds {Doc : Type} (page page_size : nat) (cursor : list Doc) :
  (List.length (paginate page page_size cursor) <= page_size)%nat /\
  forall d, In d (paginate page page_size cursor) -> In d cursor.
Proof.
  unfold paginate, to_list. split.
  - apply firstn_le_length.
  - intros d I. apply In_firstn in I. apply In_firstn in I.
    revert I. generalize ((page - 1) * page_size)%nat. intros n.
    revert cursor. induction n as [|n IH]; intros [|a l]; simpl; auto.
Qed.

(** X11: the category listing shows the caller's categories with the
    [is_active] value asked for (active ones when none is given), in
    store order, cut into pages without loss or repetition: the [i]-th
    such category is entry [i mod page_size] of page
    [i / page_size + 1], every page holds at most [page_size] entries, and
    nothing else is ever listed. *)
Theorem categories_listing_pages :
  forall (is_active : option bool) (page_size : nat) (cu : User) (db : DB),
    (1 <= page_size)%nat ->
    (forall i,
       nth_error (get_categories is_active (i / page_size + 1) page_size cu db)
         (i mod page_size)
       = nth_error
           (filter (fun c => String.eqb (c_user_id c) (u_id cu) &&
                             Bool.eqb (c_is_active c)
                               (match is_active with
                                | Some b => b
                                | None => true
                                end))
              (categories db)) i) /\
    (forall page,
       (List.length (get_categories is_active page page_size cu db)
        <= page_size)%nat /\
       forall c, In c (get_categories is_active page page_size cu db) ->
                 In c (categories db) /\ c_user_id c = u_id cu /\
                 c_is_active c
                 = match is_active with Some b => b | None => true end).
Proof.
  intros is_active page_size cu db P. split.
  - intros i. unfold get_categories. now apply paginate_nth.
  - intros page. unfold get_categories.
    destruct (paginate_bounds page page_size
                (find_many (categories_query is_active (u_id cu))
                   (categories db))) as [L I].
    split; [exact L|]. intros c Hc. apply I in Hc.
    apply filter_In in Hc. destruct Hc as [Hc Q].
    unfold categories_query in Q. apply andb_prop in Q. destruct Q as [Qu Qa].
    apply String.eqb_eq in Qu. apply Bool.eqb_prop in Qa. auto.
Qed.

Lemma categories_listing_pages_witness :
  nth_error (get_categories None 2 1 demo_user demo_db2) 0 = None /\
  nth_error (get_categories (Some false) 1 1 demo_user demo_db2) 0
  = Some (mk_Category "c2" "u1" "Antiga" false).
Proof.
  split.
  - exact (proj1 (categories_listing_pages None 1 demo_user demo_db2
                    (le_n 1)) 1%nat).
  - exact (proj1 (categories_listing_pages (Some false) 1 demo_user demo_db2
                    (le_n 1)) 0%nat).
Defined.

(** ** The transaction listing *)

Lemma listing_query_spec (uid : string) (category_id : option string)
    (transaction_type : option TransactionType)
    (start_date end_date : option datetime) (t : Transaction) :
  listing_query uid category_id transaction_type start_date end_date t = true ->
  t_user_id t = uid /\ t_is_active t = true /\
  (forall cid, category_id = Some cid -> cid <> "" ->
               t_category_id t = Some cid) /\
  (forall ty, transaction_type = Some ty -> t_type t = ty) /\
  (forall d, start_date = Some d ->
             String.leb (isoformat d) (t_transaction_date t) = true) /\
  (forall d, end_date = Some d ->
             String.leb (t_transaction_date t) (isoformat d) = true).
Proof.
  unfold listing_query. rewrite !andb_true_iff.
  intros [[[[[U A] C] T] S] E]. apply String.eqb_eq in U.
  repeat split; auto.
  - intros cid -> N. destruct cid; [contradiction|]. simpl in C.
    now apply opt_eqb_eq in C.
  - intros ty ->. now destruct (t_type t), ty.
  - now intros d ->.
  - now intros d ->.
Qed.

(** X12: the transaction listing shows the caller's active transactions
    that pass every filter given, and nothing else, cut into pages
    without loss or repetition.  For any order the store's sort applies
    (a permutation), the [i]-th transaction of the sorted matches is
    entry [i mod page_size] of page [i / page_size + 1]; every page holds
    at most [page_size] entries; a category filter, when not empty, a
    type filter and the two date bounds (both ends included, compared as
    ISO strings) hold of every entry. *)
Theorem transactions_listing_pages :
  forall (sort : list Transaction -> list Transaction)
         (category_id : option string)
         (transaction_type : option TransactionType)
         (start_date end_date : option datetime) (page_size : nat)
         (cu : User) (db : DB),
    (forall l, Permutation (sort l) l) ->
    (1 <= page_size)%nat ->
    (forall i,
       option_map twc_transaction
         (nth_error
            (get_transactions sort category_id transaction_type start_date
               end_date (i / page_size + 1) page_size cu db)
            (i mod page_size))
       = nth_error
           (sort
              (filter
                 (listing_query (u_id cu) category_id transaction_type
                    start_date end_date)
                 (transactions db))) i) /\
    (forall page,
       (List.length
          (get_transactions sort category_id transaction_type start_date
             end_date page page_size cu db) <= page_size)%nat /\
       forall x,
         In x (get_transactions sort category_id transaction_type start_date
                 end_date page page_size cu db) ->
         let t := twc_transaction x in
         In t (transactions db) /\ t_user_id t = u_id cu /\
         t_is_active t = true /\
         (forall cid, category_id = Some cid -> cid <> "" ->
                      t_category_id t = Some cid) /\
         (forall ty, transaction_type = Some ty -> t_type t = ty) /\
         (forall d, start_date = Some d ->
                    String.leb (isoformat d) (t_transaction_date t) = true) /\
         (forall d, end_date = Some d ->
                    String.leb (t_transaction_date t) (isoformat d) = true)).
Proof.
  intros sort category_id transaction_type start_date end_date page_size cu db
    SP P.
  split.
  - intros i. unfold get_transactions. rewrite nth_error_map.
    rewrite <- (paginate_nth page_size i _ P).
    destruct (nth_error _ _); reflexivity.
  - intros page. unfold get_transactions. rewrite length_map.
    match goal with
    | |- context [paginate page page_size ?l] =>
        destruct (paginate_bounds page page_size l) as [L I]
    end.
    split; [exact L|].
    intros x Hx. apply in_map_iff in Hx. destruct Hx as [t [<- Ht]].
    cbn [twc_transaction]. cbv zeta.
    apply I in Ht. apply (Permutation_in _ (SP _)) in Ht.
    apply filter_In in Ht. destruct Ht as [Ht Q].
    apply listing_query_spec in Q. tauto.
Qed.

Lemma insert_by_date_perm (x : Transaction) (l : list Transaction) :
  Permutation (insert_by_date x l) (x :: l).
Proof.
  induction l as [|y rest IH]; simpl; [reflexivity|].
  destruct (String.leb (t_transaction_date y) (t_transaction_date x));
    [reflexivity|].
  rewrite IH. apply perm_swap.
Qed.

Lemma newest_first_perm (l : list Transaction) :
  Permutation (newest_first l) l.
Proof.
  induction l as [|x rest IH]; simpl; [reflexivity|].
  rewrite insert_by_date_perm. now constructor.
Qed.

Lemma transactions_listing_pages_witness :
  option_map (fun x => t_id (twc_transaction x))
    (nth_error
       (get_transactions newest_first (Some "") (Some EXPENSE) None None 2 2
          demo_user demo_db2) 0)
  = Some "e3".
Proof.
  pose proof (proj1 (transactions_listing_pages newest_first (Some "")
                       (Some EXPENSE) None None 2 demo_user demo_db2
                       newest_first_perm (le_S 1 1 (le_n 1))) 2%nat) as H.
  change (2 / 2 + 1)%nat with 2%nat in H. change (2 mod 2)%nat with 0%nat in H.
  destruct (nth_error _ 0) as [x|]; [|discriminate H].
  simpl in H. injection H as H. simpl. now rewrite H.
Defined.

(** ** Category names in the listing *)

Lemma fetched_ids_distinct (wanted : Category -> bool) (cats : list Category) :
  NoDup (map c_id cats) -> NoDup (map c_id (filter wanted cats)).
Proof.
  intros ND. induction cats as [|c rest IH]; simpl; [constructor|].
  inversion ND as [|? ? Nin ND']; subst.
  destruct (wanted c); simpl; [|now apply IH].
  constructor; [|now apply IH].
  intros I. apply Nin. apply in_map_iff in I. destruct I as [x [E I]].
  apply filter_In in I. rewrite <- E. apply in_map. tauto.
Qed.

Lemma listed_category_ids_spec (page : list Transaction) (cid : string) :
  In cid (listed_category_ids page) <->
  cid <> "" /\ exists t, In t page /\ t_category_id t = Some cid.
Proof.
  unfold listed_category_ids. rewrite in_flat_map. split.
  - intros [t [I H]]. destruct (t_category_id t) as [c|] eqn:E; [|contradiction].
    destruct c as [|a c]; simpl in H; [contradiction|].
    destruct H as [<-|[]]. split; [discriminate|]. now exists t.
  - intros [N [t [I E]]]. exists t. split; [exact I|]. rewrite E.
    destruct cid; [contradiction|]. now left.
Qed.

Lemma listed_category_ids_length (page : list Transaction) :
  (List.length (listed_category_ids page) <= List.length page)%nat.
Proof.
  unfold listed_category_ids.
  induction page as [|t rest IH]; simpl; [lia|].
  rewrite length_app.
  destruct (t_category_id t) as [c|]; [destruct (nonempty c)|]; simpl; lia.
Qed.

Lemma id_in_spec (ids : list string) (c : Category) :
  id_in ids c = true <-> In (c_id c) ids.
Proof.
  unfold id_in. rewrite existsb_exists. split.
  - intros [x [I E]]. apply String.eqb_eq in E. now subst.
  - intros I. exists (c_id c). split; [exact I | apply String.eqb_refl].
Qed.

(** With unique category ids, the categories fetched for a page are no
    more than the transactions of the page. *)
Lemma fetched_categories_length (page : list Transaction)
    (cats : list Category) :
  NoDup (map c_id cats) ->
  (List.length (filter (id_in (listed_category_ids page)) cats)
   <= List.length page)%nat.
Proof.
  intros ND.
  rewrite <- (length_map c_id).
  etransitivity; [|apply listed_category_ids_length].
  apply NoDup_incl_length; [now apply fetched_ids_distinct|].
  intros x I. apply in_map_iff in I. destruct I as [c [<- I]].
  apply filter_In in I. destruct I as [_ Q]. now apply id_in_spec.
Qed.

Lemma listing_categories_lookup (page : list Transaction) (db : DB)
    (k : option string) :
  NoDup (map c_id (categories db)) ->
  (List.length page <= 100)%nat ->
  (dict_get k (listing_categories page db) = None /\
   forall c, In c (categories db) -> In (c_id c) (listed_category_ids page) ->
             Some (c_id c) <> k) \/
  (exists c, In c (categories db) /\ In (c_id c) (listed_category_ids page) /\
             Some (c_id c) = k /\
             dict_get k (listing_categories page db) = Some (c_name c)).
Proof.
  intros ND L. unfold listing_categories.
  destruct (listed_category_ids page) as [|i ids] eqn:E.
  - left. split; [reflexivity|]. intros c _ [].
  - rewrite <- E. unfold to_list.
    rewrite firstn_all2
      by (etransitivity; [now apply fetched_categories_length | exact L]).
    unfold build_category_map, find_many.
    destruct (category_map_lookup k
                (filter (id_in (listed_category_ids page)) (categories db)) [])
      as [[G N]|[c [I [K G]]]].
    + left. split; [exact G|]. intros c I M. apply N.
      apply filter_In. split; [exact I|]. now apply id_in_spec.
    + right. apply filter_In in I. destruct I as [I Q].
      apply id_in_spec in Q. exists c. auto.
Qed.

(** X13: the name the listing shows beside a transaction is looked up by
    category id alone.  With unique category ids and pages of at most 100
    entries, a transaction with no category or an empty category id has
    no name; one whose category id matches no category document has no
    name; and one whose category id matches a category document shows
    that document's stored name, whoever owns the category and whether
    it is active or soft-deleted.  The fetch limit of 100 categories
    never drops a name. *)
Theorem listing_category_names :
  forall (sort : list Transaction -> list Transaction)
         (category_id : option string)
         (transaction_type : option TransactionType)
         (start_date end_date : option datetime) (page page_size : nat)
         (cu : User) (db : DB) (x : TransactionWithCategory),
    NoDup (map c_id (categories db)) ->
    (page_size <= 100)%nat ->
    In x (get_transactions sort category_id transaction_type start_date
            end_date page page_size cu db) ->
    (truthy (t_category_id (twc_transaction x)) = false ->
     twc_category_name x = None) /\
    (forall cid,
       t_category_id (twc_transaction x) = Some cid -> cid <> "" ->
       (forall c, In c (categories db) -> c_id c <> cid) ->
       twc_category_name x = None) /\
    (forall cid c,
       t_category_id (twc_transaction x) = Some cid -> cid <> "" ->
       In c (categories db) -> c_id c = cid ->
       twc_category_name x = Some (c_name c)).
Proof.
  intros sort category_id transaction_type start_date end_date page page_size
    cu db x ND P Hx.
  unfold get_transactions in Hx.
  set (pg := paginate page page_size
               (sort (find_many
                        (listing_query (u_id cu) category_id transaction_type
                           start_date end_date) (transactions db)))) in *.
  assert (L : (List.length pg <= 100)%nat).
  { etransitivity; [|exact P]. apply paginate_bounds. }
  apply in_map_iff in Hx. destruct Hx as [t [<- Ht]].
  cbn [twc_transaction twc_category_name].
  destruct (listing_categories_lookup pg db (t_category_id t) ND L)
    as [[G N]|[c [Ic [Iid [K G]]]]].
  - rewrite G. split; [reflexivity|]. split; [reflexivity|].
    intros cid c E NE Ic Ei. exfalso. apply (N c Ic).
    + apply listed_category_ids_spec. rewrite Ei. split; [exact NE|].
      now exists t.
    + rewrite E. now rewrite Ei.
  - rewrite G. apply listed_category_ids_spec in Iid.
    destruct Iid as [NE _]. split; [|split].
    + intros T. rewrite <- K in T. simpl in T.
      destruct (c_id c); [contradiction|discriminate].
    + intros cid E _ N. exfalso. apply (N c Ic). congruence.
    + intros cid c0 E _ I0 E0. do 2 f_equal.
      assert (Eid : c_id c = c_id c0) by congruence.
      clear - ND Ic I0 Eid.
      induction (categories db) as [|d rest IH]; [contradiction|].
      inversion ND as [|? ? Nin ND']; subst.
      destruct Ic as [<-|Ic], I0 as [<-|I0]; auto.
      * exfalso. apply Nin. rewrite Eid. now apply in_map.
      * exfalso. apply Nin. rewrite <- Eid. now apply in_map.
Qed.

Lemma listing_category_names_witness :
  map (fun x => (t_id (twc_transaction x), twc_category_name x))
    (get_transactions newest_first None None None None 1 5 demo_user demo_db2)
  = [("e5", Some "Mercado"); ("e4", Some "Alheia"); ("e3", Some "Antiga");
     ("e2", None); ("e1", Some "Mercado")] /\
  twc_category_name
    (mk_TransactionWithCategory
       (mk_Transaction "e4" "u1" 10 "emprestado" EXPENSE (Some "c3")
          "2024-01-08T09:00:00+00:00" None "2024-01-08T09:00:00+00:00" true)
       (Some "Alheia"))
  = Some (c_name (mk_Category "c3" "u2" "Alheia" true)).
Proof.
  split; [reflexivity|].
  assert (ND : NoDup (map c_id (categories demo_db2)))
    by (repeat constructor; simpl; intuition discriminate).
  assert (P : (5 <= 100)%nat) by (repeat constructor).
  set (x := mk_TransactionWithCategory
              (mk_Transaction "e4" "u1" 10 "emprestado" EXPENSE (Some "c3")
                 "2024-01-08T09:00:00+00:00" None "2024-01-08T09:00:00+00:00"
                 true)
              (Some "Alheia")).
  assert (I : In x (get_transactions newest_first None None None None 1 5
                      demo_user demo_db2))
    by (cbv; right; left; reflexivity).
  assert (N : "c3" <> "") by discriminate.
  assert (Ic : In (mk_Category "c3" "u2" "Alheia" true) (categories demo_db2))
    by (cbv; right; right; left; reflexivity).
  exact (proj2 (proj2
    (listing_category_names newest_first None None None None 1 5 demo_user
       demo_db2 x ND P I)) "c3" (mk_Category "c3" "u2" "Alheia" true)
    eq_refl N Ic eq_refl).
Defined.

(** ** Authentication *)

Lemma unique_user (us : list User) (u u' : User) :
  NoDup (map u_id us) -> In u us -> In u' us -> u_id u = u_id u' -> u = u'.
Proof.
  induction us as [|d rest IH]; [contradiction|].
  intros ND I I' E. inversion ND as [|? ? Nin ND']; subst.
  destruct I as [<-|I], I' as [<-|I']; auto.
  - exfalso. apply Nin. rewrite E. now apply in_map.
  - exfalso. apply Nin. rewrite <- E. now apply in_map.
Qed.

(** X14: [get_current_user] lets a request through only as a stored,
    active user whose id is the subject of the token, and never writes.
    Every refusal (expired or invalid token, missing subject, unknown or
    deactivated user) is a 401.  The user it returns has a document
    under its id, which is what the balance updates of the transaction
    routes rely on, and with unique user ids the balance that [get_me]
    shows is the stored [total_balance] of that id. *)
Theorem get_current_user_authenticates :
  forall (jwt_decode : string -> JwtDecode) (credentials : string) (db : DB),
    fst (get_current_user jwt_decode credentials db) = db /\
    (forall e, snd (get_current_user jwt_decode credentials db) = inl e ->
               status_code e = 401%Z) /\
    (forall u, snd (get_current_user jwt_decode credentials db) = inr u ->
               jwt_decode credentials = Payload (Some (u_id u)) /\
               In u (users db) /\ u_is_active u = true /\
               known_user db (u_id u) = true /\
               (NoDup (map u_id (users db)) ->
                get_me u = total_balance db (u_id u))).
Proof.
  intros jwt_decode credentials db. unfold get_current_user.
  destruct (jwt_decode credentials) as [| |[uid|]];
    try (split; [reflexivity|]; split;
         [intros e [= <-]; reflexivity | intros u H; discriminate H]).
  unfold bind, users_find_one.
  destruct (find_one (active_user_query uid) (users db)) as [u0|] eqn:F;
    [|split; [reflexivity|]; split;
      [intros e [= <-]; reflexivity | intros u H; discriminate H]].
  split; [reflexivity|]. split; [intros e H; discriminate H|].
  intros u [= <-]. apply find_some in F. destruct F as [I Q].
  unfold active_user_query in Q. apply andb_prop in Q. destruct Q as [Qi Qa].
  apply String.eqb_eq in Qi.
  assert (K : known_user db (u_id u0) = true).
  { unfold known_user. apply existsb_exists. exists u0.
    split; [exact I | apply String.eqb_refl]. }
  rewrite Qi. repeat split; auto.
  - now rewrite <- Qi.
  - intros ND. unfold get_me, total_balance.
    destruct (existsb_find _ _ K) as [u' F']. unfold find_one.
    rewrite <- Qi, F'. apply find_some in F'. destruct F' as [I' Q'].
    apply String.eqb_eq in Q'.
    now rewrite (unique_user (users db) u0 u' ND I I' (eq_sym Q')).
Qed.

Lemma get_current_user_authenticates_witness :
  get_me demo_user = total_balance demo_db (u_id demo_user) /\
  known_user demo_db (u_id demo_user) = true.
Proof.
  destruct (proj2 (proj2
    (get_current_user_authenticates (fun _ => Payload (Some "u1")) "token"
       demo_db)) demo_user eq_refl) as [_ [_ [_ [K B]]]].
  split; [|exact K]. apply B. repeat constructor. intros [].
Defined.

Lemma find_email_none (email : string) (us : list User) :
  (forall u, In u us -> u_email u <> email) ->
  find_one (fun u => String.eqb (u_email u) email) us = None.
Proof.
  unfold find_one. induction us as [|d rest IH]; intros H; simpl; [reflexivity|].
  destruct (String.eqb_spec (u_email d) email) as [E|N].
  - exfalso. now apply (H d (or_introl eq_refl)).
  - apply IH. intros u I. apply H. now right.
Qed.

(** X15: registration keeps e-mail addresses unique.  When a stored user
    (active or not) already has the address, [register] answers 400
    "Email already registered" and writes nothing; otherwise it appends
    one active user with the id drawn, the address given and a
    [total_balance] of 0, leaves categories and transactions alone, and
    addresses that were pairwise distinct stay so. *)
Theorem register_keeps_emails_unique :
  forall (user_data : UserCreate) (uuid4 : string) (db : DB),
    ((exists u, In u (users db) /\ u_email u = uc_email user_data) ->
     register user_data uuid4 db = (db, inl EmailTaken)) /\
    ((forall u, In u (users db) -> u_email u <> uc_email user_data) ->
     let user := mk_User uuid4 (uc_email user_data) 0 true in
     let db1 := fst (register user_data uuid4 db) in
     snd (register user_data uuid4 db) = inr user /\
     users db1 = (users db ++ [user])%list /\
     categories db1 = categories db /\ transactions db1 = transactions db /\
     (NoDup (map u_email (users db)) -> NoDup (map u_email (users db1)))).
Proof.
  intros user_data uuid4 db. unfold register, bind, users_find_one. split.
  - intros [u [I E]].
    destruct (existsb_find (fun u => String.eqb (u_email u) (uc_email user_data))
                (users db)) as [u' F].
    { apply existsb_exists. exists u. split; [exact I|].
      now apply String.eqb_eq. }
    unfold find_one. now rewrite F.
  - intros H. rewrite (find_email_none _ _ H). cbn.
    repeat split. intros ND. unfold insert_one. rewrite map_app.
    apply NoDup_app; [exact ND | repeat constructor; intros [] |].
    intros a Ia [<-|[]]. apply in_map_iff in Ia.
    destruct Ia as [u [E I]]. now apply (H u I).
Qed.

Lemma register_keeps_emails_unique_witness :
  register (mk_UserCreate "ana@example.com") "u9" demo_db1
  = (demo_db1, inl EmailTaken) /\
  users (fst (register (mk_UserCreate "bia@example.com") "u9" demo_db1))
  = [mk_User "u1" "ana@example.com" 100.5 true;
     mk_User "u9" "bia@example.com" 0 true].
Proof.
  split.
  - apply (proj1 (register_keeps_emails_unique
                    (mk_UserCreate "ana@example.com") "u9" demo_db1)).
    eexists. split; [left; reflexivity | reflexivity].
  - apply (proj2 (register_keeps_emails_unique
                    (mk_UserCreate "bia@example.com") "u9" demo_db1)).
    intros u [<-|[]]. discriminate.
Defined.

(** ** A new user's ledger *)

Lemma find_appended_user (u : User) (us : list User) :
  ~ In (u_id u) (map u_id us) ->
  find (user_id_query (u_id u)) (us ++ [u]) = Some u.
Proof.
  intros N. induction us as [|d rest IH]; simpl.
  - unfold user_id_query. now rewrite String.eqb_refl.
  - unfold user_id_query at 1.
    destruct (String.eqb_spec (u_id d) (u_id u)) as [E|NE].
    + exfalso. apply N. now left.
    + apply IH. intros I. apply N. now right.
Qed.

Lemma no_owned_transactions (uid : string) (txs : list Transaction) :
  (forall t, In t txs -> t_user_id t <> uid) ->
  filter (owned_active uid) txs = [].
Proof.
  intros H. induction txs as [|t rest IH]; simpl; [reflexivity|].
  unfold owned_active at 1.
  destruct (String.eqb_spec (t_user_id t) uid) as [E|N].
  - exfalso. now apply (H t (or_introl eq_refl)).
  - simpl. apply IH. intros t' I. apply H. now right.
Qed.

(** X16: a user who registers starts with a balance of 0 that agrees
    with an empty ledger, and the agreement holds as long as no balance
    arithmetic rounds: when the id drawn is new (no user and no
    transaction carries it) and ids stay unique, after any sequence of
    the new user's requests whose arithmetic is exact, [total_balance]
    is the exact sum of the effects of the user's active transactions. *)
Theorem registered_user_stays_reconciled :
  forall (user_data : UserCreate) (uuid4 : string) (db : DB)
         (rs : list Request),
    (forall u, In u (users db) -> u_email u <> uc_email user_data) ->
    ~ In uuid4 (map u_id (users db)) ->
    (forall t, In t (transactions db) -> t_user_id t <> uuid4) ->
    NoDup (transaction_ids db ++ drawn_ids rs) ->
    let user := mk_User uuid4 (uc_email user_data) 0 true in
    let db1 := fst (register user_data uuid4 db) in
    total_balance db1 uuid4 = 0 /\
    filter (owned_active uuid4) (transactions db1) = [] /\
    (exact_run user rs db1 = true ->
     is_finite (total_balance (serve_all user rs db1) uuid4) = true /\
     (to_Q (total_balance (serve_all user rs db1) uuid4)
      == ledger_balance (serve_all user rs db1) uuid4)%Q).
Proof.
  intros user_data uuid4 db rs HE HU HT ND user db1.
  assert (E1 : db1 = mk_DB (users db ++ [user]) (categories db)
                       (transactions db)).
  { unfold db1, register, bind, users_find_one.
    now rewrite (find_email_none _ _ HE). }
  assert (B : total_balance db1 uuid4 = 0).
  { rewrite E1. unfold total_balance, find_one. cbn [users].
    pose proof (find_appended_user user (users db) HU) as F.
    change (u_id user) with uuid4 in F. now rewrite F. }
  assert (L : filter (owned_active uuid4) (transactions db1) = []).
  { rewrite E1. cbn [transactions].
    exact (no_owned_transactions uuid4 (transactions db) HT). }
  split; [exact B|]. split; [exact L|].
  intros X.
  destruct (serve_all_keeps_reconciled user rs db1) as [F [_ R]].
  - rewrite E1. exact ND.
  - rewrite E1. unfold known_user. cbn [users]. rewrite existsb_app.
    simpl. unfold user_id_query. rewrite String.eqb_refl.
    now rewrite orb_true_r.
  - unfold reconciled, ledger_balance. cbn [u_id user]. rewrite B, L.
    split; [reflexivity|]. split; [constructor | reflexivity].
  - exact X.
  - split; [exact F | exact R].
Qed.

Lemma registered_user_stays_reconciled_witness :
  let user := mk_User "u9" "bia@example.com" 0 true in
  let db1 := fst (register (mk_UserCreate "bia@example.com") "u9" demo_db1) in
  let rs := [Create demo_blank "t8" demo_now; Create demo_income "t9" demo_now;
             Update "t9" demo_raise; Delete "t8"] in
  (to_Q (total_balance (serve_all user rs db1) "u9")
   == ledger_balance (serve_all user rs db1) "u9")%Q.
Proof.
  cbv zeta.
  refine (proj2 (proj2 (proj2
    (registered_user_stays_reconciled (mk_UserCreate "bia@example.com") "u9"
       demo_db1
       [Create demo_blank "t8" demo_now; Create demo_income "t9" demo_now;
        Update "t9" demo_raise; Delete "t8"] _ _ _ _)) _)).
  - intros u [<-|[]]. discriminate.
  - simpl. intuition discriminate.
  - intros t [<-|[<-|[<-|[]]]]; discriminate.
  - repeat constructor; simpl; intuition discriminate.
  - vm_compute. reflexivity.
Defined.

(** ** The two reports together *)

Lemma expense_query_filter (uid lo hi : string) (txs : list Transaction) :
  filter (expense_query uid lo hi) txs
  = filter (fun t => TransactionType_eqb (t_type t) EXPENSE)
      (filter (summary_query uid lo hi) txs).
Proof.
  induction txs as [|t rest IH]; simpl; [reflexivity|].
  unfold expense_query at 1, summary_query at 1.
  destruct (String.eqb (t_user_id t) uid), (t_is_active t),
    (TransactionType_eqb (t_type t) EXPENSE) eqn:E,
    (in_range lo hi (t_transaction_date t)); simpl;
    rewrite ?E; now rewrite IH.
Qed.

Lemma filter_length_le {A : Type} (p : A -> bool) (l : list A) :
  (List.length (filter p l) <= List.length l)%nat.
Proof.
  induction l as [|a rest IH]; simpl; [lia|]. destruct (p a); simpl; lia.
Qed.

(** X17: the two reports of a month read the same expenses: when the
    month has no more than 10000 matching transactions, the category
    breakdown reads exactly the expense transactions the monthly summary
    reads, in the same order, and the [total_expense] of the summary is
    the sum, taken from the left, of the amounts the breakdown groups. *)
Theorem summary_and_breakdown_agree :
  forall (month year : option N) (cu : User) (now : datetime) (db : DB),
    (List.length
       (find_many
          (summary_query (u_id cu) (fst (date_range month year now))
             (snd (date_range month year now)))
          (transactions db)) <= N.to_nat 10000)%nat ->
    expense_window month year cu now db
    = filter (fun t => TransactionType_eqb (t_type t) EXPENSE)
        (summary_window month year cu now db) /\
    total_expense (get_financial_summary month year cu now db)
    = sum (map t_amount (expense_window month year cu now db)).
Proof.
  intros month year cu now db L.
  assert (E : expense_window month year cu now db
              = filter (fun t => TransactionType_eqb (t_type t) EXPENSE)
                  (summary_window month year cu now db)).
  { unfold expense_window, summary_window, to_list, find_many in *.
    rewrite (firstn_all2 _ L), expense_query_filter.
    apply firstn_all2. etransitivity; [apply filter_length_le | exact L]. }
  split; [exact E|].
  rewrite E, get_financial_summary_unfold. reflexivity.
Qed.

Lemma summary_and_breakdown_agree_witness :
  total_expense
    (get_financial_summary (Some 1%N) (Some 2024%N) demo_user demo_now demo_db2)
  = sum (map t_amount
           (expense_window (Some 1%N) (Some 2024%N) demo_user demo_now
              demo_db2)).
Proof.
  apply (summary_and_breakdown_agree (Some 1%N) (Some 2024%N) demo_user
           demo_now demo_db2).
  apply Nat.leb_le. vm_compute. reflexivity.
Defined.

(** ** The groups of the breakdown *)

Lemma list_sum_insert_desc (f : CategoryExpense -> nat) (x : CategoryExpense)
    (l : list CategoryExpense) :
  list_sum (map f (insert_desc x l)) = (f x + list_sum (map f l))%nat.
Proof.
  induction l as [|y rest IH]; simpl; [reflexivity|].
  destruct (ce_total_amount y <=? ce_total_amount x); simpl;
    [reflexivity|].
  rewrite IH. lia.
Qed.

Lemma list_sum_sort_desc (f : CategoryExpense -> nat)
    (l : list CategoryExpense) :
  list_sum (map f (sort_desc l)) = list_sum (map f l).
Proof.
  induction l as [|x rest IH]; simpl; [reflexivity|].
  now rewrite list_sum_insert_desc, IH.
Qed.

Lemma count_dict_modify (k : option string) (f : Totals -> Totals)
    (d : dict Totals) (v : Totals) :
  dict_get k d = Some v ->
  (list_sum (map (fun e => tot_count (snd e)) (dict_modify k f d)) + tot_count v
   = list_sum (map (fun e => tot_count (snd e)) d) + tot_count (f v))%nat.
Proof.
  induction d as [|[k0 v0] rest IH]; simpl; [discriminate|].
  destruct (opt_eqb k0 k); simpl.
  - intros [= ->]. lia.
  - intros H. specialize (IH H). lia.
Qed.

Lemma group_step_counts (acc : dict Totals) (t : Transaction) :
  list_sum (map (fun e => tot_count (snd e)) (group_step acc t))
  = S (list_sum (map (fun e => tot_count (snd e)) acc)).
Proof.
  destruct (group_step_cases acc t) as [[v [G ->]]|[M ->]].
  - pose proof (count_dict_modify _ (add_to t) _ v G) as C.
    change (tot_count (add_to t v)) with (tot_count v + 1)%nat in C. lia.
  - rewrite map_app, list_sum_app. simpl. lia.
Qed.

Lemma group_fold_counts (sel : list Transaction) :
  forall acc : dict Totals,
    list_sum (map (fun e => tot_count (snd e)) (fold_left group_step sel acc))
    = (list_sum (map (fun e => tot_count (snd e)) acc) + List.length sel)%nat.
Proof.
  induction sel as [|t rest IH]; intros acc; simpl; [lia|].
  rewrite IH, group_step_counts. lia.
Qed.

Lemma breakdown_entries (month year : option N) (cu : User) (now : datetime)
    (db : DB) (e : CategoryExpense) :
  In e (expenses (get_expenses_by_category month year cu now db)) ->
  exists k d,
    In (k, d) (group_by_category (expense_window month year cu now db)) /\
    ce_category_id e = k /\ ce_total_amount e = tot_amount d /\
    ce_transaction_count e = tot_count d /\
    ce_percentage e
    = (if 0 <? ebc_total_expense (get_expenses_by_category month year cu now db)
       then tot_amount d
            / ebc_total_expense (get_expenses_by_category month year cu now db)
            * 100
       else 0).
Proof.
  rewrite get_expenses_by_category_unfold. cbn [expenses ebc_total_expense].
  intros I. apply (Permutation_in _ (sort_desc_perm _)) in I.
  apply in_map_iff in I. destruct I as [[k d] [<- I]].
  exists k, d. split; [exact I|].
  match goal with
  | |- context [make_expense ?m ?T (k, d)] =>
      destruct (make_expense_fields m T (k, d)) as [-> [-> [-> [-> _]]]]
  end.
  repeat split.
Qed.

(** X18: the breakdown has one group per category id: the category ids
    of its entries are pairwise distinct, every group holds at least one
    transaction, and the group counts add up to the number of expense
    transactions read. *)
Theorem breakdown_groups_partition :
  forall (month year : option N) (cu : User) (now : datetime) (db : DB),
    let r := get_expenses_by_category month year cu now db in
    NoDup (map ce_category_id (expenses r)) /\
    (forall e, In e (expenses r) -> (1 <= ce_transaction_count e)%nat) /\
    list_sum (map ce_transaction_count (expenses r))
    = List.length (expense_window month year cu now db).
Proof.
  intros month year cu now db r.
  set (window := expense_window month year cu now db).
  split; [|split].
  - unfold r. rewrite get_expenses_by_category_unfold. cbn [expenses].
    fold window.
    eapply Permutation_NoDup.
    + apply Permutation_map. symmetry. apply sort_desc_perm.
    + rewrite map_map.
      rewrite (map_ext _ fst)
        by (intros entry;
            now destruct (make_expense_fields
                            (build_category_map (category_window cu db))
                            (sum (map entry_amount (group_by_category window)))
                            entry) as [-> _]).
      rewrite group_by_category_keys. apply first_occurrences_NoDup.
  - intros e I. destruct (breakdown_entries month year cu now db e I)
      as [k [d [Ig [_ [_ [-> _]]]]]].
    fold window in Ig.
    destruct (group_by_category_entry window k d Ig) as [_ ->].
    assert (Ik : In k (map t_category_id window)).
    { apply first_occurrences_sound. rewrite <- group_by_category_keys.
      change k with (fst (k, d)). now apply in_map. }
    apply in_map_iff in Ik. destruct Ik as [t [E It]].
    assert (In t (in_category k window)).
    { unfold in_category. apply filter_In. split; [exact It|].
      now apply opt_eqb_eq. }
    destruct (in_category k window); [contradiction | simpl; lia].
  - unfold r. rewrite get_expenses_by_category_unfold. cbn [expenses].
    fold window. rewrite list_sum_sort_desc, map_map.
    rewrite (map_ext _ (fun e => tot_count (snd e)))
      by (intros entry;
          now destruct (make_expense_fields
                          (build_category_map (category_window cu db))
                          (sum (map entry_amount (group_by_category window)))
                          entry) as [_ [_ [-> _]]]).
    apply (group_fold_counts window []).
Qed.

Lemma breakdown_groups_partition_witness :
  list_sum (map ce_transaction_count (expenses demo_breakdown)) = 5%nat /\
  (1 <= ce_transaction_count
          (mk_CategoryExpense (Some "c3") "Sem categoria" 10 1 10))%nat.
Proof.
  destruct (breakdown_groups_partition (Some 1%N) (Some 2024%N) demo_user
              demo_now demo_db2) as [_ [P S]].
  split; [exact S|].
  apply P. right. right. right. left. reflexivity.
Defined.

(** ** From a create to the summary *)

Lemma or_default_given (n default : N) :
  (1 <= n)%N -> or_default (Some n) default = n.
Proof.
  intros H. unfold or_default.
  destruct (N.eqb_spec n 0); [lia | reflexivity].
Qed.

Lemma summary_window_after_insert (y m : N) (cu : User) (clock : datetime)
    (us : list User) (cats : list Category) (db : DB) (t : Transaction)
    (d : datetime) :
  valid_datetime d = true -> is_utc d = true ->
  year d = y -> month d = m -> (y <= 9998)%N ->
  t_user_id t = u_id cu -> t_is_active t = true ->
  t_transaction_date t = isoformat d ->
  (List.length
     (find_many
        (summary_query (u_id cu) (isoformat (start_date y m))
           (isoformat (end_date y m)))
        (transactions db)) < N.to_nat 10000)%nat ->
  summary_window (Some m) (Some y) cu clock
    (mk_DB us cats (insert_one t (transactions db)))
  = (summary_window (Some m) (Some y) cu clock db ++ [t])%list.
Proof.
  intros V U Ey Em Y Eu Ea Ed L.
  destruct (valid_datetime_bounds d V) as [By [Bm _]].
  assert (T : valid_target y m = true).
  { unfold valid_target. rewrite !andb_true_iff, !N.leb_le. lia. }
  unfold summary_window, date_range.
  rewrite !or_default_given by lia.
  cbn [fst snd transactions]. unfold to_list, find_many, insert_one in *.
  rewrite filter_app. cbn [filter].
  assert (Q : summary_query (u_id cu) (isoformat (start_date y m))
                (isoformat (end_date y m)) t = true).
  { apply summary_query_spec. repeat split; auto.
    rewrite Ed, (in_range_utc d y m V U T).
    rewrite <- Ey, <- Em, !N.eqb_refl. reflexivity. }
  rewrite Q.
  rewrite (firstn_all2 (n := N.to_nat 10000)
             (filter (summary_query (u_id cu) (isoformat (start_date y m))
                        (isoformat (end_date y m))) (transactions db)))
    by lia.
  apply firstn_all2. rewrite length_app. simpl. lia.
Qed.

(** X20: a created transaction shows up in the summary of its month.
    When the date of the new transaction (the one given, or the current
    time) is a UTC datetime of month [(y, m)] and that month has fewer
    than 10000 matching transactions, the summary of [(m, y)] after the
    create reads the transactions it read before and then the new one:
    it counts one transaction more, for an income [total_income] is the
    sum of the incomes read before followed by the new amount, for an
    expense [total_expense] is, and every other total is as before. *)
Theorem created_transaction_is_counted :
  forall (data : TransactionCreate) (cu : User) (uuid4 : string)
         (now clock : datetime) (db db1 : DB) (t : Transaction) (y m : N),
    create_transaction data cu uuid4 now db = (db1, inr t) ->
    let d := match tc_transaction_date data with
             | Some d => d
             | None => now
             end in
    valid_datetime d = true -> is_utc d = true ->
    year d = y -> month d = m -> (y <= 9998)%N ->
    (List.length
       (find_many
          (summary_query (u_id cu) (isoformat (start_date y m))
             (isoformat (end_date y m)))
          (transactions db)) < N.to_nat 10000)%nat ->
    let s0 := get_financial_summary (Some m) (Some y) cu clock db in
    let s1 := get_financial_summary (Some m) (Some y) cu clock db1 in
    let window0 := summary_window (Some m) (Some y) cu clock db in
    let amounts_of ty :=
      map t_amount
        (filter (fun x => TransactionType_eqb (t_type x) ty) window0) in
    summary_window (Some m) (Some y) cu clock db1 = (window0 ++ [t])%list /\
    transaction_count s1 = S (transaction_count s0) /\
    total_income s1
    = (if TransactionType_eqb (tc_type data) INCOME
       then sum (amounts_of INCOME ++ [tc_amount data])
       else total_income s0) /\
    total_expense s1
    = (if TransactionType_eqb (tc_type data) EXPENSE
       then sum (amounts_of EXPENSE ++ [tc_amount data])
       else total_expense s0) /\
    net_balance s1 = total_income s1 - total_expense s1 /\
    (tc_type data = TRANSFER -> net_balance s1 = net_balance s0).
Proof.
  intros data cu uuid4 now clock db db1 t y m C d V U Ey Em Y L s0 s1 window0
    amounts_of.
  rewrite create_transaction_checked in C.
  destruct (truthy _ && _); [discriminate|].
  injection C as <- <-. subst d s0 s1 amounts_of window0.
  set (d := match tc_transaction_date data with
            | Some d => d
            | None => now
            end) in *.
  set (t := mk_Transaction uuid4 (u_id cu) (tc_amount data)
              (tc_description data) (tc_type data) (tc_category_id data)
              (isoformat d) (tc_notes data) (isoformat now) true) in *.
  assert (W : summary_window (Some m) (Some y) cu clock
                (mk_DB
                   (update_one (user_id_query (u_id cu))
                      (inc_total_balance
                         (effect (tc_amount data) (tc_type data))) (users db))
                   (categories db) (insert_one t (transactions db)))
              = (summary_window (Some m) (Some y) cu clock db ++ [t])%list).
  { apply (summary_window_after_insert y m cu clock _ _ db t d); auto. }
  split; [exact W|].
  rewrite !get_financial_summary_unfold. rewrite W.
  cbn [transaction_count total_income total_expense net_balance].
  rewrite !filter_app, length_app.
  cbn [filter t_type t].
  split; [simpl; lia|].
  destruct (tc_type data); cbn [TransactionType_eqb];
    rewrite ?map_app, ?app_nil_r; cbn [map t_amount t];
    repeat split; intros; discriminate.
Qed.

Lemma created_transaction_is_counted_witness :
  let db1 := fst (create_transaction demo_expense demo_user "e9" demo_now
                    demo_db2) in
  transaction_count
    (get_financial_summary (Some 1%N) (Some 2024%N) demo_user demo_now db1)
  = S (transaction_count
         (get_financial_summary (Some 1%N) (Some 2024%N) demo_user demo_now
            demo_db2)).
Proof.
  cbv zeta.
  set (r := create_transaction demo_expense demo_user "e9" demo_now demo_db2).
  assert (L : (List.length
                 (find_many
                    (summary_query (u_id demo_user)
                       (isoformat (start_date 2024 1))
                       (isoformat (end_date 2024 1)))
                    (transactions demo_db2)) < N.to_nat 10000)%nat)
    by (apply Nat.ltb_lt; vm_compute; reflexivity).
  assert (Y : (2024 <= 9998)%N) by (apply N.leb_le; reflexivity).
  exact (proj1 (proj2
    (created_transaction_is_counted demo_expense demo_user "e9" demo_now
       demo_now demo_db2 (fst r)
       (match snd r with inr t => t | inl _ => demo_income_tx end)
       2024 1 eq_refl eq_refl eq_refl eq_refl eq_refl Y L))).
Defined.

(** ** What a soft delete writes *)

(** X21: a successful soft delete takes the effect of the transaction
    back and keeps the document: unless the reversal is zero it is added
    to the user's [total_balance], so that for a positive amount the
    balance becomes the balance minus the amount for an income, the
    balance plus the amount for an expense, and stays as it is for a
    transfer; and with unique ids the only change to the transactions is
    that this document is now inactive, every other field and every other
    document being as before. *)
Theorem delete_transaction_reverses_effect :
  forall (tid : string) (cu : User) (db : DB) (t : Transaction),
    known_user db (u_id cu) = true ->
    NoDup (transaction_ids db) ->
    find_one (transaction_query tid (u_id cu)) (transactions db) = Some t ->
    let db1 := fst (delete_transaction tid cu db) in
    let b := total_balance db (u_id cu) in
    snd (delete_transaction tid cu db) = inr tt /\
    total_balance db1 (u_id cu)
    = (if reversal (t_amount t) (t_type t) =? 0 then b
       else b + reversal (t_amount t) (t_type t)) /\
    ((0 <? t_amount t) = true ->
     total_balance db1 (u_id cu)
     = match t_type t with
       | INCOME => b - t_amount t
       | EXPENSE => b + t_amount t
       | TRANSFER => b
       end) /\
    transactions db1
    = map (fun x => if String.eqb (t_id x) tid then set_inactive x else x)
        (transactions db) /\
    categories db1 = categories db.
Proof.
  intros tid cu db t K ND F db1 b. unfold db1.
  rewrite (delete_transaction_found tid cu db t F). cbn [fst snd].
  split; [reflexivity|].
  match goal with
  | |- context [when ?c ?h ?d] =>
      pose proof (total_balance_when_inc d (u_id cu)
                    (reversal (t_amount t) (t_type t))
                    (eq_trans (known_user_same_users db d (u_id cu) eq_refl) K))
        as B;
      rewrite (total_balance_same_users db d (u_id cu) eq_refl) in B;
      destruct (when_inc_keeps d (u_id cu)
                  (reversal (t_amount t) (t_type t))) as [Tx [Cx _]]
  end.
  cbv zeta in Tx, Cx. rewrite Tx, Cx. cbn [transactions categories].
  split; [exact B|].
  split.
  { intros P. rewrite B. fold b.
    destruct (positive_not_zero (t_amount t) P) as [NZ NZ'].
    destruct (t_type t); simpl.
    - rewrite NZ'. apply add_opp.
    - now rewrite NZ.
    - reflexivity. }
  split; [|reflexivity].
  clear - ND. unfold transaction_ids in ND.
  induction (transactions db) as [|d rest IH]; [reflexivity|].
  inversion ND as [|? ? Nin ND']; subst.
  cbn [update_one map]. unfold id_query at 1.
  destruct (String.eqb_spec (t_id d) tid) as [E|N].
  - f_equal. rewrite <- (map_id rest) at 1.
    apply map_ext_in. intros x I.
    destruct (String.eqb_spec (t_id x) tid) as [E'|_]; [|reflexivity].
    exfalso. apply Nin. rewrite E, <- E'. now apply in_map.
  - f_equal. now apply IH.
Qed.

Lemma delete_transaction_reverses_effect_witness :
  total_balance (fst (delete_transaction "t1" demo_user demo_db1)) "u1"
  = total_balance demo_db1 "u1" - 100.5.
Proof.
  assert (ND : NoDup (transaction_ids demo_db1))
    by (repeat constructor; simpl; intuition discriminate).
  exact (proj1 (proj2 (proj2
    (delete_transaction_reverses_effect "t1" demo_user demo_db1 demo_income_tx
       eq_refl ND eq_refl))) eq_refl).
Defined.
(** ** Unique identifiers are kept *)

(** X22: transaction ids stay unique: when the ids in the store and the
    ids the creates of a sequence draw are pairwise distinct, the ids in
    the store after the sequence are pairwise distinct too, and each of
    them was in the store or was drawn. *)
Theorem transaction_ids_stay_unique :
  forall (cu : User) (rs : list Request) (db : DB),
    NoDup (transaction_ids db ++ drawn_ids rs) ->
    NoDup (transaction_ids (serve_all cu rs db)) /\
    incl (transaction_ids (serve_all cu rs db))
      (transaction_ids db ++ drawn_ids rs).
Proof.
  intros cu rs. induction rs as [|r rest IH]; intros db ND.
  - simpl in *. rewrite app_nil_r in *. split; [exact ND | apply incl_refl].
  - simpl. destruct (IH (serve cu r db) (serve_keeps_ids_distinct cu r rest db ND))
      as [U I].
    split; [exact U|].
    intros x Hx. apply I in Hx. apply in_app_or in Hx.
    destruct (serve_transaction_ids cu r db) as [E|[body [uuid4 [now [-> E]]]]].
    + rewrite E in Hx. apply in_or_app.
      destruct Hx as [Hx|Hx]; [now left|]. right.
      destruct r; simpl; auto.
    + rewrite E in Hx. simpl. apply in_or_app.
      destruct Hx as [Hx|Hx].
      * apply in_app_or in Hx. destruct Hx as [Hx|[<-|[]]];
          [now left | right; now left].
      * right. now right.
Qed.

Lemma transaction_ids_stay_unique_witness :
  NoDup (transaction_ids (serve_all demo_user demo_requests demo_db)).
Proof.
  apply (transaction_ids_stay_unique demo_user demo_requests demo_db).
  repeat constructor; simpl; intuition discriminate.
Defined.

(** ** ISO strings of UTC datetimes *)

Lemma compare_pad6 (a b : N) :
  (a < 1000000)%N -> (b < 1000000)%N ->
  String.compare (pad6 a) (pad6 b) = N.compare a b.
Proof.
  intros A B. unfold pad6, pad4, pad2. simpl. rewrite !compare_digit.
  rewrite (N.mod_small (a / 100000)), (N.mod_small (b / 100000))
    by (apply N.Div0.div_lt_upper_bound; lia).
  rewrite (compare_decimal a b).
  rewrite (compare_decimal (a / 10) (b / 10)).
  rewrite (compare_decimal (a / 10 / 10) (b / 10 / 10)).
  rewrite (compare_decimal (a / 10 / 10 / 10) (b / 10 / 10 / 10)).
  rewrite (compare_decimal (a / 10 / 10 / 10 / 10) (b / 10 / 10 / 10 / 10)).
  rewrite !N.Div0.div_div.
  change (10 * 10)%N with 100%N. change (10 * 100)%N with 1000%N.
  change (10 * 1000)%N with 10000%N. change (10 * 10000)%N with 100000%N.
  destruct (a / 100000 ?= b / 100000)%N; try reflexivity.
  destruct ((a / 10000) mod 10 ?= (b / 10000) mod 10)%N; try reflexivity.
  destruct ((a / 1000) mod 10 ?= (b / 1000) mod 10)%N; try reflexivity.
  destruct ((a / 100) mod 10 ?= (b / 100) mod 10)%N; try reflexivity.
  destruct ((a / 10) mod 10 ?= (b / 10) mod 10)%N; try reflexivity.
  now destruct (a mod 10 ?= b mod 10)%N.
Qed.

Lemma compare_fraction (a b : N) :
  (a < 1000000)%N -> (b < 1000000)%N ->
  String.compare
    ((if (a =? 0)%N then "" else "." ++ pad6 a) ++ "+00:00")
    ((if (b =? 0)%N then "" else "." ++ pad6 b) ++ "+00:00")
  = N.compare a b.
Proof.
  intros A B.
  destruct (N.eqb_spec a 0) as [->|Na]; destruct (N.eqb_spec b 0) as [->|Nb].
  - reflexivity.
  - symmetry. apply N.compare_lt_iff. lia.
  - symmetry. apply N.compare_gt_iff. lia.
  - change (("." ++ pad6 a) ++ "+00:00") with ("." ++ (pad6 a ++ "+00:00")).
    change (("." ++ pad6 b) ++ "+00:00") with ("." ++ (pad6 b ++ "+00:00")).
    rewrite (compare_app "." ".") by reflexivity. cbn [String.compare].
    change (Ascii.compare "." ".") with Eq. cbv iota.
    rewrite compare_app by reflexivity.
    rewrite compare_pad6 by assumption.
    now destruct (a ?= b)%N.
Qed.

(** The byte order of the ISO strings of two UTC datetimes is the order
    of their fields. *)
Lemma compare_isoformat_utc (a b : datetime) :
  valid_datetime a = true -> is_utc a = true ->
  valid_datetime b = true -> is_utc b = true ->
  String.compare (isoformat a) (isoformat b) = datetime_compare a b.
Proof.
  intros Va Ua Vb Ub.
  destruct (valid_datetime_bounds a Va)
    as [Ay [Am [Ad [Ah [Ami [As [Aus Adim]]]]]]].
  destruct (valid_datetime_bounds b Vb)
    as [By [Bm [Bd [Bh [Bmi [Bs [Bus Bdim]]]]]]].
  pose proof (days_in_month_le (Z.of_N (year a)) (Z.of_N (month a))) as Da.
  pose proof (days_in_month_le (Z.of_N (year b)) (Z.of_N (month b))) as Db.
  apply is_utc_offset in Ua. apply is_utc_offset in Ub.
  unfold isoformat, datetime_compare. rewrite Ua, Ub.
  change (format_offset (Some 0%Z)) with "+00:00".
  rewrite compare_app by reflexivity. rewrite compare_pad4 by lia.
  destruct (year a ?= year b)%N; try reflexivity.
  rewrite (compare_app "-" "-") by reflexivity. cbn [String.compare].
  change (Ascii.compare "-" "-") with Eq. cbv iota.
  rewrite compare_app by reflexivity. rewrite compare_pad2 by lia.
  destruct (month a ?= month b)%N; try reflexivity.
  rewrite (compare_app "-" "-") by reflexivity. cbn [String.compare].
  change (Ascii.compare "-" "-") with Eq. cbv iota.
  rewrite compare_app by reflexivity. rewrite compare_pad2 by lia.
  destruct (day a ?= day b)%N; try reflexivity.
  rewrite (compare_app "T" "T") by reflexivity. cbn [String.compare].
  change (Ascii.compare "T" "T") with Eq. cbv iota.
  rewrite compare_app by reflexivity. rewrite compare_pad2 by lia.
  destruct (hour a ?= hour b)%N; try reflexivity.
  rewrite (compare_app ":" ":") by reflexivity. cbn [String.compare].
  change (Ascii.compare ":" ":") with Eq. cbv iota.
  rewrite compare_app by reflexivity. rewrite compare_pad2 by lia.
  destruct (minute a ?= minute b)%N; try reflexivity.
  rewrite (compare_app ":" ":") by reflexivity. cbn [String.compare].
  change (Ascii.compare ":" ":") with Eq. cbv iota.
  rewrite compare_app by reflexivity. rewrite compare_pad2 by lia.
  destruct (second a ?= second b)%N; try reflexivity.
  now apply compare_fraction.
Qed.

(** For valid UTC datetimes, an earlier field order is an earlier
    instant. *)
Lemma datetime_compare_lt (a b : datetime) :
  valid_datetime a = true -> is_utc a = true ->
  valid_datetime b = true -> is_utc b = true ->
  datetime_compare a b = Lt -> (instant a < instant b)%Z.
Proof.
  intros Va Ua Vb Ub.
  destruct (valid_datetime_bounds a Va)
    as [Ay [Am [Ad [Ah [Ami [As [Aus Adim]]]]]]].
  destruct (valid_datetime_bounds b Vb)
    as [By [Bm [Bd [Bh [Bmi [Bs [Bus Bdim]]]]]]].
  apply is_utc_offset in Ua. apply is_utc_offset in Ub.
  unfold datetime_compare, instant, toordinal. rewrite Ua, Ub.
  destruct (N.compare_spec (year a) (year b)) as [Ey|Ly|Ly];
    [|intros _|discriminate].
  2:{ pose proof (month_precedes (Z.of_N (year a)) (Z.of_N (month a))
                    (Z.of_N (year b)) (Z.of_N (month b))
                    ltac:(lia) ltac:(lia) ltac:(lia)). lia. }
  destruct (N.compare_spec (month a) (month b)) as [Em|Lm|Lm];
    [|intros _|discriminate].
  2:{ pose proof (month_precedes (Z.of_N (year a)) (Z.of_N (month a))
                    (Z.of_N (year b)) (Z.of_N (month b))
                    ltac:(lia) ltac:(lia) ltac:(lia)). lia. }
  rewrite Ey, Em.
  destruct (N.compare_spec (day a) (day b)) as [Ed|Ld|Ld];
    [|intros _; lia|discriminate].
  rewrite Ed.
  destruct (N.compare_spec (hour a) (hour b)) as [Eh|Lh|Lh];
    [|intros _; lia|discriminate].
  rewrite Eh.
  destruct (N.compare_spec (minute a) (minute b)) as [Emi|Lmi|Lmi];
    [|intros _; lia|discriminate].
  rewrite Emi.
  destruct (N.compare_spec (second a) (second b)) as [Es|Ls|Ls];
    [|intros _; lia|discriminate].
  rewrite Es.
  destruct (N.compare_spec (microsecond a) (microsecond b)) as [Eu|Lu|Lu];
    [discriminate|intros _; lia|discriminate].
Qed.

Lemma datetime_compare_antisym (a b : datetime) :
  datetime_compare b a = CompOpp (datetime_compare a b).
Proof.
  unfold datetime_compare.
  rewrite (N.compare_antisym (year a) (year b)).
  rewrite (N.compare_antisym (month a) (month b)).
  rewrite (N.compare_antisym (day a) (day b)).
  rewrite (N.compare_antisym (hour a) (hour b)).
  rewrite (N.compare_antisym (minute a) (minute b)).
  rewrite (N.compare_antisym (second a) (second b)).
  rewrite (N.compare_antisym (microsecond a) (microsecond b)).
  destruct (year a ?= year b)%N; try reflexivity.
  destruct (month a ?= month b)%N; try reflexivity.
  destruct (day a ?= day b)%N; try reflexivity.
  destruct (hour a ?= hour b)%N; try reflexivity.
  destruct (minute a ?= minute b)%N; try reflexivity.
  destruct (second a ?= second b)%N; reflexivity.
Qed.

Lemma datetime_compare_eq (a b : datetime) :
  utcoffset a = utcoffset b -> datetime_compare a b = Eq -> a = b.
Proof.
  unfold datetime_compare. intros U.
  destruct (N.compare_spec (year a) (year b)); try discriminate.
  destruct (N.compare_spec (month a) (month b)); try discriminate.
  destruct (N.compare_spec (day a) (day b)); try discriminate.
  destruct (N.compare_spec (hour a) (hour b)); try discriminate.
  destruct (N.compare_spec (minute a) (minute b)); try discriminate.
  destruct (N.compare_spec (second a) (second b)); try discriminate.
  destruct (N.compare_spec (microsecond a) (microsecond b)); try discriminate.
  intros _. destruct a, b. simpl in *. congruence.
Qed.

(** X23: for valid UTC datetimes the stored form is faithful to time: the
    byte order of two ISO strings is the order of the two instants, so
    the date bounds of the listing (both ends included) select by
    instant and its descending sort is newest first; and the ISO string
    determines the datetime. *)
Theorem isoformat_orders_utc_instants :
  forall a b : datetime,
    valid_datetime a = true -> is_utc a = true ->
    valid_datetime b = true -> is_utc b = true ->
    String.compare (isoformat a) (isoformat b)
    = Z.compare (instant a) (instant b) /\
    (String.leb (isoformat a) (isoformat b) = true <->
     (instant a <= instant b)%Z) /\
    (isoformat a = isoformat b -> a = b).
Proof.
  intros a b Va Ua Vb Ub.
  pose proof (compare_isoformat_utc a b Va Ua Vb Ub) as C.
  assert (O : utcoffset a = utcoffset b)
    by (rewrite (is_utc_offset a Ua), (is_utc_offset b Ub); reflexivity).
  assert (E : String.compare (isoformat a) (isoformat b)
              = Z.compare (instant a) (instant b)).
  { rewrite C. destruct (datetime_compare a b) eqn:D.
    - rewrite (datetime_compare_eq a b O D). symmetry. apply Z.compare_refl.
    - symmetry. apply Z.compare_lt_iff.
      now apply datetime_compare_lt.
    - symmetry. apply Z.compare_gt_iff.
      apply datetime_compare_lt; auto.
      rewrite datetime_compare_antisym, D. reflexivity. }
  split; [exact E|]. split.
  - unfold String.leb. rewrite E.
    destruct (Z.compare_spec (instant a) (instant b)) as [S|S|S];
      split; intros H; try reflexivity; try lia; discriminate.
  - intros H. apply (datetime_compare_eq a b O). rewrite <- C, H.
    clear. induction (isoformat b) as [|c s IH]; simpl; [reflexivity|].
    unfold Ascii.compare. now rewrite N.compare_refl.
Qed.

Lemma isoformat_orders_utc_instants_witness :
  String.leb (isoformat (start_date 2024 1)) (isoformat demo_now) = true <->
  (instant (start_date 2024 1) <= instant demo_now)%Z.
Proof.
  exact (proj1 (proj2
    (isoformat_orders_utc_instants (start_date 2024 1) demo_now eq_refl eq_refl
       eq_refl eq_refl))).
Defined.

(** ** Categories and what is shown of them *)

(** X24: a soft-deleted category leaves the default listing: with unique
    category ids, after a successful delete no page of the listing of
    active categories shows the id any more. *)
Theorem deleted_category_leaves_the_listing :
  forall (cid : string) (cu : User) (db db1 : DB) (page page_size : nat),
    NoDup (map c_id (categories db)) ->
    delete_category cid cu db = (db1, inr tt) ->
    ~ In cid (map c_id (get_categories None page page_size cu db1)).
Proof.
  intros cid cu db db1 page page_size ND D I.
  unfold delete_category in D.
  destruct (find_one (category_query cid (u_id cu)) (categories db)) as [c0|];
    [|discriminate].
  injection D as <-.
  apply in_map_iff in I. destruct I as [c [E I]].
  unfold get_categories in I. apply paginate_bounds in I.
  apply filter_In in I. destruct I as [I Q]. cbn [categories] in I.
  unfold categories_query in Q. apply andb_prop in Q. destruct Q as [Qu Qa].
  apply String.eqb_eq in Qu. apply Bool.eqb_prop in Qa.
  destruct (inactive_after_delete_category cid (u_id cu) (categories db) ND c
              I E) as [N|N]; congruence.
Qed.

Lemma deleted_category_leaves_the_listing_witness :
  ~ In "c1"
      (map c_id
         (get_categories None 1 50 demo_user
            (fst (delete_category "c1" demo_user demo_db1)))).
Proof.
  apply (deleted_category_leaves_the_listing "c1" demo_user demo_db1).
  - repeat constructor; simpl; intuition discriminate.
  - reflexivity.
Defined.

Lemma breakdown_entry_name (month year : option N) (cu : User)
    (now : datetime) (db : DB) (e : CategoryExpense) :
  In e (expenses (get_expenses_by_category month year cu now db)) ->
  ce_category_name e
  = dict_get_default (ce_category_id e) "Sem categoria"
      (build_category_map (category_window cu db)).
Proof.
  rewrite get_expenses_by_category_unfold. cbn [expenses].
  intros I. apply (Permutation_in _ (sort_desc_perm _)) in I.
  apply in_map_iff in I. destruct I as [entry [<- _]].
  match goal with
  | |- context [make_expense ?m ?T entry] =>
      now destruct (make_expense_fields m T entry) as [-> [_ [_ [_ ->]]]]
  end.
Qed.

Lemma filter_map_same {A : Type} (p : A -> bool) (g : A -> A) (l : list A) :
  (forall x, p (g x) = p x) ->
  filter p (map g l) = map g (filter p l).
Proof.
  intros K. induction l as [|a rest IH]; simpl; [reflexivity|].
  rewrite K. destruct (p a); simpl; now rewrite IH.
Qed.

Lemma find_category_found (cid uid : string) (cats : list Category)
    (c : Category) :
  find_one (category_query cid uid) cats = Some c ->
  In c cats /\ c_id c = cid /\ c_user_id c = uid /\ c_is_active c = true.
Proof.
  intros F. apply find_some in F. destruct F as [I Q]. split; [exact I|].
  unfold category_query in Q.
  apply andb_prop in Q. destruct Q as [Q A].
  apply andb_prop in Q. destruct Q as [Qi Qu].
  apply String.eqb_eq in Qi. apply String.eqb_eq in Qu. auto.
Qed.

(** X25: a rename shows in the breakdown at once: with unique category
    ids and no more than 1000 categories of the caller, after an update
    that gives a category a new name, every group of the breakdown under
    that category id carries the new name. *)
Theorem renamed_category_shows_in_breakdown :
  forall (cid n : string) (data : CategoryUpdate) (cu : User) (db : DB)
         (c : Category) (month year : option N) (now : datetime)
         (e : CategoryExpense),
    NoDup (map c_id (categories db)) ->
    (List.length
       (filter (fun x => String.eqb (c_user_id x) (u_id cu)) (categories db))
     <= N.to_nat 1000)%nat ->
    find_one (category_query cid (u_id cu)) (categories db) = Some c ->
    cup_name data = Some n ->
    In e (expenses
            (get_expenses_by_category month year cu now
               (fst (update_category cid data cu db)))) ->
    ce_category_id e = Some cid ->
    ce_category_name e = n.
Proof.
  intros cid n data cu db c month year now e ND L F En I Ek.
  rewrite (breakdown_entry_name _ _ _ _ _ _ I), Ek.
  rewrite (update_category_found cid data cu db c F), En. cbn [fst].
  unfold category_window, to_list, find_many. cbn [categories].
  rewrite (update_one_unique_id cid (set_category_name n) (categories db) ND)
    by reflexivity.
  set (g := fun x => if String.eqb (c_id x) cid
                     then set_category_name n x else x).
  assert (Eg : filter (fun x => String.eqb (c_user_id x) (u_id cu))
                 (map g (categories db))
               = map g (filter (fun x => String.eqb (c_user_id x) (u_id cu))
                          (categories db))).
  { apply filter_map_same. intros x. unfold g.
    destruct (String.eqb (c_id x) cid); reflexivity. }
  rewrite Eg, firstn_all2 by (now rewrite length_map).
  destruct (find_category_found cid (u_id cu) (categories db) c F)
    as [Ic [Ei [Eu _]]].
  unfold dict_get_default, build_category_map.
  destruct (category_map_lookup (Some cid)
              (map g (filter (fun x => String.eqb (c_user_id x) (u_id cu))
                        (categories db))) [])
    as [[_ N]|[c' [Ic' [K ->]]]].
  - exfalso. apply (N (g c)).
    + apply in_map. apply filter_In. split; [exact Ic|].
      rewrite Eu. apply String.eqb_refl.
    + unfold g. rewrite Ei, String.eqb_refl. simpl. now rewrite Ei.
  - apply in_map_iff in Ic'. destruct Ic' as [x [<- _]].
    assert (Ex : c_id x = cid).
    { unfold g in K. destruct (String.eqb (c_id x) cid); simpl in K;
        congruence. }
    unfold g. rewrite Ex, String.eqb_refl. reflexivity.
Qed.

Lemma renamed_category_shows_in_breakdown_witness :
  ce_category_name
    (hd (mk_CategoryExpense None "" 0 0 0)
       (expenses
          (get_expenses_by_category (Some 1%N) (Some 2024%N) demo_user demo_now
             (fst (update_category "c1" (mk_CategoryUpdate (Some "Feira"))
                     demo_user demo_db2)))))
  = "Feira".
Proof.
  assert (ND : NoDup (map c_id (categories demo_db2)))
    by (repeat constructor; simpl; intuition discriminate).
  assert (L : (List.length
                 (filter (fun x => String.eqb (c_user_id x) (u_id demo_user))
                    (categories demo_db2)) <= N.to_nat 1000)%nat)
    by (apply Nat.leb_le; vm_compute; reflexivity).
  apply (renamed_category_shows_in_breakdown "c1" "Feira"
           (mk_CategoryUpdate (Some "Feira")) demo_user demo_db2
           (mk_Category "c1" "u1" "Mercado" true) (Some 1%N) (Some 2024%N)
           demo_now _ ND L eq_refl eq_refl).
  - cbv. left. reflexivity.
  - reflexivity.
Defined.

